(** * nx-check-changes: which projects of an Nx workspace a change affects

    A shallow embedding of the GitHub action in [src/main.ts], followed by
    the properties its specification states about it.

    [main.ts] is embedded in its current revision, the one with the project
    listings [allApps] and [allLibs], the keyed fan-out entries and the
    [ignore] input: [dirFinder], [getChanges], [getBaseAndHeadRefs] and
    [main].  Of the earlier revision kept in [src/unnamed/part_000] the
    function that differs in what the statements are about, [getChanges],
    is embedded in [Part000], and so is, in [SecondRevision], the
    [getChanges] of the revision that follows the current one in
    [main.ts].

    Conventions of the embedding.
    - A JavaScript string is the [string] of its UTF-8 bytes, which is
      what a string literal of this file denotes.  Equality ([===],
      [Array.prototype.includes], [Set] membership) is equality of the
      byte sequences; the slash, the dot and the regular-expression
      syntax characters are single bytes that occur in no longer
      sequence.
    - A JavaScript array is a [list]; a [Set<string>] is the list of its
      elements in insertion order, which is what [values()] enumerates.
    - [undefined] as the result of a lookup is [None].
    - The accumulator of the [reduce] is mutated in place and handed on;
      here each step returns the next accumulator.
    - Statements that promise a result, or whose truth depends on how
      the pattern of [dirFinder] matches, carry [plainDir] for the
      directories involved; statements that describe a result that was
      returned are proved from lemmas about [reducer] that hold for any
      pair of matchers. *)

From Stdlib Require Import List String Ascii Bool Arith Lia.
Import ListNotations.

Open Scope list_scope.
Open Scope string_scope.

(* ================================================================= *)
(** ** JavaScript primitives used by the action *)

Module JS.

(** [!!v] for a value that is a string or [undefined]: the empty string
    and [undefined] are falsy. *)
Definition truthy (v : option string) : bool :=
  match v with
  | Some (String _ _) => true
  | _ => false
  end.

(** [xs.includes(x)] on an array of strings. *)
Definition includes (xs : list string) (x : string) : bool :=
  existsb (String.eqb x) xs.

(** [xs.find(p)]: the first element that satisfies [p]. *)
Definition find {A : Type} (p : A -> bool) (xs : list A) : option A :=
  List.find p xs.

(** [set.add(x)] on a [Set<string>]: an element already present keeps its
    place, a new one goes last. *)
Definition add (set : list string) (x : string) : list string :=
  if includes set x then set else (set ++ [x])%list.

(** [xs.forEach(x => set.add(f(x)))]. *)
Definition addEach (f : string -> string) (xs : list string)
    (set : list string) : list string :=
  fold_left (fun s x => add s (f x)) xs set.

(** [s.split(sep)] for a one-character separator; the result is never
    empty. *)
Fixpoint split (sep : ascii) (s : string) : list string :=
  match s with
  | "" => [""]
  | String c s' =>
      if Ascii.eqb c sep then "" :: split sep s'
      else match split sep s' with
           | seg :: segs => String c seg :: segs
           | [] => [String c ""]
           end
  end.

(** [xs.slice(-1)[0]] on a non-empty array: its last element. *)
Definition lastOf (xs : list string) : string := last xs "".

End JS.

(** [name.split('/').slice(-1)[0]], the idiom [main.ts] applies to every
    name before it enters a result set. *)
Definition lastSegment (name : string) : string :=
  JS.lastOf (JS.split "/" name).

(* ================================================================= *)
(** ** [dirFinder]: the path-to-project matcher *)

(** [dirFinder(dir)] builds [new RegExp(`(${dir}\/[^/]+)\/.+`)] and returns
    [file => file.match(pathRegExp)?.[1]].

    The directory is spliced into the pattern source unescaped.  The
    embedding reads it as a literal, which is what the engine does exactly
    when [plainDir dir] holds: none of its characters is regular-expression
    syntax.  For such a directory the pattern is
    [dir], [/], a greedy run of non-slash characters, [/], and one or more
    characters that are not line terminators, with no anchor at either
    end.  For any other directory the constructor can throw a
    [SyntaxError] (it does for [apps(]) or build a pattern that matches
    otherwise; neither is embedded, and [plainDir] is the boundary of
    what [dirFinder], [getChanges] and [main] say about the code. *)

Definition syntaxCharacter (c : ascii) : bool :=
  existsb (Ascii.eqb c)
    ["\"; "^"; "$"; "."; "*"; "+"; "?"; "("; ")"; "["; "]"; "{"; "}"; "|"]%char.

Fixpoint plainDir (dir : string) : bool :=
  match dir with
  | "" => true
  | String c dir' => negb (syntaxCharacter c) && plainDir dir'
  end.

(** The characters [.] refuses, at the head of [s]: line feed, carriage
    return, and the line and paragraph separators U+2028 and U+2029,
    whose UTF-8 bytes are E2 80 A8 and E2 80 A9. *)
Definition lineTerminator (s : string) : bool :=
  match s with
  | String c s' =>
      Ascii.eqb c "010" || Ascii.eqb c "013"
      || (Ascii.eqb c "226"
          && match s' with
             | String c2 (String c3 _) =>
                 Ascii.eqb c2 "128"
                 && (Ascii.eqb c3 "168" || Ascii.eqb c3 "169")
             | _ => false
             end)
  | "" => false
  end.

(** Consume the literal [p] at the head of [s]. *)
Fixpoint stripPrefix (p s : string) : option string :=
  match p, s with
  | "", _ => Some s
  | String a p', String b s' =>
      if Ascii.eqb a b then stripPrefix p' s' else None
  | String _ _, "" => None
  end.

(** [[^/]*] run greedily: the longest slash-free prefix and what follows. *)
Fixpoint takeSegment (s : string) : string * string :=
  match s with
  | "" => ("", "")
  | String c s' =>
      if Ascii.eqb c "/" then ("", s)
      else let (seg, rest) := takeSegment s' in (String c seg, rest)
  end.

(** One attempt of the pattern with its first character at the head of [s];
    the result is capture group 1.  The slash after [[^/]+] can only be
    the character that stopped the greedy run, so no shorter run succeeds;
    [.+] succeeds as soon as one character follows that is not a line
    terminator. *)
Definition matchHere (dir s : string) : option string :=
  match stripPrefix dir s with
  | Some (String sep afterDir) =>
      if Ascii.eqb sep "/" then
        match takeSegment afterDir with
        | (String c seg, String sep' (String d rest)) =>
            if Ascii.eqb sep' "/" && negb (lineTerminator (String d rest))
            then Some (dir ++ String "/" (String c seg))
            else None
        | _ => None
        end
      else None
  | _ => None
  end.

(** [file.match(pathRegExp)?.[1]]: the attempt at the leftmost position
    that succeeds. *)
Fixpoint regExpMatch (dir file : string) : option string :=
  match matchHere dir file with
  | Some group1 => Some group1
  | None =>
      match file with
      | "" => None
      | String _ file' => regExpMatch dir file'
      end
  end.

Definition dirFinder (dir : string) : string -> option string :=
  fun file => regExpMatch dir file.

(* ================================================================= *)
(** ** [getChanges] *)

(** An entry of the [implicitDependencies] table that [main] builds: the
    object [{ file }] for a key of [nx.json]'s [implicitDependencies], or
    the object [{ key, projects }] that groups the projects declaring [key]
    as an implicit dependency.  Reading a property an object does not have
    gives [undefined]. *)
Inductive ImplicitDependency : Type :=
| Global (file : string)
| Keyed (key : string) (projects : list string).

Definition dep_file (dependency : ImplicitDependency) : option string :=
  match dependency with
  | Global file => Some file
  | Keyed _ _ => None
  end.

Definition dep_key (dependency : ImplicitDependency) : option string :=
  match dependency with
  | Global _ => None
  | Keyed key _ => Some key
  end.

Definition dep_projects (dependency : ImplicitDependency)
  : option (list string) :=
  match dependency with
  | Global _ => None
  | Keyed _ projects => Some projects
  end.

(** [s === v] where [v] is a string or [undefined]. *)
Definition strictEq (s : string) (v : option string) : bool :=
  match v with
  | Some s' => String.eqb s s'
  | None => false
  end.

(** [interface Changes]. *)
Record Changes : Type := {
  apps : list string;
  libs : list string;
  implicitDependencies : list string
}.

(** The accumulator of the [reduce]: two [Set<string>] and an array. *)
Record AccumulatedChanges : Type := {
  acc_apps : list string;
  acc_libs : list string;
  acc_implicitDependencies : list string
}.

Definition initialChanges : AccumulatedChanges :=
  {| acc_apps := []; acc_libs := []; acc_implicitDependencies := [] |}.

Definition withApps (a : AccumulatedChanges) (s : list string) :=
  {| acc_apps := s; acc_libs := acc_libs a;
     acc_implicitDependencies := acc_implicitDependencies a |}.

Definition withLibs (a : AccumulatedChanges) (s : list string) :=
  {| acc_apps := acc_apps a; acc_libs := s;
     acc_implicitDependencies := acc_implicitDependencies a |}.

Definition withImplicitDependencies (a : AccumulatedChanges)
    (l : list string) :=
  {| acc_apps := acc_apps a; acc_libs := acc_libs a;
     acc_implicitDependencies := l |}.

(** [file => implicitDependencies.find(dependency => file === dependency.file)] *)
Definition findImplicitDependencies
    (implicitDependencies : list ImplicitDependency) (file : string)
  : option ImplicitDependency :=
  JS.find (fun dependency => strictEq file (dep_file dependency))
          implicitDependencies.

(** [implicitDependencies.find(dependency => dependency.key === libName)?.projects] *)
Definition findProjects (implicitDependencies : list ImplicitDependency)
    (libName : string) : option (list string) :=
  match JS.find (fun dependency => strictEq libName (dep_key dependency))
                implicitDependencies with
  | Some dependency => dep_projects dependency
  | None => None
  end.

(** The callback of [[...projects].forEach]. *)
Definition markProject (allApps allLibs : list string)
    (accumulatedChanges : AccumulatedChanges) (project : string)
  : AccumulatedChanges :=
  let accumulatedChanges :=
    if JS.includes allApps project
    then withApps accumulatedChanges
           (JS.add (acc_apps accumulatedChanges) (lastSegment project))
    else accumulatedChanges in
  if JS.includes allLibs project
  then withLibs accumulatedChanges
         (JS.add (acc_libs accumulatedChanges) (lastSegment project))
  else accumulatedChanges.

(** The callback of [changedFiles.reduce]: three blocks, one after the
    other, each an [if] without [else] and without [return]. *)
Definition reducer (findApp findLib : string -> option string)
    (allApps allLibs : list string)
    (implicitDependencies : list ImplicitDependency)
    (accumulatedChanges : AccumulatedChanges) (file : string)
  : AccumulatedChanges :=
  let accumulatedChanges :=
    match findImplicitDependencies implicitDependencies file with
    | Some implicitDependency =>
        {| acc_apps :=
             JS.addEach lastSegment allApps (acc_apps accumulatedChanges);
           acc_libs :=
             JS.addEach lastSegment allLibs (acc_libs accumulatedChanges);
           acc_implicitDependencies :=
             (* [push(implicitDependency.file)]; the entry was selected on
                its [file], so the property is there *)
             match dep_file implicitDependency with
             | Some f => (acc_implicitDependencies accumulatedChanges ++ [f])%list
             | None => acc_implicitDependencies accumulatedChanges
             end |}
    | None => accumulatedChanges
    end in
  let lib := findLib file in
  let accumulatedChanges :=
    match lib with
    | Some lib' =>
        if JS.truthy lib then
          let libName := lastSegment lib' in
          let accumulatedChanges :=
            withLibs accumulatedChanges
              (JS.add (acc_libs accumulatedChanges) (lastSegment lib')) in
          match findProjects implicitDependencies libName with
          | Some projects =>
              fold_left (markProject allApps allLibs) projects
                        accumulatedChanges
          | None => accumulatedChanges
          end
        else accumulatedChanges
    | None => accumulatedChanges
    end in
  let app := findApp file in
  match app with
  | Some app' =>
      if JS.truthy app then
        withApps accumulatedChanges
          (JS.add (acc_apps accumulatedChanges) (lastSegment app'))
      else accumulatedChanges
  | None => accumulatedChanges
  end.

(** [getChanges] of [main.ts].  The result's [apps] goes through the
    [ignore] filter; its [libs] is the set as accumulated. *)
Definition getChanges (appsDir libsDir : string)
    (allApps allLibs : list string)
    (implicitDependencies : list ImplicitDependency)
    (changedFiles : list string) (ignore : list string) : Changes :=
  let findApp := dirFinder appsDir in
  let findLib := dirFinder libsDir in
  let changes :=
    fold_left (reducer findApp findLib allApps allLibs implicitDependencies)
              changedFiles initialChanges in
  {| apps := filter (fun name => negb (JS.includes ignore name))
                    (acc_apps changes);
     libs := acc_libs changes;
     implicitDependencies := acc_implicitDependencies changes |}.

(* ================================================================= *)
(** ** The revision without project listings *)

(** [src/unnamed/part_000] is [main.ts] before [allApps], [allLibs] and the
    keyed entries were introduced: [implicitDependencies] is an array of
    file names, a project is reported as the matched path
    ([apps/web], not [web]), and both result sets go through the [ignore]
    filter. *)
Module Part000.

Definition findImplicitDependencies (implicitDependencies : list string)
    (file : string) : option string :=
  JS.find (fun dependency => String.eqb file dependency) implicitDependencies.

Definition reducer (findApp findLib : string -> option string)
    (implicitDependencies : list string)
    (accumulatedChanges : AccumulatedChanges) (file : string)
  : AccumulatedChanges :=
  let app := findApp file in
  let accumulatedChanges :=
    match app with
    | Some app' =>
        if JS.truthy app
        then withApps accumulatedChanges
               (JS.add (acc_apps accumulatedChanges) app')
        else accumulatedChanges
    | None => accumulatedChanges
    end in
  let lib := findLib file in
  let accumulatedChanges :=
    match lib with
    | Some lib' =>
        if JS.truthy lib
        then withLibs accumulatedChanges
               (JS.add (acc_libs accumulatedChanges) lib')
        else accumulatedChanges
    | None => accumulatedChanges
    end in
  let implicitDependency :=
    findImplicitDependencies implicitDependencies file in
  match implicitDependency with
  | Some implicitDependency' =>
      if JS.truthy implicitDependency
      then withImplicitDependencies accumulatedChanges
             (acc_implicitDependencies accumulatedChanges
                ++ [implicitDependency'])%list
      else accumulatedChanges
  | None => accumulatedChanges
  end.

Definition getChanges (appsDir libsDir : string)
    (implicitDependencies : list string)
    (changedFiles : list string) (ignore : list string) : Changes :=
  let findApp := dirFinder appsDir in
  let findLib := dirFinder libsDir in
  let changes :=
    fold_left (reducer findApp findLib implicitDependencies)
              changedFiles initialChanges in
  {| apps := filter (fun name => negb (JS.includes ignore name))
                    (acc_apps changes);
     libs := filter (fun name => negb (JS.includes ignore name))
                    (acc_libs changes);
     implicitDependencies := acc_implicitDependencies changes |}.

End Part000.

(* ================================================================= *)
(** ** [getBaseAndHeadRefs] *)

(** What [JSON.parse] returns.  A number is kept as the text of its
    literal; the action never looks inside one. *)
#[local] Unset Elimination Schemes.
Inductive JSON : Type :=
| JNull
| JBool (b : bool)
| JNumber (literal : string)
| JString (s : string)
| JArray (elements : list JSON)
| JObject (members : list (string * JSON)).
#[local] Set Elimination Schemes.

(** [Array.isArray(tmp)] with the elements when it holds. *)
Definition isArray (tmp : JSON) : option (list JSON) :=
  match tmp with
  | JArray elements => Some elements
  | _ => None
  end.

(** Whether [String(v)] returns for a value [JSON.parse] built.  An
    object is converted by its [toString]: an own property of that name
    holds parsed data, which cannot be called, and [valueOf] then gives
    no primitive either, so the conversion throws a [TypeError]; without
    one, [Object.prototype.toString] answers.  An array is converted by
    [join], which converts its elements in turn ([null] becomes the empty
    string). *)
Fixpoint convertible (v : JSON) : bool :=
  match v with
  | JArray elements => forallb convertible elements
  | JObject members =>
      negb (existsb (fun member => String.eqb (fst member) "toString")
                    members)
  | _ => true
  end.

(** Whether [elements.join(',')] returns. *)
Definition joins (elements : list JSON) : bool :=
  forallb convertible elements.

(** The message of the [TypeError] of a failed conversion, as Node
    words it. *)
Definition cannotConvert : string :=
  "Cannot convert object to primitive value".

(** The part of [context.payload] the action reads; a property that is
    absent reads as [undefined]. *)
Record Payload : Type := {
  pull_request_base_sha : option string;
  pull_request_head_sha : option string;
  before : option string;
  after : option string
}.

Record Context : Type := {
  eventName : string;
  payload : Payload
}.

(** [interface Refs].  [ignore] is declared [string[]] and holds whatever
    array [JSON.parse] produced. *)
Record Refs : Type := {
  base : string;
  head : string;
  ignore : list JSON
}.

(** [throw new Error(message)] is [inl message]. *)
Definition Result (A : Type) : Type := (string + A)%type.

Section References.

(** [JSON.parse]: [None] when it throws. *)
Variable JSON_parse : string -> option JSON.

(** The [try] block: [parsedIgnore] stays [[]] unless the text parses to an
    array; the [catch] only logs. *)
Definition parseIgnore (ignore : string) : list JSON :=
  match JSON_parse ignore with
  | Some tmp =>
      match isArray tmp with
      | Some elements => elements
      | None => []
      end
  | None => []
  end.

(** [base] and [head] start as the inputs and are overwritten from the
    payload for [pull_request] and [push], where an absent property leaves
    [undefined]; any other event keeps the inputs and throws when one is
    falsy.  The ignore text is parsed next, then comes the second check
    of [!base || !head], and last the three [info] lines, of which the
    third evaluates [parsedIgnore.join(',')] and throws when that
    does. *)
Definition getBaseAndHeadRefs (context : Context)
    (base head ignore : string) : Result Refs :=
  let base : option string := Some base in
  let head : option string := Some head in
  let afterSwitch : Result (option string * option string) :=
    if String.eqb (eventName context) "pull_request" then
      inr (pull_request_base_sha (payload context),
           pull_request_head_sha (payload context))
    else if String.eqb (eventName context) "push" then
      inr (before (payload context), after (payload context))
    else if negb (JS.truthy base) || negb (JS.truthy head) then
      inl ("Missing 'base' or 'head' refs for event type '"
             ++ eventName context ++ "'")
    else inr (base, head) in
  match afterSwitch with
  | inl error => inl error
  | inr (base, head) =>
      let parsedIgnore := parseIgnore ignore in
      match base, head with
      | Some base', Some head' =>
          if negb (JS.truthy base) || negb (JS.truthy head)
          then inl "Base or head refs are missing"
          else if joins parsedIgnore
          then inr {| base := base'; head := head'; ignore := parsedIgnore |}
          else inl cannotConvert
      | _, _ => inl "Base or head refs are missing"
      end
  end.

End References.

(** The names an [ignore] array can exclude: [includes] compares with
    strict equality, so an element that is not a string equals no name. *)
Fixpoint ignoredNames (ignore : list JSON) : list string :=
  match ignore with
  | [] => []
  | JString s :: rest => s :: ignoredNames rest
  | _ :: rest => ignoredNames rest
  end.

(* ================================================================= *)
(** ** [main] *)

(** The value of a [setOutput]: a joined string, the array that
    [JSON.stringify] serialises for the matrix, or a boolean. *)
Inductive Output : Type :=
| Text (s : string)
| Names (names : list string)
| Flag (b : bool).

(** The calls [main] makes to its collaborators, in the order it makes
    them: the comparison of the two commits, the reads of the workspace
    files and of the two directories, the outputs, the failure report.
    Lines written to the job log ([info], [console.log]) are not
    recorded; what they evaluate is a string, a string array or the
    [JSON.stringify] of parsed data, none of which throws, the line of
    [getBaseAndHeadRefs] apart. *)
Inductive Call : Type :=
| CompareCommits (base head : string)
| ReadNxJson
| ReadWorkspaceJson
| Readdir (path : string)
| SetOutput (name : string) (value : Output)
| SetFailed (error : string).

(** A computation that makes calls and then returns or throws. *)
Definition Action (A : Type) : Type := (list Call * Result A)%type.

Definition ret {A : Type} (a : A) : Action A := ([], inr a).

Definition bind {A B : Type} (m : Action A) (k : A -> Action B)
  : Action B :=
  match m with
  | (calls, inl error) => (calls, inl error)
  | (calls, inr a) => let (calls', r) := k a in ((calls ++ calls')%list, r)
  end.

Definition call {A : Type} (c : Call) (answer : Result A) : Action A :=
  ([c], answer).

Definition lift {A : Type} (r : Result A) : Action A := ([], r).

Notation "x <- m ;; k" := (bind m (fun x => k))
  (at level 61, m at next level, right associativity).
Notation "m ;;; k" := (bind m (fun _ => k))
  (at level 61, right associativity).

(** [nx.json] and [workspace.json], as far as [main] reads them. *)
Record WorkspaceLayout : Type := {
  layout_appsDir : option string;
  layout_libsDir : option string
}.

Record NxJsonConfiguration : Type := {
  nx_implicitDependencies : option (list string);
  nx_workspaceLayout : option WorkspaceLayout
}.

Record WorkspaceJsonConfiguration : Type := {
  projects : list (string * option (list string))
}.

(** What the collaborators answer.  [getOctokit] stands for
    [getOctokit(process.env.GITHUB_TOKEN)]: it builds the client, or throws,
    and requests nothing. *)
Record World : Type := {
  context : Context;
  getInput : string -> string;
  getOctokit : Result unit;
  compareCommits : string -> string -> Result (list string);
  readNxJson : Result NxJsonConfiguration;
  readWorkspaceJson : Result WorkspaceJsonConfiguration;
  readdir : string -> Result (list string)
}.

(** [v || fallback] for a string or [undefined]. *)
Definition orElse (v : option string) (fallback : string) : string :=
  match v with
  | Some (String c s) => String c s
  | _ => fallback
  end.

(** The body of [implicitDependencies.forEach(key => ...)]: the entry for
    [key] is looked up, created at the end of [result] when there is none,
    and [name] joins its [projects]. *)
Fixpoint declare (name : string) (result : list ImplicitDependency)
    (key : string) : list ImplicitDependency :=
  match result with
  | [] => [Keyed key (JS.add [] name)]
  | item :: rest =>
      if strictEq key (dep_key item)
      then match item with
           | Keyed k projects => Keyed k (JS.add projects name) :: rest
           | Global _ => item :: rest
           end
      else item :: declare name rest key
  end.

(** The table [main] hands to [getChanges]. *)
Definition buildImplicitDependencies (nx : NxJsonConfiguration)
    (workspace : WorkspaceJsonConfiguration) : list ImplicitDependency :=
  (map Global (match nx_implicitDependencies nx with
               | Some keys => keys
               | None => []
               end)
   ++ fold_left
        (fun result entry =>
           let '(name, project) := entry in
           let implicitDependencies :=
             match project with Some keys => keys | None => [] end in
           fold_left (declare name) implicitDependencies result)
        (projects workspace) [])%list.

(** [name => name[0] !== '.'] *)
Definition notHidden (name : string) : bool :=
  match name with
  | String c _ => negb (Ascii.eqb c ".")
  | "" => true
  end.

Section Main.

Variable JSON_parse : string -> option JSON.

Definition run (w : World) : Action unit :=
  lift (getOctokit w) ;;;
  refs <- lift (getBaseAndHeadRefs JSON_parse (context w)
                  (getInput w "baseRef") (getInput w "headRef")
                  (getInput w "ignore")) ;;
  changedFiles <- call (CompareCommits (base refs) (head refs))
                       (compareCommits w (base refs) (head refs)) ;;
  nx <- call ReadNxJson (readNxJson w) ;;
  workspace <- call ReadWorkspaceJson (readWorkspaceJson w) ;;
  let dependencies := buildImplicitDependencies nx workspace in
  let appsDir :=
    orElse (match nx_workspaceLayout nx with
            | Some l => layout_appsDir l | None => None end) "apps" in
  let libsDir :=
    orElse (match nx_workspaceLayout nx with
            | Some l => layout_libsDir l | None => None end) "libs" in
  apps0 <- call (Readdir appsDir) (readdir w appsDir) ;;
  let allApps := filter notHidden apps0 in
  libs0 <- call (Readdir libsDir) (readdir w libsDir) ;;
  let allLibs := filter notHidden libs0 in
  let changes :=
    getChanges appsDir libsDir allApps allLibs dependencies
               changedFiles (ignoredNames (ignore refs)) in
  call (SetOutput "changed-apps-matrix" (Names (apps changes))) (inr tt) ;;;
  call (SetOutput "changed-apps" (Text (String.concat " " (apps changes))))
       (inr tt) ;;;
  call (SetOutput "changed-libs" (Text (String.concat " " (libs changes))))
       (inr tt) ;;;
  call (SetOutput "changed-dirs"
          (Text (String.concat " " (apps changes ++ libs changes)%list)))
       (inr tt) ;;;
  call (SetOutput "changed-implicit-dependencies"
          (Text (String.concat " " (implicitDependencies changes))))
       (inr tt) ;;;
  call (SetOutput "not-affected"
          (Flag (Nat.eqb (List.length (apps changes)) 0
                 && Nat.eqb (List.length (libs changes)) 0
                 && Nat.eqb (List.length (implicitDependencies changes)) 0)))
       (inr tt).

(** [main().catch(error => setFailed(error))]: the calls of one run,
    for directories within the embedding of [dirFinder]. *)
Definition main (w : World) : list Call :=
  match run w with
  | (calls, inl error) => (calls ++ [SetFailed error])%list
  | (calls, inr _) => calls
  end.

End Main.

(* ================================================================= *)
(** ** The revision with project listings and no ignore input *)

(** The second revision kept in [main.ts], after the current one:
    [getChanges] takes [allApps], [allLibs] and the table, and no
    [ignore]; a matched project is stored as the matched path, a listed
    or fanned-out one as it is listed; the key looked up in the table is
    [lib.slice(libsDir.length + 1)]; and the entry found for a global
    trigger is pushed itself, not its [file].  (Its [main] builds a
    global entry as [{ file, target: '*' }]; [target] is never read, and
    [Global file] stands for that object.) *)
Module SecondRevision.

(** [s.slice(n)] for [n >= 0]: what follows the first [n] units.  The
    embedding counts bytes, here and in [String.length]; in
    [lib.slice(libsDir.length + 1)] the cut falls after the directory
    and one slash whichever the unit. *)
Fixpoint slice (n : nat) (s : string) : string :=
  match n, s with
  | 0, _ => s
  | S n', String _ s' => slice n' s'
  | S _, "" => ""
  end.

(** The accumulator of the [reduce]; the result has the same shape, the
    sets spread into arrays. *)
Record Changes : Type := {
  apps : list string;
  libs : list string;
  implicitDependencies : list ImplicitDependency
}.

Definition initialChanges : Changes :=
  {| apps := []; libs := []; implicitDependencies := [] |}.

Definition withApps (a : Changes) (s : list string) : Changes :=
  {| apps := s; libs := libs a;
     implicitDependencies := implicitDependencies a |}.

Definition withLibs (a : Changes) (s : list string) : Changes :=
  {| apps := apps a; libs := s;
     implicitDependencies := implicitDependencies a |}.

(** The callback of [[...projects].forEach]. *)
Definition markProject (allApps allLibs : list string)
    (accumulatedChanges : Changes) (project : string) : Changes :=
  let accumulatedChanges :=
    if JS.includes allApps project
    then withApps accumulatedChanges
           (JS.add (apps accumulatedChanges) project)
    else accumulatedChanges in
  if JS.includes allLibs project
  then withLibs accumulatedChanges
         (JS.add (libs accumulatedChanges) project)
  else accumulatedChanges.

(** The callback of [changedFiles.reduce]. *)
Definition reducer (findApp findLib : string -> option string)
    (libsDir : string) (allApps allLibs : list string)
    (table : list ImplicitDependency)
    (accumulatedChanges : Changes) (file : string) : Changes :=
  let accumulatedChanges :=
    match findImplicitDependencies table file with
    | Some implicitDependency =>
        {| apps := JS.addEach (fun app => app) allApps
                              (apps accumulatedChanges);
           libs := JS.addEach (fun lib => lib) allLibs
                              (libs accumulatedChanges);
           implicitDependencies :=
             (implicitDependencies accumulatedChanges
                ++ [implicitDependency])%list |}
    | None => accumulatedChanges
    end in
  let lib := findLib file in
  let accumulatedChanges :=
    match lib with
    | Some lib' =>
        if JS.truthy lib then
          let libName := slice (String.length libsDir + 1) lib' in
          let accumulatedChanges :=
            withLibs accumulatedChanges
              (JS.add (libs accumulatedChanges) lib') in
          match findProjects table libName with
          | Some projects =>
              fold_left (markProject allApps allLibs) projects
                        accumulatedChanges
          | None => accumulatedChanges
          end
        else accumulatedChanges
    | None => accumulatedChanges
    end in
  let app := findApp file in
  match app with
  | Some app' =>
      if JS.truthy app
      then withApps accumulatedChanges
             (JS.add (apps accumulatedChanges) app')
      else accumulatedChanges
  | None => accumulatedChanges
  end.

Definition getChanges (appsDir libsDir : string)
    (allApps allLibs : list string) (table : list ImplicitDependency)
    (changedFiles : list string) : Changes :=
  let findApp := dirFinder appsDir in
  let findLib := dirFinder libsDir in
  fold_left (reducer findApp findLib libsDir allApps allLibs table)
            changedFiles initialChanges.

End SecondRevision.

(* ================================================================= *)
(** ** Vocabulary of the statements *)

(** A string without a slash: one path component, possibly empty.  The
    names [fs.readdir] lists are of this kind. *)
Fixpoint noSlash (s : string) : bool :=
  match s with
  | "" => true
  | String c s' => negb (Ascii.eqb c "/") && noSlash s'
  end.

(** No slash at position [n] or later. *)
Fixpoint noSlashFrom (n : nat) (s : string) : bool :=
  match s with
  | "" => true
  | String c s' =>
      match n with
      | 0 => negb (Ascii.eqb c "/") && noSlashFrom 0 s'
      | S n' => noSlashFrom n' s'
      end
  end.

(** The first character of a non-empty string is not a line terminator:
    [.+] can start there. *)
Definition startsOnLine (rest : string) : bool :=
  match rest with
  | String d rest' => negb (lineTerminator (String d rest'))
  | "" => false
  end.

(** [<dir>/<name>/<rest>] and [<dir>/<name>]. *)
Definition inside (dir name rest : string) : string :=
  dir ++ String "/" (name ++ String "/" rest).

Definition projectPath (dir name : string) : string :=
  dir ++ String "/" name.


(** The result with three empty fields. *)
Definition nothing : Changes :=
  {| apps := []; libs := []; implicitDependencies := [] |}.

(** The three rules of the specification, each as what it contributes for
    one file taken on its own: the names to mark and the paths to record.
    Names are in the form the code stores them, their last segment. *)

(** Rule 1, implicit-dependency direct hit: the file is the recorded file
    of a global entry; every known app and lib, and the path. *)
Definition globalHit (table : list ImplicitDependency)
    (allApps allLibs : list string) (file : string) : Changes :=
  if existsb (fun entry => strictEq file (dep_file entry)) table
  then {| apps := map lastSegment allApps;
          libs := map lastSegment allLibs;
          implicitDependencies := [file] |}
  else nothing.

(** Rule 2, library hit: the matched library, and the projects of the
    entry it keys, split by membership in the two listings. *)
Definition libraryHit (findLib : string -> option string)
    (table : list ImplicitDependency)
    (allApps allLibs : list string) (file : string) : Changes :=
  match findLib file with
  | Some (String c l) =>
      let libName := lastSegment (String c l) in
      let fanOut :=
        match findProjects table libName with
        | Some projects => projects
        | None => []
        end in
      {| apps := map lastSegment (filter (JS.includes allApps) fanOut);
         libs := libName
                 :: map lastSegment (filter (JS.includes allLibs) fanOut);
         implicitDependencies := [] |}
  | _ => nothing
  end.

(** Rule 3, application hit: the matched application. *)
Definition applicationHit (findApp : string -> option string)
    (file : string) : Changes :=
  match findApp file with
  | Some (String c a) =>
      {| apps := [lastSegment (String c a)]; libs := [];
         implicitDependencies := [] |}
  | _ => nothing
  end.

(** The keys of the keyed entries of a table, in order. *)
Fixpoint keysOf (table : list ImplicitDependency) : list string :=
  match table with
  | [] => []
  | Keyed key _ :: rest => key :: keysOf rest
  | Global _ :: rest => keysOf rest
  end.


(** Sample surroundings for the statements below: a [workflow_dispatch]
    run and a [push] run, and a parser that knows two texts. *)
Definition noPayload : Payload :=
  {| pull_request_base_sha := None; pull_request_head_sha := None;
     before := None; after := None |}.

Definition dispatchContext : Context :=
  {| eventName := "workflow_dispatch"; payload := noPayload |}.

Definition pushContext : Context :=
  {| eventName := "push";
     payload := {| pull_request_base_sha := None;
                   pull_request_head_sha := None;
                   before := Some "1f3a"; after := Some "9c2e" |} |}.

Definition sampleParse (text : string) : option JSON :=
  if String.eqb text "[1]" then Some (JArray [JNumber "1"])
  else if String.eqb text "{}" then Some (JObject [])
  else None.

Definition dispatchWorld (baseRef headRef : string) : World :=
  {| context := dispatchContext;
     getInput := fun name =>
       if String.eqb name "baseRef" then baseRef
       else if String.eqb name "headRef" then headRef
       else "";
     getOctokit := inr tt;
     compareCommits := fun _ _ => inr ["apps/web/src/index.ts"];
     readNxJson := inr {| nx_implicitDependencies := None;
                          nx_workspaceLayout := None |};
     readWorkspaceJson := inr {| projects := [] |};
     readdir := fun _ => inr ["web"; ".gitkeep"] |}.


(** The changed file is the recorded file of a global entry. *)
Definition recordedFile (table : list ImplicitDependency) (file : string)
  : bool :=
  existsb (fun entry => strictEq file (dep_file entry)) table.


(** The first entry keyed by [key] lists [project]: a change in the
    library [key] fans out to it. *)
Definition fansOut (table : list ImplicitDependency) (key project : string)
  : Prop :=
  exists projects, findProjects table key = Some projects
                   /\ In project projects.

(** The keys of [nx.json]'s [implicitDependencies], none when it is
    absent. *)
Definition nxKeys (nx : NxJsonConfiguration) : list string :=
  match nx_implicitDependencies nx with
  | Some keys => keys
  | None => []
  end.


(** The two roots [main] works with:
    [nx.workspaceLayout?.appsDir || 'apps'] and the same for [libsDir]. *)
Definition appsDirOf (nx : NxJsonConfiguration) : string :=
  orElse (match nx_workspaceLayout nx with
          | Some l => layout_appsDir l
          | None => None
          end) "apps".

Definition libsDirOf (nx : NxJsonConfiguration) : string :=
  orElse (match nx_workspaceLayout nx with
          | Some l => layout_libsDir l
          | None => None
          end) "libs".

(** The six [setOutput] calls that end a run, for the result [changes]. *)
Definition outputsOf (changes : Changes) : list Call :=
  [SetOutput "changed-apps-matrix" (Names (apps changes));
   SetOutput "changed-apps" (Text (String.concat " " (apps changes)));
   SetOutput "changed-libs" (Text (String.concat " " (libs changes)));
   SetOutput "changed-dirs"
     (Text (String.concat " " (apps changes ++ libs changes)%list));
   SetOutput "changed-implicit-dependencies"
     (Text (String.concat " " (implicitDependencies changes)));
   SetOutput "not-affected"
     (Flag (Nat.eqb (List.length (apps changes)) 0
            && Nat.eqb (List.length (libs changes)) 0
            && Nat.eqb (List.length (implicitDependencies changes)) 0))].

(** A call that is not an output and not the failure report. *)
Definition isRequest (c : Call) : bool :=
  match c with
  | SetOutput _ _ | SetFailed _ => false
  | _ => true
  end.

(** A workspace for the statements about whole runs: [web] and [admin]
    declare the library [core], [nx.json] names [package.json], and the
    apps directory also holds a hidden entry. *)
Definition sampleWorld (changed : list string) (rawIgnore : string) : World :=
  {| context := pushContext;
     getInput := fun name =>
       if String.eqb name "ignore" then rawIgnore else "";
     getOctokit := inr tt;
     compareCommits := fun _ _ => inr changed;
     readNxJson := inr {| nx_implicitDependencies := Some ["package.json"];
                          nx_workspaceLayout := None |};
     readWorkspaceJson :=
       inr {| projects := [("web", Some ["core"]); ("admin", Some ["core"]);
                           ("core", None)] |};
     readdir := fun path =>
       if String.eqb path "apps" then inr ["web"; "admin"; ".gitkeep"]
       else inr ["core"] |}.


(** A string that holds a slash somewhere. *)
Definition hasSlash (s : string) : bool := negb (noSlash s).


(** The ignore text [[{"toString":0}]], the array [JSON.parse] makes of
    it, and a parser that knows that text. *)
Definition unjoinableText : string :=
  "[{" ++ String "034" ("toString" ++ String "034" ":0}]").

Definition unjoinableArray : JSON :=
  JArray [JObject [("toString", JNumber "0")]].

Definition parseUnjoinable (text : string) : option JSON :=
  if String.eqb text unjoinableText then Some unjoinableArray else None.

(* ================================================================= *)
(** * Properties *)

(** ** Sets as insertion-ordered lists *)

Module JSFacts.
Import JS.

Lemma includes_In (xs : list string) (x : string) :
  includes xs x = true <-> In x xs.
Proof.
  unfold includes. rewrite existsb_exists. split.
  - intros [y [Hy Heq]]. apply String.eqb_eq in Heq. now subst.
  - intros H. exists x. split; [assumption | apply String.eqb_refl].
Qed.

Lemma includes_false (xs : list string) (x : string) :
  includes xs x = false <-> ~ In x xs.
Proof.
  rewrite <- includes_In. destruct (includes xs x); split; congruence.
Qed.

Lemma In_add (set : list string) (x y : string) :
  In y (add set x) <-> In y set \/ y = x.
Proof.
  unfold add. destruct (includes set x) eqn:E.
  - apply includes_In in E. split; [tauto | intros [H | ->]; assumption].
  - rewrite in_app_iff. simpl. intuition congruence.
Qed.

Lemma NoDup_add (set : list string) (x : string) :
  NoDup set -> NoDup (add set x).
Proof.
  intros H. unfold add. destruct (includes set x) eqn:E; [assumption |].
  apply includes_false in E.
  apply NoDup_rev in H. rewrite <- (rev_involutive (set ++ [x])%list).
  apply NoDup_rev. rewrite rev_app_distr. simpl.
  constructor; [now rewrite <- in_rev | assumption].
Qed.

Lemma In_addEach (f : string -> string) (xs set : list string) (y : string) :
  In y (addEach f xs set) <-> In y set \/ In y (map f xs).
Proof.
  unfold addEach. revert set. induction xs as [| x xs IH]; intros set; simpl.
  - tauto.
  - rewrite IH, In_add. intuition congruence.
Qed.

Lemma NoDup_addEach (f : string -> string) (xs set : list string) :
  NoDup set -> NoDup (addEach f xs set).
Proof.
  unfold addEach. revert set. induction xs as [| x xs IH]; intros set H; simpl.
  - assumption.
  - apply IH, NoDup_add, H.
Qed.

Lemma split_nonempty (sep : ascii) (s : string) : split sep s <> [].
Proof.
  destruct s as [| c s]; simpl; [discriminate |].
  destruct (Ascii.eqb c sep); [discriminate |].
  destruct (split sep s); discriminate.
Qed.

Lemma split_append (sep : ascii) (a b : string) :
  split sep (a ++ String sep b) = (split sep a ++ split sep b)%list.
Proof.
  induction a as [| c a IH]; simpl.
  - now rewrite Ascii.eqb_refl.
  - destruct (Ascii.eqb c sep); [now rewrite IH |].
    rewrite IH. destruct (split sep a) as [| seg segs] eqn:E.
    + now apply split_nonempty in E.
    + reflexivity.
Qed.

Lemma last_app_nonempty {A : Type} (l l' : list A) (d : A) :
  l' <> [] -> last (l ++ l') d = last l' d.
Proof.
  intros H. induction l as [| a l IH]; [reflexivity |].
  simpl. rewrite IH. destruct (l ++ l')%list eqn:E; [| reflexivity].
  apply app_eq_nil in E. tauto.
Qed.

End JSFacts.

(** ** Path segments *)

Lemma split_noSlash (s : string) : noSlash s = true -> JS.split "/" s = [s].
Proof.
  induction s as [| c s IH]; simpl; [reflexivity |].
  intros H. apply andb_prop in H. destruct H as [Hc Hs].
  apply negb_true_iff in Hc. rewrite Hc, (IH Hs). reflexivity.
Qed.

Lemma lastSegment_noSlash (name : string) :
  noSlash name = true -> lastSegment name = name.
Proof.
  intros H. unfold lastSegment. now rewrite (split_noSlash _ H).
Qed.

Lemma lastSegment_append (a b : string) :
  lastSegment (a ++ String "/" b) = lastSegment b.
Proof.
  unfold lastSegment, JS.lastOf. rewrite JSFacts.split_append.
  apply JSFacts.last_app_nonempty, JSFacts.split_nonempty.
Qed.

Lemma lastSegment_project (dir name : string) :
  noSlash name = true -> lastSegment (dir ++ String "/" name) = name.
Proof.
  intros H. rewrite lastSegment_append. now apply lastSegment_noSlash.
Qed.

(** ** The matcher *)

Lemma stripPrefix_append (p s : string) : stripPrefix p (p ++ s) = Some s.
Proof.
  induction p as [| a p IH]; simpl; [now destruct s |].
  now rewrite Ascii.eqb_refl.
Qed.

Lemma takeSegment_noSlash (name rest : string) :
  noSlash name = true ->
  takeSegment (name ++ String "/" rest) = (name, String "/" rest).
Proof.
  induction name as [| c name IH]; simpl; [reflexivity |].
  intros H. apply andb_prop in H. destruct H as [Hc Hn].
  apply negb_true_iff in Hc. rewrite Hc, (IH Hn). reflexivity.
Qed.

Lemma matchHere_inside (dir name rest : string) :
  name <> "" -> noSlash name = true -> startsOnLine rest = true ->
  matchHere dir (inside dir name rest) = Some (projectPath dir name).
Proof.
  intros Hne Hns Hrest. unfold matchHere, inside, projectPath.
  rewrite stripPrefix_append. simpl.
  rewrite (takeSegment_noSlash _ _ Hns).
  destruct name as [| c name]; [congruence |].
  destruct rest as [| d rest]; [discriminate |].
  simpl in Hrest. simpl. now rewrite Hrest.
Qed.

Lemma dirFinder_inside (dir name rest : string) :
  name <> "" -> noSlash name = true -> startsOnLine rest = true ->
  dirFinder dir (inside dir name rest) = Some (projectPath dir name).
Proof.
  intros Hne Hns Hrest. unfold dirFinder.
  destruct (inside dir name rest) eqn:E; simpl;
    rewrite <- E, (matchHere_inside _ _ _ Hne Hns Hrest); reflexivity.
Qed.

(** A match needs a slash beyond [dir] and its separator. *)
Lemma noSlashFrom_le (n m : nat) (s : string) :
  n <= m -> noSlashFrom n s = true -> noSlashFrom m s = true.
Proof.
  revert n m. induction s as [| c s IH]; intros n m Hle H; [reflexivity |].
  destruct n as [| n], m as [| m]; simpl in *; try lia.
  - assumption.
  - apply andb_prop in H. apply (IH 0 m); [lia | tauto].
  - apply (IH n m); [lia | assumption].
Qed.

Lemma noSlashFrom_tail (n : nat) (c : ascii) (s : string) :
  noSlashFrom n (String c s) = true -> noSlashFrom n s = true.
Proof.
  destruct n as [| n]; simpl; intros H.
  - apply andb_prop in H. tauto.
  - apply (noSlashFrom_le n (S n)); [lia | assumption].
Qed.

Lemma noSlashFrom_0 (s : string) : noSlashFrom 0 s = noSlash s.
Proof. induction s as [| c s IH]; simpl; [reflexivity | now rewrite IH]. Qed.

Lemma takeSegment_rest (s seg : string) (c : ascii) (rest : string) :
  takeSegment s = (seg, String c rest) -> noSlash s = false.
Proof.
  revert seg. induction s as [| a s IH]; simpl; intros seg H; [discriminate |].
  destruct (Ascii.eqb a "/"); [reflexivity |]. simpl.
  destruct (takeSegment s) as [seg' rest'] eqn:E.
  injection H as _ Hr. subst rest'. now apply (IH seg').
Qed.

Lemma stripPrefix_noSlashFrom (p s t : string) :
  stripPrefix p s = Some t ->
  noSlashFrom (String.length p) s = noSlash t.
Proof.
  revert s. induction p as [| a p IH]; intros s H; simpl in *.
  - injection H as ->. apply noSlashFrom_0.
  - destruct s as [| b s]; [discriminate |].
    destruct (Ascii.eqb a b); [| discriminate]. simpl. now apply IH.
Qed.

Lemma matchHere_needs_slash (dir s : string) :
  noSlashFrom (S (String.length dir)) s = true -> matchHere dir s = None.
Proof.
  intros H. unfold matchHere.
  destruct (stripPrefix dir s) as [[| sep afterDir] |] eqn:E; try reflexivity.
  destruct (Ascii.eqb sep "/"); [| reflexivity].
  destruct (takeSegment afterDir) as [seg rest] eqn:T.
  destruct seg as [| c seg]; [reflexivity |].
  destruct rest as [| sep' rest]; [reflexivity |].
  apply takeSegment_rest in T.
  assert (Hs : stripPrefix (dir ++ String sep "") s = Some afterDir).
  { clear -E. revert s E. induction dir as [| a dir IH]; intros s E; simpl in *.
    - injection E as ->. now rewrite Ascii.eqb_refl.
    - destruct s as [| b s]; [discriminate |].
      destruct (Ascii.eqb a b); [now apply IH | discriminate]. }
  apply stripPrefix_noSlashFrom in Hs.
  assert (Hl : String.length (dir ++ String sep "") = S (String.length dir)).
  { clear. induction dir as [| a dir IH]; simpl; [reflexivity | now rewrite IH]. }
  rewrite Hl in Hs. congruence.
Qed.

Lemma regExpMatch_needs_slash (dir file : string) :
  noSlashFrom (S (String.length dir)) file = true ->
  regExpMatch dir file = None.
Proof.
  induction file as [| c file IH]; intros H; simpl.
  - now rewrite (matchHere_needs_slash dir "" H).
  - rewrite (matchHere_needs_slash _ _ H).
    apply IH. now apply noSlashFrom_tail in H.
Qed.

Lemma noSlashFrom_projectPath (dir name : string) :
  noSlashFrom (S (String.length dir)) (projectPath dir name) = noSlash name.
Proof.
  unfold projectPath. induction dir as [| a dir IH]; simpl.
  - apply noSlashFrom_0.
  - exact IH.
Qed.

Lemma dirFinder_projectPath (dir name : string) :
  noSlash name = true -> dirFinder dir (projectPath dir name) = None.
Proof.
  intros H. apply regExpMatch_needs_slash.
  now rewrite noSlashFrom_projectPath.
Qed.

(** ** The fan-out of one library *)

Section MarkProject.

Variables allApps allLibs : list string.

Lemma markProject_apps (acc : AccumulatedChanges) (project x : string) :
  In x (acc_apps (markProject allApps allLibs acc project)) <->
  In x (acc_apps acc)
  \/ (JS.includes allApps project = true /\ x = lastSegment project).
Proof.
  unfold markProject.
  destruct (JS.includes allApps project), (JS.includes allLibs project);
    simpl; rewrite ?JSFacts.In_add; intuition congruence.
Qed.

Lemma markProject_libs (acc : AccumulatedChanges) (project x : string) :
  In x (acc_libs (markProject allApps allLibs acc project)) <->
  In x (acc_libs acc)
  \/ (JS.includes allLibs project = true /\ x = lastSegment project).
Proof.
  unfold markProject.
  destruct (JS.includes allApps project), (JS.includes allLibs project);
    simpl; rewrite ?JSFacts.In_add; intuition congruence.
Qed.

Lemma markProject_implicitDependencies (acc : AccumulatedChanges)
    (project : string) :
  acc_implicitDependencies (markProject allApps allLibs acc project)
  = acc_implicitDependencies acc.
Proof.
  unfold markProject.
  destruct (JS.includes allApps project), (JS.includes allLibs project);
    reflexivity.
Qed.


Lemma markProject_neither (acc : AccumulatedChanges) (project : string) :
  ~ In project allApps -> ~ In project allLibs ->
  markProject allApps allLibs acc project = acc.
Proof.
  intros Ha Hl. unfold markProject.
  apply JSFacts.includes_false in Ha, Hl. now rewrite Ha, Hl.
Qed.

Lemma In_map_filter (known projects : list string) (x : string) :
  In x (map lastSegment (filter (JS.includes known) projects)) <->
  exists project, In project projects /\ In project known
                  /\ x = lastSegment project.
Proof.
  rewrite in_map_iff. split.
  - intros [p [Hx Hp]]. apply filter_In in Hp. destruct Hp as [Hp Hk].
    apply JSFacts.includes_In in Hk. exists p. auto.
  - intros [p [Hp [Hk Hx]]]. exists p. split; [auto |].
    apply filter_In. split; [assumption | now apply JSFacts.includes_In].
Qed.

Lemma fanOut_apps (projects : list string) (acc : AccumulatedChanges)
    (x : string) :
  In x (acc_apps (fold_left (markProject allApps allLibs) projects acc)) <->
  In x (acc_apps acc)
  \/ In x (map lastSegment (filter (JS.includes allApps) projects)).
Proof.
  revert acc. induction projects as [| p ps IH]; intros acc; simpl.
  - tauto.
  - rewrite IH, markProject_apps.
    destruct (JS.includes allApps p); simpl; intuition congruence.
Qed.

Lemma fanOut_libs (projects : list string) (acc : AccumulatedChanges)
    (x : string) :
  In x (acc_libs (fold_left (markProject allApps allLibs) projects acc)) <->
  In x (acc_libs acc)
  \/ In x (map lastSegment (filter (JS.includes allLibs) projects)).
Proof.
  revert acc. induction projects as [| p ps IH]; intros acc; simpl.
  - tauto.
  - rewrite IH, markProject_libs.
    destruct (JS.includes allLibs p); simpl; intuition congruence.
Qed.

Lemma fanOut_implicitDependencies (projects : list string)
    (acc : AccumulatedChanges) :
  acc_implicitDependencies
    (fold_left (markProject allApps allLibs) projects acc)
  = acc_implicitDependencies acc.
Proof.
  revert acc. induction projects as [| p ps IH]; intros acc; simpl.
  - reflexivity.
  - now rewrite IH, markProject_implicitDependencies.
Qed.


End MarkProject.

(** ** Lookups in the table *)

Lemma strictEq_true (s : string) (v : option string) :
  strictEq s v = true <-> v = Some s.
Proof.
  destruct v as [s' |]; simpl; [| split; discriminate].
  rewrite String.eqb_eq. split; congruence.
Qed.

Lemma findImplicitDependencies_Some (table : list ImplicitDependency)
    (file : string) (entry : ImplicitDependency) :
  findImplicitDependencies table file = Some entry ->
  entry = Global file /\ In (Global file) table.
Proof.
  unfold findImplicitDependencies, JS.find. intros H.
  apply find_some in H. destruct H as [Hin Heq].
  apply strictEq_true in Heq. destruct entry as [f | k ps]; simpl in Heq.
  - injection Heq as ->. auto.
  - discriminate.
Qed.

Lemma findImplicitDependencies_In (table : list ImplicitDependency)
    (file : string) :
  In (Global file) table ->
  findImplicitDependencies table file = Some (Global file).
Proof.
  intros Hin. destruct (findImplicitDependencies table file) as [e |] eqn:E.
  - apply findImplicitDependencies_Some in E. now destruct E as [-> _].
  - unfold findImplicitDependencies, JS.find in E.
    apply (find_none _ _ E) in Hin. simpl in Hin.
    now rewrite String.eqb_refl in Hin.
Qed.

Lemma findImplicitDependencies_existsb (table : list ImplicitDependency)
    (file : string) :
  existsb (fun entry => strictEq file (dep_file entry)) table
  = match findImplicitDependencies table file with
    | Some _ => true
    | None => false
    end.
Proof.
  unfold findImplicitDependencies, JS.find.
  induction table as [| e table IH]; simpl; [reflexivity |].
  destruct (strictEq file (dep_file e)); [reflexivity | exact IH].
Qed.

Lemma findProjects_first (table : list ImplicitDependency)
    (key : string) (projects : list string) :
  In (Keyed key projects) table -> NoDup (keysOf table) ->
  findProjects table key = Some projects.
Proof.
  unfold findProjects, JS.find.
  induction table as [| e table IH]; simpl; [tauto |].
  intros [-> | Hin] Hnd.
  - simpl. now rewrite String.eqb_refl.
  - destruct e as [f | k ps]; simpl in *; [now apply IH |].
    inversion Hnd as [| ? ? Hk Hnd']; subst.
    destruct (String.eqb_spec key k) as [-> | Hne]; [| now apply IH].
    exfalso. apply Hk. clear -Hin.
    induction table as [| e table IH]; simpl in *; [tauto |].
    destruct Hin as [-> | Hin]; [now left |].
    destruct e; simpl; auto.
Qed.

(** ** One step of the fold *)

Section Reducer.

Variables findApp findLib : string -> option string.
Variables allApps allLibs : list string.
Variable table : list ImplicitDependency.

Local Abbreviation step := (reducer findApp findLib allApps allLibs table).
Local Abbreviation rule1 := (globalHit table allApps allLibs).
Local Abbreviation rule2 := (libraryHit findLib table allApps allLibs).
Local Abbreviation rule3 := (applicationHit findApp).

Ltac open_step :=
  unfold reducer, globalHit, libraryHit, applicationHit;
  rewrite findImplicitDependencies_existsb.

Ltac split_cases file :=
  destruct (findImplicitDependencies table file) as [entry |] eqn:Hentry;
  [ destruct (findImplicitDependencies_Some _ _ _ Hentry) as [-> _] | ];
  destruct (findLib file) as [[| c l] |];
  destruct (findApp file) as [[| c' a] |];
  simpl;
  try match goal with
      | |- context [findProjects table ?k] =>
          destruct (findProjects table k) as [projects |]
      end;
  simpl.

Lemma reducer_apps (acc : AccumulatedChanges) (file x : string) :
  In x (acc_apps (step acc file)) <->
  In x (acc_apps acc) \/ In x (apps (rule1 file))
  \/ In x (apps (rule2 file)) \/ In x (apps (rule3 file)).
Proof.
  open_step. split_cases file;
    rewrite ?JSFacts.In_add, ?fanOut_apps; simpl;
    rewrite ?JSFacts.In_addEach; intuition congruence.
Qed.

Lemma reducer_libs (acc : AccumulatedChanges) (file x : string) :
  In x (acc_libs (step acc file)) <->
  In x (acc_libs acc) \/ In x (libs (rule1 file))
  \/ In x (libs (rule2 file)) \/ In x (libs (rule3 file)).
Proof.
  open_step. split_cases file;
    rewrite ?JSFacts.In_add, ?fanOut_libs; simpl;
    rewrite ?JSFacts.In_add, ?JSFacts.In_addEach; intuition congruence.
Qed.

Lemma reducer_implicitDependencies (acc : AccumulatedChanges)
    (file : string) :
  acc_implicitDependencies (step acc file)
  = (acc_implicitDependencies acc ++ implicitDependencies (rule1 file)
       ++ implicitDependencies (rule2 file)
       ++ implicitDependencies (rule3 file))%list.
Proof.
  open_step. split_cases file;
    rewrite ?fanOut_implicitDependencies; simpl;
    rewrite ?app_nil_r; reflexivity.
Qed.


(** Growth: a step never removes anything. *)
Lemma reducer_keeps_apps (acc : AccumulatedChanges) (file x : string) :
  In x (acc_apps acc) -> In x (acc_apps (step acc file)).
Proof. intros H. apply reducer_apps. now left. Qed.

Lemma reducer_keeps_libs (acc : AccumulatedChanges) (file x : string) :
  In x (acc_libs acc) -> In x (acc_libs (step acc file)).
Proof. intros H. apply reducer_libs. now left. Qed.

Lemma reducer_keeps_implicitDependencies (acc : AccumulatedChanges)
    (file x : string) :
  In x (acc_implicitDependencies acc) ->
  In x (acc_implicitDependencies (step acc file)).
Proof.
  intros H. rewrite reducer_implicitDependencies.
  apply in_or_app. now left.
Qed.

(** What holds after the step for a file of the list, whatever came
    before, and survives every later step, holds at the end. *)
Lemma reduce_reaches (P : AccumulatedChanges -> Prop)
    (files : list string) (file : string) (acc : AccumulatedChanges) :
  In file files ->
  (forall acc', P (step acc' file)) ->
  (forall acc' file', P acc' -> P (step acc' file')) ->
  P (fold_left step files acc).
Proof.
  intros Hin Hfire Hkeep. revert acc.
  induction files as [| f files IH]; intros acc; [contradiction |].
  simpl. destruct Hin as [-> | Hin]; [| now apply IH].
  generalize (Hfire acc). generalize (step acc file). clear -Hkeep.
  induction files as [| f files IH]; intros acc H; simpl; [exact H |].
  apply IH, Hkeep, H.
Qed.


End Reducer.

(** ** The result of [getChanges] *)

(** The accumulator behind a result. *)
Lemma getChanges_unfold (appsDir libsDir : string)
    (allApps allLibs : list string) (table : list ImplicitDependency)
    (changedFiles ignore : list string) :
  let changes :=
    fold_left (reducer (dirFinder appsDir) (dirFinder libsDir)
                       allApps allLibs table) changedFiles initialChanges in
  (forall x, In x (apps (getChanges appsDir libsDir allApps allLibs table
                                    changedFiles ignore))
             <-> In x (acc_apps changes) /\ ~ In x ignore)
  /\ libs (getChanges appsDir libsDir allApps allLibs table
                      changedFiles ignore) = acc_libs changes
  /\ implicitDependencies (getChanges appsDir libsDir allApps allLibs table
                                      changedFiles ignore)
     = acc_implicitDependencies changes.
Proof.
  simpl. split; [| split; reflexivity].
  intros x. rewrite filter_In, negb_true_iff, JSFacts.includes_false.
  tauto.
Qed.

Lemma ignore_filters_apps (appsDir libsDir : string)
    (allApps allLibs : list string) (table : list ImplicitDependency)
    (changedFiles ignore : list string) (name : string) :
  In name ignore ->
  ~ In name (apps (getChanges appsDir libsDir allApps allLibs table
                              changedFiles ignore)).
Proof.
  intros Hin H. apply getChanges_unfold in H. tauto.
Qed.

Lemma Part000_ignore_filters_both (appsDir libsDir : string)
    (files : list string) (changedFiles ignore : list string)
    (name : string) :
  In name ignore ->
  ~ In name (apps (Part000.getChanges appsDir libsDir files
                                      changedFiles ignore))
  /\ ~ In name (libs (Part000.getChanges appsDir libsDir files
                                         changedFiles ignore)).
Proof.
  intros Hin. unfold Part000.getChanges. simpl.
  rewrite !filter_In, !negb_true_iff, !JSFacts.includes_false. tauto.
Qed.

(** C1.  The ignore list is not applied to both output sets: [getChanges]
    of [main.ts] filters [apps] and returns [libs] as accumulated.  With
    [ignore = ["core"]] and a changed file inside [libs/core], the ignored
    name [core] is in the returned [libs].  (The revision in
    [Part000] filters both sets, see [Part000_ignore_filters_both];
    [ignore_filters_apps] is the half that holds here.) *)
Theorem C1_ignored_lib_is_returned :
  let ignore := ["core"] in
  let result :=
    getChanges "apps" "libs" ["web"] ["core"] []
               ["libs/core/src/util.ts"] ignore in
  In "core" ignore
  /\ In "core" (libs result)
  /\ result = {| apps := []; libs := ["core"]; implicitDependencies := [] |}.
Proof.
  simpl. repeat split; left; reflexivity.
Qed.


(** *** Rule 1 *)

Section GlobalHit.

Variables appsDir libsDir : string.
Variables allApps allLibs : list string.
Variable table : list ImplicitDependency.
Variables changedFiles ignore : list string.

Local Abbreviation result :=
  (getChanges appsDir libsDir allApps allLibs table changedFiles ignore).

Lemma globalHit_fires (file : string) :
  In (Global file) table ->
  globalHit table allApps allLibs file
  = {| apps := map lastSegment allApps; libs := map lastSegment allLibs;
       implicitDependencies := [file] |}.
Proof.
  intros H. unfold globalHit. rewrite findImplicitDependencies_existsb.
  now rewrite (findImplicitDependencies_In _ _ H).
Qed.

(** Whatever the shape of the names, their last segments are marked. *)
Lemma global_hit_marks_last_segments (file : string) :
  In file changedFiles -> In (Global file) table ->
  In file (implicitDependencies result)
  /\ (forall app, In app allApps -> ~ In (lastSegment app) ignore ->
                  In (lastSegment app) (apps result))
  /\ (forall lib, In lib allLibs -> In (lastSegment lib) (libs result)).
Proof.
  intros Hfile Hentry.
  destruct (getChanges_unfold appsDir libsDir allApps allLibs table
              changedFiles ignore) as [Happs [Hlibs Himpl]].
  pose proof (globalHit_fires file Hentry) as Hfire.
  split; [| split].
  - rewrite Himpl. apply reduce_reaches with (file := file); auto.
    + intros acc'. rewrite reducer_implicitDependencies, Hfire. simpl.
      apply in_or_app. right. now left.
    + intros acc' file'. apply reducer_keeps_implicitDependencies.
  - intros app Hin Hign. apply Happs. split; [| assumption].
    apply reduce_reaches with (file := file); auto.
    + intros acc'. apply reducer_apps. right. left. rewrite Hfire. simpl.
      now apply in_map.
    + intros acc' file'. apply reducer_keeps_apps.
  - intros lib Hin. rewrite Hlibs.
    apply reduce_reaches with (file := file); auto.
    + intros acc'. apply reducer_libs. right. left. rewrite Hfire. simpl.
      now apply in_map.
    + intros acc' file'. apply reducer_keeps_libs.
Qed.

(** C2, as amended.  A changed file that equals the recorded file of a
    global entry is recorded in [implicitDependencies], and every name of
    [allApps] and of [allLibs] is marked by its last path segment, which
    is the name itself when the name holds no slash: the segment of an
    app is returned unless it is ignored, the segment of a lib is
    returned (this revision does not filter [libs]).  The directories
    are within the embedding. *)
Theorem C2_global_hit_marks_every_project (file : string) :
  plainDir appsDir = true -> plainDir libsDir = true ->
  In file changedFiles -> In (Global file) table ->
  In file (implicitDependencies result)
  /\ (forall app, In app allApps ->
        (~ In (lastSegment app) ignore -> In (lastSegment app) (apps result))
        /\ (noSlash app = true -> ~ In app ignore -> In app (apps result)))
  /\ (forall lib, In lib allLibs ->
        In (lastSegment lib) (libs result)
        /\ (noSlash lib = true -> In lib (libs result))).
Proof.
  intros _ _ Hfile Hentry.
  destruct (global_hit_marks_last_segments file Hfile Hentry)
    as [Himpl [Happs Hlibs]].
  split; [assumption | split].
  - intros app Hin. specialize (Happs app Hin). split; [exact Happs |].
    intros Hns Hign. rewrite (lastSegment_noSlash _ Hns) in Happs. auto.
  - intros lib Hin. specialize (Hlibs lib Hin). split; [exact Hlibs |].
    intros Hns. now rewrite (lastSegment_noSlash _ Hns) in Hlibs.
Qed.

End GlobalHit.

(** The scenario of the specification. *)
Lemma C2_witness :
  let result := getChanges "apps" "libs" ["web"] ["core"] [Global "nx.json"]
                           ["nx.json"] [] in
  plainDir "apps" = true /\ plainDir "libs" = true
  /\ In "nx.json" ["nx.json"] /\ In (Global "nx.json") [Global "nx.json"]
  /\ In "nx.json" (implicitDependencies result)
  /\ In "web" (apps result) /\ In "core" (libs result).
Proof.
  assert (Ha : plainDir "apps" = true) by reflexivity.
  assert (Hl : plainDir "libs" = true) by reflexivity.
  assert (Hfile : In "nx.json" ["nx.json"]) by (left; reflexivity).
  assert (Hentry : In (Global "nx.json") [Global "nx.json"])
    by (left; reflexivity).
  destruct (C2_global_hit_marks_every_project
              "apps" "libs" ["web"] ["core"] [Global "nx.json"] ["nx.json"] []
              "nx.json" Ha Hl Hfile Hentry) as [Himpl [Happs Hlibs]].
  split; [exact Ha | split; [exact Hl | split; [exact Hfile |
    split; [exact Hentry | split; [exact Himpl |]]]]].
  split.
  - apply (Happs "web"); [left; reflexivity | reflexivity | intros []].
  - apply (Hlibs "core"); [left; reflexivity | reflexivity].
Defined.

(** C2 as stated fails: a listed name that holds a slash is not marked
    itself.  With [allApps = ["group/web"]] and a global hit, [apps] is
    [["web"]] and does not hold [group/web]. *)
Lemma C2_counterexample :
  ~ (forall (appsDir libsDir : string) (allApps allLibs : list string)
            (table : list ImplicitDependency)
            (changedFiles ignore : list string) (file : string),
        plainDir appsDir = true -> plainDir libsDir = true ->
        In file changedFiles -> In (Global file) table ->
        let result := getChanges appsDir libsDir allApps allLibs table
                                 changedFiles ignore in
        In file (implicitDependencies result)
        /\ (forall app, In app allApps -> ~ In app ignore ->
                        In app (apps result))
        /\ (forall lib, In lib allLibs -> ~ In lib ignore ->
                        In lib (libs result))).
Proof.
  intros H.
  destruct (H "apps" "libs" ["group/web"] [] [Global "nx.json"]
              ["nx.json"] [] "nx.json" eq_refl eq_refl
              (or_introl eq_refl) (or_introl eq_refl)) as [_ [Happs _]].
  specialize (Happs "group/web" (or_introl eq_refl) (fun F => F)).
  simpl in Happs. destruct Happs as [E | []]. discriminate E.
Qed.

Example global_hit_scenario :
  getChanges "apps" "libs" ["web"] ["core"] [Global "nx.json"] ["nx.json"] []
  = {| apps := ["web"]; libs := ["core"];
       implicitDependencies := ["nx.json"] |}.
Proof. reflexivity. Qed.

(** *** Rule 2 *)

Section LibraryHit.

Variables appsDir libsDir : string.
Variables allApps allLibs : list string.
Variable table : list ImplicitDependency.
Variables changedFiles ignore : list string.

Local Abbreviation result :=
  (getChanges appsDir libsDir allApps allLibs table changedFiles ignore).

(** What the matcher returns is never the empty string. *)
Lemma matchHere_truthy (dir s lib : string) :
  matchHere dir s = Some lib -> JS.truthy (Some lib) = true.
Proof.
  unfold matchHere. intros H.
  destruct (stripPrefix dir s) as [[| sep afterDir] |]; try discriminate.
  destruct (Ascii.eqb sep "/"); [| discriminate].
  destruct (takeSegment afterDir) as [[| c seg] [| sep' [| d rest]]];
    try discriminate.
  destruct (Ascii.eqb sep' "/" && negb (lineTerminator (String d rest)));
    [| discriminate].
  injection H as <-. now destruct dir.
Qed.

Lemma dirFinder_truthy (dir file lib : string) :
  dirFinder dir file = Some lib -> exists c l, lib = String c l.
Proof.
  unfold dirFinder. induction file as [| a file IH]; simpl.
  - destruct (matchHere dir "") eqn:E; [| discriminate].
    intros H. injection H as <-. apply matchHere_truthy in E.
    destruct s; [discriminate | eauto].
  - destruct (matchHere dir (String a file)) eqn:E; [| exact IH].
    intros H. injection H as <-. apply matchHere_truthy in E.
    destruct s; [discriminate | eauto].
Qed.

Lemma libraryHit_fires (file lib : string) :
  dirFinder libsDir file = Some lib ->
  libraryHit (dirFinder libsDir) table allApps allLibs file
  = let fanOut := match findProjects table (lastSegment lib) with
                  | Some projects => projects
                  | None => []
                  end in
    {| apps := map lastSegment (filter (JS.includes allApps) fanOut);
       libs := lastSegment lib
               :: map lastSegment (filter (JS.includes allLibs) fanOut);
       implicitDependencies := [] |}.
Proof.
  intros H. unfold libraryHit. rewrite H.
  destruct (dirFinder_truthy _ _ _ H) as [c [l ->]]. reflexivity.
Qed.

(** C3, as amended.  A changed file that the library pattern matches
    marks the library; when the library's name keys an entry of the
    table, each of that entry's projects listed in [allApps] is marked
    as an app by its last path segment (returned unless ignored), each
    one listed in [allLibs] is marked as a lib by its last path segment,
    the segment being the project itself when it holds no slash, and one
    listed in neither leaves the accumulator as it was.  The table has
    one entry per key, as [main] builds it, and the directories are
    within the embedding. *)
Theorem C3_library_hit_fans_out (file lib : string) :
  plainDir appsDir = true -> plainDir libsDir = true ->
  In file changedFiles ->
  dirFinder libsDir file = Some lib ->
  In (lastSegment lib) (libs result)
  /\ forall projects,
       In (Keyed (lastSegment lib) projects) table ->
       NoDup (keysOf table) ->
       forall project, In project projects ->
         (In project allApps ->
          (~ In (lastSegment project) ignore ->
           In (lastSegment project) (apps result))
          /\ (noSlash project = true -> ~ In project ignore ->
              In project (apps result)))
         /\ (In project allLibs ->
             In (lastSegment project) (libs result)
             /\ (noSlash project = true -> In project (libs result)))
         /\ (~ In project allApps -> ~ In project allLibs ->
             forall accumulatedChanges,
               markProject allApps allLibs accumulatedChanges project
               = accumulatedChanges).
Proof.
  intros _ _ Hfile Hmatch.
  destruct (getChanges_unfold appsDir libsDir allApps allLibs table
              changedFiles ignore) as [Happs [Hlibs _]].
  pose proof (libraryHit_fires file lib Hmatch) as Hfire.
  split.
  - rewrite Hlibs. apply reduce_reaches with (file := file); auto.
    + intros acc'. apply reducer_libs. right. right. left.
      rewrite Hfire. now left.
    + intros acc' file'. apply reducer_keeps_libs.
  - intros projects Hentry Hkeys project Hproject.
    rewrite (findProjects_first _ _ _ Hentry Hkeys) in Hfire.
    simpl in Hfire.
    assert (Hsegment_app :
              In project allApps -> ~ In (lastSegment project) ignore ->
              In (lastSegment project) (apps result)).
    { intros Hin Hign. apply Happs. split; [| assumption].
      apply reduce_reaches with (file := file); auto.
      - intros acc'. apply reducer_apps. right. right. left.
        rewrite Hfire. simpl. apply In_map_filter. exists project. auto.
      - intros acc' file'. apply reducer_keeps_apps. }
    assert (Hsegment_lib :
              In project allLibs -> In (lastSegment project) (libs result)).
    { intros Hin. rewrite Hlibs.
      apply reduce_reaches with (file := file); auto.
      - intros acc'. apply reducer_libs. right. right. left.
        rewrite Hfire. simpl. right. apply In_map_filter.
        exists project. auto.
      - intros acc' file'. apply reducer_keeps_libs. }
    split; [| split].
    + intros Hin. split; [now apply Hsegment_app |].
      intros Hns Hign. specialize (Hsegment_app Hin).
      rewrite (lastSegment_noSlash _ Hns) in Hsegment_app. auto.
    + intros Hin. split; [now apply Hsegment_lib |].
      intros Hns. specialize (Hsegment_lib Hin).
      now rewrite (lastSegment_noSlash _ Hns) in Hsegment_lib.
    + intros Ha Hl acc. now apply markProject_neither.
Qed.

End LibraryHit.

(** The scenario of the specification, with a project [ghost] that is in
    neither listing. *)
Lemma C3_witness :
  let table := [Keyed "core" ["web"; "admin"; "util"; "ghost"]] in
  let result := getChanges "apps" "libs" ["web"; "admin"] ["core"; "util"]
                           table ["libs/core/src/util.ts"] [] in
  plainDir "apps" = true /\ plainDir "libs" = true
  /\ In "libs/core/src/util.ts" ["libs/core/src/util.ts"]
  /\ dirFinder "libs" "libs/core/src/util.ts" = Some "libs/core"
  /\ In (Keyed "core" ["web"; "admin"; "util"; "ghost"]) table
  /\ NoDup (keysOf table)
  /\ (In "web" (apps result) /\ In "util" (libs result)
      /\ In "core" (libs result)
      /\ result = {| apps := ["web"; "admin"]; libs := ["core"; "util"];
                     implicitDependencies := [] |}).
Proof.
  assert (Hplain_apps : plainDir "apps" = true) by reflexivity.
  assert (Hplain : plainDir "libs" = true) by reflexivity.
  assert (Hfile : In "libs/core/src/util.ts" ["libs/core/src/util.ts"])
    by (left; reflexivity).
  assert (Hmatch : dirFinder "libs" "libs/core/src/util.ts" = Some "libs/core")
    by reflexivity.
  assert (Hentry : In (Keyed "core" ["web"; "admin"; "util"; "ghost"])
                      [Keyed "core" ["web"; "admin"; "util"; "ghost"]])
    by (left; reflexivity).
  assert (Hkeys : NoDup (keysOf [Keyed "core" ["web"; "admin"; "util"; "ghost"]])).
  { simpl. constructor; [intros [] | constructor]. }
  destruct (C3_library_hit_fans_out
              "apps" "libs" ["web"; "admin"] ["core"; "util"]
              [Keyed "core" ["web"; "admin"; "util"; "ghost"]]
              ["libs/core/src/util.ts"] [] "libs/core/src/util.ts" "libs/core"
              Hplain_apps Hplain Hfile Hmatch) as [Hlib Hfan].
  specialize (Hfan _ Hentry Hkeys).
  split; [exact Hplain_apps | split; [exact Hplain | split; [exact Hfile |
    split; [exact Hmatch | split; [exact Hentry | split; [exact Hkeys |]]]]]].
  split; [| split; [| split; [exact Hlib | reflexivity]]].
  - destruct (Hfan "web") as [Ha _]; [simpl; auto |].
    destruct Ha as [_ Ha]; [simpl; auto |].
    apply Ha; [reflexivity | intros []].
  - destruct (Hfan "util") as [_ [Hl _]]; [simpl; auto |].
    destruct Hl as [_ Hl]; [simpl; auto |].
    apply Hl. reflexivity.
Defined.

(** C3 as stated fails: a fanned-out project that holds a slash is not
    marked itself.  With the entry for [core] listing [group/web], which
    is also in [allApps], a change in [libs/core] gives [apps = ["web"]],
    which does not hold [group/web]. *)
Lemma C3_counterexample :
  ~ (forall (appsDir libsDir : string) (allApps allLibs : list string)
            (table : list ImplicitDependency)
            (changedFiles ignore : list string) (file lib : string),
        plainDir appsDir = true -> plainDir libsDir = true ->
        In file changedFiles ->
        dirFinder libsDir file = Some lib ->
        let result := getChanges appsDir libsDir allApps allLibs table
                                 changedFiles ignore in
        In (lastSegment lib) (libs result)
        /\ forall projects,
             In (Keyed (lastSegment lib) projects) table ->
             NoDup (keysOf table) ->
             forall project, In project projects ->
               (In project allApps -> ~ In project ignore ->
                In project (apps result))
               /\ (In project allLibs -> In project (libs result))).
Proof.
  intros H.
  destruct (H "apps" "libs" ["group/web"] [] [Keyed "core" ["group/web"]]
              ["libs/core/a.ts"] [] "libs/core/a.ts" "libs/core"
              eq_refl eq_refl (or_introl eq_refl) eq_refl) as [_ Hfan].
  assert (Hkeys : NoDup (keysOf [Keyed "core" ["group/web"]])).
  { simpl. constructor; [intros [] | constructor]. }
  destruct (Hfan ["group/web"] (or_introl eq_refl) Hkeys
                 "group/web" (or_introl eq_refl)) as [Happs _].
  specialize (Happs (or_introl eq_refl) (fun F => F)).
  simpl in Happs. destruct Happs as [E | []]. discriminate E.
Qed.

(** *** Rule 3 and the shape of paths *)

Lemma applicationHit_fires (appsDir file app : string) :
  dirFinder appsDir file = Some app ->
  applicationHit (dirFinder appsDir) file
  = {| apps := [lastSegment app]; libs := []; implicitDependencies := [] |}.
Proof.
  intros H. unfold applicationHit. rewrite H.
  destruct (dirFinder_truthy _ _ _ H) as [c [l ->]]. reflexivity.
Qed.

(** C4.  The claim fails on the code at a file whose part after the
    project directory begins with a line terminator: [apps/web/]
    followed by a line feed and [x.ts] (or by U+2028 and [x.ts]) lies
    strictly inside [apps/web], [web] is not ignored, and nothing is
    marked, because the [.+] that ends the pattern does not start on a
    line terminator. *)
Theorem C4_file_after_line_terminator_marks_nothing :
  let afterLineFeed := inside "apps" "web" (String "010" "x.ts") in
  let afterSeparator :=
    inside "apps" "web"
           (String "226" (String "128" (String "168" "x.ts"))) in
  afterLineFeed = "apps/web/" ++ String "010" "x.ts"
  /\ ~ In "web" (@nil string)
  /\ dirFinder "apps" afterLineFeed = None
  /\ dirFinder "apps" afterSeparator = None
  /\ getChanges "apps" "libs" ["web"] [] [] [afterLineFeed] [] = nothing
  /\ getChanges "apps" "libs" ["web"] [] [] [afterSeparator] [] = nothing.
Proof.
  repeat split. intros [].
Qed.

(** C5.  For a file that is exactly [<rootDir>/<name>] the pattern of
    [rootDir] does not match, so neither path rule contributes anything
    for it; when no other rule applies to the file, a run on that file
    alone returns nothing, whichever of the two roots [rootDir] is. *)
Theorem C5_project_path_itself_marks_nothing (rootDir name : string) :
  plainDir rootDir = true -> noSlash name = true ->
  let file := projectPath rootDir name in
  dirFinder rootDir file = None
  /\ applicationHit (dirFinder rootDir) file = nothing
  /\ (forall table allApps allLibs,
        libraryHit (dirFinder rootDir) table allApps allLibs file = nothing)
  /\ (forall otherDir allApps allLibs table ignore,
        findImplicitDependencies table file = None ->
        dirFinder otherDir file = None ->
        getChanges rootDir otherDir allApps allLibs table [file] ignore
        = nothing
        /\ getChanges otherDir rootDir allApps allLibs table [file] ignore
           = nothing).
Proof.
  intros _ Hns file.
  pose proof (dirFinder_projectPath rootDir name Hns) as Hnone.
  fold file in Hnone.
  split; [assumption | split; [| split]].
  - unfold applicationHit. now rewrite Hnone.
  - intros table allApps allLibs. unfold libraryHit. now rewrite Hnone.
  - intros otherDir allApps allLibs table ignore Himpl Hother.
    unfold getChanges, reducer. simpl.
    rewrite Himpl, Hnone, Hother. split; reflexivity.
Qed.

Lemma C5_witness :
  plainDir "apps" = true /\ noSlash "web" = true
  /\ dirFinder "apps" "apps/web" = None
  /\ getChanges "apps" "libs" ["web"] ["core"] [Global "nx.json"]
                ["apps/web"] [] = nothing.
Proof.
  assert (H1 : plainDir "apps" = true) by reflexivity.
  assert (H2 : noSlash "web" = true) by reflexivity.
  destruct (C5_project_path_itself_marks_nothing "apps" "web" H1 H2)
    as [Hnone [_ [_ Hrun]]].
  split; [exact H1 | split; [exact H2 | split; [exact Hnone |]]].
  apply (Hrun "libs" ["web"] ["core"] [Global "nx.json"] []); reflexivity.
Defined.

(** The pattern matches wherever it occurs. *)
Lemma dirFinder_anywhere (dir before name rest : string) :
  name <> "" -> noSlash name = true -> startsOnLine rest = true ->
  dirFinder dir (before ++ inside dir name rest) <> None.
Proof.
  intros Hne Hns Hrest. unfold dirFinder.
  induction before as [| c before IH]; simpl.
  - fold (dirFinder dir (inside dir name rest)).
    now rewrite (dirFinder_inside _ _ _ Hne Hns Hrest).
  - destruct (matchHere dir (String c (before ++ inside dir name rest)));
      [discriminate | exact IH].
Qed.

(** C6.  The matcher is not anchored: [vendor/apps/web/x.ts] does not
    start with the apps root [apps], and it is classified as belonging to
    the app [web], which is returned as affected ([apps/web] in the
    revision that reports matched paths). *)
Theorem C6_matcher_is_not_anchored :
  exists file,
    String.prefix "apps" file = false
    /\ file = "vendor/" ++ inside "apps" "web" "x.ts"
    /\ dirFinder "apps" file = Some (projectPath "apps" "web")
    /\ apps (getChanges "apps" "libs" ["web"] [] [] [file] []) = ["web"]
    /\ apps (Part000.getChanges "apps" "libs" [] [file] []) = ["apps/web"].
Proof.
  exists "vendor/apps/web/x.ts". repeat split.
Qed.

(** *** The three rules together *)

(** C7.  For one changed file the three rules are evaluated one after the
    other without short-circuit, and what the step adds is the union of
    what each rule contributes for that file on its own: a name is in a
    set after the step exactly when it was there before or one of the
    rules marks it, and the recorded paths are the earlier ones followed
    by those of the rules.  A run on the file alone returns that union,
    [apps] less the ignored names. *)
Theorem C7_all_matching_rules_fire (appsDir libsDir : string)
    (allApps allLibs : list string) (table : list ImplicitDependency)
    (file : string) :
  let rule1 := globalHit table allApps allLibs file in
  let rule2 := libraryHit (dirFinder libsDir) table allApps allLibs file in
  let rule3 := applicationHit (dirFinder appsDir) file in
  (forall accumulatedChanges,
     let after := reducer (dirFinder appsDir) (dirFinder libsDir)
                          allApps allLibs table accumulatedChanges file in
     (forall name, In name (acc_apps after) <->
                   In name (acc_apps accumulatedChanges)
                   \/ In name (apps rule1) \/ In name (apps rule2)
                   \/ In name (apps rule3))
     /\ (forall name, In name (acc_libs after) <->
                      In name (acc_libs accumulatedChanges)
                      \/ In name (libs rule1) \/ In name (libs rule2)
                      \/ In name (libs rule3))
     /\ acc_implicitDependencies after
        = (acc_implicitDependencies accumulatedChanges
             ++ implicitDependencies rule1 ++ implicitDependencies rule2
             ++ implicitDependencies rule3)%list)
  /\ (forall ignore,
        let result := getChanges appsDir libsDir allApps allLibs table
                                 [file] ignore in
        (forall name, In name (apps result) <->
                      (In name (apps rule1) \/ In name (apps rule2)
                       \/ In name (apps rule3)) /\ ~ In name ignore)
        /\ (forall name, In name (libs result) <->
                         In name (libs rule1) \/ In name (libs rule2)
                         \/ In name (libs rule3))
        /\ implicitDependencies result
           = (implicitDependencies rule1 ++ implicitDependencies rule2
                ++ implicitDependencies rule3)%list).
Proof.
  intros rule1 rule2 rule3.
  assert (Hstep : forall acc,
    let after := reducer (dirFinder appsDir) (dirFinder libsDir)
                         allApps allLibs table acc file in
    (forall name, In name (acc_apps after) <->
                  In name (acc_apps acc)
                  \/ In name (apps rule1) \/ In name (apps rule2)
                  \/ In name (apps rule3))
    /\ (forall name, In name (acc_libs after) <->
                     In name (acc_libs acc)
                     \/ In name (libs rule1) \/ In name (libs rule2)
                     \/ In name (libs rule3))
    /\ acc_implicitDependencies after
       = (acc_implicitDependencies acc
            ++ implicitDependencies rule1 ++ implicitDependencies rule2
            ++ implicitDependencies rule3)%list).
  { intros acc after. split; [| split].
    - intros name. apply reducer_apps.
    - intros name. apply reducer_libs.
    - apply reducer_implicitDependencies. }
  split; [exact Hstep |].
  intros ignore result.
  destruct (getChanges_unfold appsDir libsDir allApps allLibs table
              [file] ignore) as [Happs [Hlibs Himpl]].
  subst result. cbn [fold_left] in Happs, Hlibs, Himpl.
  destruct (Hstep initialChanges) as [Ha [Hl Hi]].
  split; [| split].
  - intros name. etransitivity; [apply Happs |].
    rewrite Ha. simpl. tauto.
  - intros name. rewrite Hlibs, Hl. simpl. tauto.
  - rewrite Himpl, Hi. reflexivity.
Qed.

(** A file inside a library whose path is also a global entry, and that
    holds an apps path further on: all three rules leave their mark. *)
Example three_rules_one_file :
  getChanges "apps" "libs" ["web"; "admin"] ["core"; "util"]
             [Global "libs/core/apps/web/x.ts"; Keyed "core" ["admin"]]
             ["libs/core/apps/web/x.ts"] []
  = {| apps := ["web"; "admin"]; libs := ["core"; "util"];
       implicitDependencies := ["libs/core/apps/web/x.ts"] |}.
Proof. reflexivity. Qed.

(** ** The table [main] builds has one entry per key *)

Lemma keysOf_declare (name key : string) (result : list ImplicitDependency) :
  keysOf (declare name result key) = JS.add (keysOf result) key.
Proof.
  unfold JS.add, JS.includes.
  induction result as [| item result IH]; simpl; [reflexivity |].
  destruct item as [f | k projects]; simpl.
  - exact IH.
  - destruct (String.eqb key k); simpl; [reflexivity |].
    rewrite IH. now destruct (existsb (String.eqb key) (keysOf result)).
Qed.

Lemma keysOf_globals (files : list string) (table : list ImplicitDependency) :
  keysOf (map Global files ++ table) = keysOf table.
Proof. induction files as [| f files IH]; simpl; [reflexivity | exact IH]. Qed.

Lemma buildImplicitDependencies_keys (nx : NxJsonConfiguration)
    (workspace : WorkspaceJsonConfiguration) :
  NoDup (keysOf (buildImplicitDependencies nx workspace)).
Proof.
  unfold buildImplicitDependencies. rewrite keysOf_globals.
  assert (H : NoDup (keysOf [])) by constructor.
  revert H. generalize (@nil ImplicitDependency).
  induction (projects workspace) as [| [name project] rest IH];
    intros result H; simpl; [exact H |].
  apply IH. clear IH.
  revert result H.
  induction (match project with Some keys => keys | None => [] end)
    as [| key keys IHk]; intros result H; simpl; [exact H |].
  apply IHk. rewrite keysOf_declare. now apply JSFacts.NoDup_add.
Qed.

(** ** Reference resolution *)

Lemma truthy_Some (s : string) : JS.truthy (Some s) = true <-> s <> "".
Proof. destruct s; simpl; split; congruence. Qed.

Lemma truthy_Some_false (s : string) : JS.truthy (Some s) = false <-> s = "".
Proof. destruct s; simpl; split; congruence. Qed.

Section ReferenceFacts.

Variable JSON_parse : string -> option JSON.

(** Outside [pull_request] and [push] the inputs decide alone, up to
    the log line. *)
Lemma getBaseAndHeadRefs_default (ctx : Context)
    (baseRef headRef rawIgnore : string) :
  eventName ctx <> "pull_request" -> eventName ctx <> "push" ->
  getBaseAndHeadRefs JSON_parse ctx baseRef headRef rawIgnore
  = if negb (JS.truthy (Some baseRef)) || negb (JS.truthy (Some headRef))
    then inl ("Missing 'base' or 'head' refs for event type '"
                ++ eventName ctx ++ "'")
    else if joins (parseIgnore JSON_parse rawIgnore)
    then inr {| base := baseRef; head := headRef;
                ignore := parseIgnore JSON_parse rawIgnore |}
    else inl cannotConvert.
Proof.
  intros Hpr Hpush. unfold getBaseAndHeadRefs.
  apply String.eqb_neq in Hpr, Hpush. rewrite Hpr, Hpush.
  destruct (negb (JS.truthy (Some baseRef))
            || negb (JS.truthy (Some headRef))) eqn:E; [reflexivity |].
  now rewrite E.
Qed.

(** C9.  An ignore input that [JSON.parse] rejects, or that parses to
    something other than an array, gives the empty ignore list and never
    a failure: whenever base and head resolve (with any ignore input at
    all), they resolve to the same pair with this input, and the ignore
    list of the result is empty. *)
Theorem C9_unparsable_ignore_is_empty (ctx : Context)
    (baseRef headRef rawIgnore : string) :
  JSON_parse rawIgnore = None
  \/ (exists tmp, JSON_parse rawIgnore = Some tmp /\ isArray tmp = None) ->
  parseIgnore JSON_parse rawIgnore = []
  /\ forall otherIgnore refs,
       getBaseAndHeadRefs JSON_parse ctx baseRef headRef otherIgnore
       = inr refs ->
       getBaseAndHeadRefs JSON_parse ctx baseRef headRef rawIgnore
       = inr {| base := base refs; head := head refs; ignore := [] |}.
Proof.
  intros Hbad.
  assert (Hparse : parseIgnore JSON_parse rawIgnore = []).
  { unfold parseIgnore. destruct Hbad as [-> | [tmp [-> ->]]]; reflexivity. }
  split; [exact Hparse |].
  intros otherIgnore refs. unfold getBaseAndHeadRefs. rewrite Hparse.
  destruct (String.eqb (eventName ctx) "pull_request");
    [| destruct (String.eqb (eventName ctx) "push")].
  - destruct (pull_request_base_sha (payload ctx)) as [b |]; [| discriminate].
    destruct (pull_request_head_sha (payload ctx)) as [h |]; [| discriminate].
    destruct (negb (JS.truthy (Some b)) || negb (JS.truthy (Some h)));
      [discriminate |].
    destruct (joins (parseIgnore JSON_parse otherIgnore)); [| discriminate].
    intros H. injection H as <-. reflexivity.
  - destruct (before (payload ctx)) as [b |]; [| discriminate].
    destruct (after (payload ctx)) as [h |]; [| discriminate].
    destruct (negb (JS.truthy (Some b)) || negb (JS.truthy (Some h)));
      [discriminate |].
    destruct (joins (parseIgnore JSON_parse otherIgnore)); [| discriminate].
    intros H. injection H as <-. reflexivity.
  - destruct (negb (JS.truthy (Some baseRef))
              || negb (JS.truthy (Some headRef))) eqn:E; [discriminate |].
    cbn iota beta. rewrite E.
    destruct (joins (parseIgnore JSON_parse otherIgnore)); [| discriminate].
    intros H. injection H as <-. reflexivity.
Qed.

End ReferenceFacts.

(** C8.  The claim fails on the code at an ignore text that parses to an
    array [join] cannot convert: on a [workflow_dispatch] event with the
    non-empty refs [main] and [feature] and the ignore text
    [[{"toString":0}]], resolution does not return the pair; the log line
    [info(`Ignore ref: [${parsedIgnore.join(',')}]`)] throws a
    [TypeError] after both checks have passed. *)
Theorem C8_unjoinable_ignore_throws :
  eventName dispatchContext <> "pull_request"
  /\ eventName dispatchContext <> "push"
  /\ "main" <> "" /\ "feature" <> ""
  /\ parseUnjoinable unjoinableText = Some unjoinableArray
  /\ getBaseAndHeadRefs parseUnjoinable dispatchContext "main" "feature"
                        unjoinableText
     = inl cannotConvert.
Proof.
  repeat split; discriminate.
Qed.

Lemma C9_witness :
  (sampleParse "web, admin" = None
   \/ exists tmp, sampleParse "web, admin" = Some tmp /\ isArray tmp = None)
  /\ getBaseAndHeadRefs sampleParse pushContext "" "" "web, admin"
     = inr {| base := "1f3a"; head := "9c2e"; ignore := [] |}.
Proof.
  assert (H : sampleParse "web, admin" = None
              \/ exists tmp, sampleParse "web, admin" = Some tmp
                             /\ isArray tmp = None) by (left; reflexivity).
  split; [exact H |].
  destruct (C9_unparsable_ignore_is_empty sampleParse pushContext "" ""
              "web, admin" H) as [_ Hsame].
  apply (Hsame "[1]" {| base := "1f3a"; head := "9c2e";
                        ignore := [JNumber "1"] |}).
  reflexivity.
Defined.

(** An object is not an array: the same soft outcome. *)
Example ignore_object_is_empty :
  getBaseAndHeadRefs sampleParse pushContext "" "" "{}"
  = inr {| base := "1f3a"; head := "9c2e"; ignore := [] |}.
Proof. reflexivity. Qed.

(** A full run on a manual trigger with both refs: the comparison is the
    first call, the outputs are the last. *)
Example main_dispatch_run :
  main sampleParse (dispatchWorld "main" "feature")
  = [CompareCommits "main" "feature"; ReadNxJson; ReadWorkspaceJson;
     Readdir "apps"; Readdir "libs";
     SetOutput "changed-apps-matrix" (Names ["web"]);
     SetOutput "changed-apps" (Text "web");
     SetOutput "changed-libs" (Text "");
     SetOutput "changed-dirs" (Text "web");
     SetOutput "changed-implicit-dependencies" (Text "");
     SetOutput "not-affected" (Flag false)].
Proof. reflexivity. Qed.

(* ================================================================= *)
(** * Further properties of the code *)

(** ** What the matcher returns *)

Lemma append_assoc (a b c : string) : (a ++ b) ++ c = a ++ (b ++ c).
Proof. induction a as [| x a IH]; simpl; [reflexivity | now rewrite IH]. Qed.

Lemma stripPrefix_Some (p s t : string) :
  stripPrefix p s = Some t -> s = p ++ t.
Proof.
  revert s. induction p as [| a p IH]; intros s H; simpl in *.
  - now injection H as ->.
  - destruct s as [| b s]; [discriminate |].
    destruct (Ascii.eqb_spec a b) as [-> | _]; [| discriminate].
    now rewrite (IH _ H).
Qed.

Lemma takeSegment_spec (s seg rest : string) :
  takeSegment s = (seg, rest) -> s = seg ++ rest /\ noSlash seg = true.
Proof.
  revert seg rest. induction s as [| c s IH]; intros seg rest H; simpl in H.
  - injection H as <- <-. now split.
  - destruct (Ascii.eqb c "/") eqn:E.
    + injection H as <- <-. now split.
    + destruct (takeSegment s) as [seg' rest'] eqn:T.
      injection H as <- <-. destruct (IH _ _ eq_refl) as [-> Hns].
      split; [reflexivity |]. simpl. now rewrite E, Hns.
Qed.

Lemma matchHere_shape (dir s group1 : string) :
  matchHere dir s = Some group1 ->
  exists name rest,
    s = inside dir name rest /\ name <> "" /\ noSlash name = true
    /\ startsOnLine rest = true /\ group1 = projectPath dir name.
Proof.
  unfold matchHere. intros H.
  destruct (stripPrefix dir s) as [[| sep afterDir] |] eqn:P; try discriminate.
  destruct (Ascii.eqb_spec sep "/") as [-> | _]; [| discriminate].
  destruct (takeSegment afterDir) as [[| c seg] [| sep' [| d rest]]] eqn:T;
    try discriminate.
  destruct (Ascii.eqb_spec sep' "/") as [-> | _]; [| discriminate].
  destruct (lineTerminator (String d rest)) eqn:L; [discriminate |].
  injection H as <-.
  apply stripPrefix_Some in P. apply takeSegment_spec in T.
  destruct T as [-> Hns].
  exists (String c seg), (String d rest). unfold inside, projectPath.
  repeat split; try assumption; try discriminate.
  unfold startsOnLine. now rewrite L.
Qed.

Lemma dirFinder_shape (dir file group1 : string) :
  dirFinder dir file = Some group1 ->
  exists before name rest,
    file = before ++ inside dir name rest /\ name <> ""
    /\ noSlash name = true /\ startsOnLine rest = true
    /\ group1 = projectPath dir name.
Proof.
  unfold dirFinder. induction file as [| c file IH]; simpl.
  - destruct (matchHere dir "") eqn:E; [| discriminate].
    intros H. injection H as <-.
    destruct (matchHere_shape _ _ _ E) as [name [rest H]].
    exists "", name, rest. exact H.
  - destruct (matchHere dir (String c file)) eqn:E.
    + intros H. injection H as <-.
      destruct (matchHere_shape _ _ _ E) as [name [rest H]].
      exists "", name, rest. exact H.
    + intros H. destruct (IH H) as [before [name [rest [-> Hrest]]]].
      exists (String c before), name, rest. split; [reflexivity | exact Hrest].
Qed.

(** The last segment of anything is one path component. *)
Lemma split_segments (s : string) :
  Forall (fun seg => noSlash seg = true) (JS.split "/" s).
Proof.
  induction s as [| c s IH]; simpl; [repeat constructor |].
  destruct (Ascii.eqb c "/") eqn:E; [constructor; [reflexivity | exact IH] |].
  destruct (JS.split "/" s) as [| seg segs]; [repeat constructor; simpl; now rewrite E |].
  inversion IH as [| ? ? Hseg Hsegs]; subst.
  constructor; [simpl; now rewrite E, Hseg | assumption].
Qed.

Lemma lastSegment_is_segment (s : string) : noSlash (lastSegment s) = true.
Proof.
  unfold lastSegment, JS.lastOf.
  pose proof (split_segments s) as H.
  induction (JS.split "/" s) as [| seg segs IH]; [reflexivity |].
  inversion H as [| ? ? Hseg Hsegs]; subst.
  destruct segs as [| seg' segs]; [exact Hseg | now apply IH].
Qed.

(** X1.  Whatever [dirFinder] returns for a directory without
    regular-expression syntax is the directory, a slash and one non-empty
    path component; the name [getChanges] stores for it, its last segment,
    is that component; and the file holds the returned path followed by a
    slash and a character that is not a line terminator. *)
Theorem X1_dirFinder_returns_a_project_path (dir file group1 : string) :
  plainDir dir = true ->
  dirFinder dir file = Some group1 ->
  exists before name rest,
    file = before ++ group1 ++ String "/" rest
    /\ group1 = projectPath dir name
    /\ name <> "" /\ noSlash name = true
    /\ startsOnLine rest = true
    /\ lastSegment group1 = name.
Proof.
  intros _ H.
  destruct (dirFinder_shape _ _ _ H)
    as [before [name [rest [-> [Hne [Hns [Hrest ->]]]]]]].
  exists before, name, rest. repeat split; try assumption.
  - unfold inside, projectPath. f_equal.
    now rewrite append_assoc.
  - unfold projectPath. now apply lastSegment_project.
Qed.

Lemma X1_witness :
  plainDir "libs" = true
  /\ dirFinder "libs" "vendor/libs/core/src/a.ts" = Some "libs/core"
  /\ exists before name rest,
       "vendor/libs/core/src/a.ts" = before ++ "libs/core" ++ String "/" rest
       /\ "libs/core" = projectPath "libs" name
       /\ name <> "" /\ noSlash name = true
       /\ startsOnLine rest = true
       /\ lastSegment "libs/core" = name.
Proof.
  assert (H1 : plainDir "libs" = true) by reflexivity.
  assert (H2 : dirFinder "libs" "vendor/libs/core/src/a.ts" = Some "libs/core")
    by reflexivity.
  split; [exact H1 | split; [exact H2 |]].
  exact (X1_dirFinder_returns_a_project_path
           "libs" "vendor/libs/core/src/a.ts" "libs/core" H1 H2).
Defined.

(** X2.  [dirFinder] returns something exactly when the file holds,
    somewhere, the directory, a slash, a non-empty component, a slash and
    a character that is not a line terminator. *)
Theorem X2_dirFinder_matches_iff_occurrence (dir file : string) :
  plainDir dir = true ->
  (dirFinder dir file <> None <->
   exists before name rest,
     file = before ++ inside dir name rest
     /\ name <> "" /\ noSlash name = true /\ startsOnLine rest = true).
Proof.
  intros _. split.
  - intros H. destruct (dirFinder dir file) as [g |] eqn:E; [| congruence].
    destruct (dirFinder_shape _ _ _ E)
      as [before [name [rest [Hf [Hne [Hns [Hrest _]]]]]]].
    exists before, name, rest. auto.
  - intros [before [name [rest [-> [Hne [Hns Hrest]]]]]].
    now apply dirFinder_anywhere.
Qed.

Lemma X2_witness :
  plainDir "apps" = true
  /\ (dirFinder "apps" "apps/web/x.ts" <> None <->
      exists before name rest,
        "apps/web/x.ts" = before ++ inside "apps" name rest
        /\ name <> "" /\ noSlash name = true /\ startsOnLine rest = true)
  /\ dirFinder "apps" "apps/web/x.ts" <> None.
Proof.
  assert (H1 : plainDir "apps" = true) by reflexivity.
  pose proof (X2_dirFinder_matches_iff_occurrence "apps" "apps/web/x.ts" H1)
    as Hiff.
  split; [exact H1 | split; [exact Hiff |]].
  apply Hiff. exists "", "web", "x.ts".
  repeat split; try reflexivity. discriminate.
Defined.

(** ** The whole fold *)

Lemma recordedFile_In (table : list ImplicitDependency) (file : string) :
  recordedFile table file = true <-> In (Global file) table.
Proof.
  unfold recordedFile. rewrite existsb_exists. split.
  - intros [entry [Hin Heq]]. apply strictEq_true in Heq.
    destruct entry as [f | k ps]; simpl in Heq; [| discriminate].
    injection Heq as ->. exact Hin.
  - intros Hin. exists (Global file). split; [exact Hin |].
    simpl. apply String.eqb_refl.
Qed.

Section Reduce.

Variables findApp findLib : string -> option string.
Variables allApps allLibs : list string.
Variable table : list ImplicitDependency.

Local Abbreviation step := (reducer findApp findLib allApps allLibs table).
Local Abbreviation rule1 := (globalHit table allApps allLibs).
Local Abbreviation rule2 := (libraryHit findLib table allApps allLibs).
Local Abbreviation rule3 := (applicationHit findApp).

Lemma reduce_apps (files : list string) (acc : AccumulatedChanges)
    (x : string) :
  In x (acc_apps (fold_left step files acc)) <->
  In x (acc_apps acc)
  \/ exists file, In file files
       /\ (In x (apps (rule1 file)) \/ In x (apps (rule2 file))
           \/ In x (apps (rule3 file))).
Proof.
  revert acc. induction files as [| f files IH]; intros acc; simpl.
  - split; [auto | intros [H | [file [[] _]]]; exact H].
  - rewrite IH, reducer_apps. split.
    + intros [[H | H] | [file [Hin H]]]; eauto 6.
    + intros [H | [file [[-> | Hin] H]]]; eauto 6.
Qed.

Lemma reduce_libs (files : list string) (acc : AccumulatedChanges)
    (x : string) :
  In x (acc_libs (fold_left step files acc)) <->
  In x (acc_libs acc)
  \/ exists file, In file files
       /\ (In x (libs (rule1 file)) \/ In x (libs (rule2 file))
           \/ In x (libs (rule3 file))).
Proof.
  revert acc. induction files as [| f files IH]; intros acc; simpl.
  - split; [auto | intros [H | [file [[] _]]]; exact H].
  - rewrite IH, reducer_libs. split.
    + intros [[H | H] | [file [Hin H]]]; eauto 6.
    + intros [H | [file [[-> | Hin] H]]]; eauto 6.
Qed.

Lemma rules_implicitDependencies (file : string) :
  (implicitDependencies (rule1 file) ++ implicitDependencies (rule2 file)
     ++ implicitDependencies (rule3 file))%list
  = if recordedFile table file then [file] else [].
Proof.
  unfold globalHit, libraryHit, applicationHit, recordedFile.
  destruct (existsb _ table); destruct (findLib file) as [[| c l] |];
    destruct (findApp file) as [[| c' a] |]; reflexivity.
Qed.

Lemma reduce_implicitDependencies (files : list string)
    (acc : AccumulatedChanges) :
  acc_implicitDependencies (fold_left step files acc)
  = (acc_implicitDependencies acc ++ filter (recordedFile table) files)%list.
Proof.
  revert acc. induction files as [| f files IH]; intros acc; simpl.
  - now rewrite app_nil_r.
  - rewrite IH, reducer_implicitDependencies, rules_implicitDependencies.
    rewrite <- app_assoc. now destruct (recordedFile table f).
Qed.

(** A file no rule applies to leaves the accumulator as it is. *)
Lemma reducer_unrelated (acc : AccumulatedChanges) (file : string) :
  findImplicitDependencies table file = None ->
  findLib file = None -> findApp file = None ->
  step acc file = acc.
Proof. intros H1 H2 H3. unfold reducer. now rewrite H1, H2, H3. Qed.

End Reduce.

(** What each rule marks, spelled out for the matchers of [getChanges]. *)
Lemma globalHit_apps (table : list ImplicitDependency)
    (allApps allLibs : list string) (file x : string) :
  In x (apps (globalHit table allApps allLibs file)) <->
  In (Global file) table /\ exists app, In app allApps /\ x = lastSegment app.
Proof.
  unfold globalHit. fold (recordedFile table file).
  destruct (recordedFile table file) eqn:E; simpl.
  - apply recordedFile_In in E. rewrite in_map_iff. split.
    + intros [app [<- Hin]]. eauto.
    + intros [_ [app [Hin ->]]]. eauto.
  - split; [tauto |]. intros [H _]. apply recordedFile_In in H. congruence.
Qed.

Lemma globalHit_libs (table : list ImplicitDependency)
    (allApps allLibs : list string) (file x : string) :
  In x (libs (globalHit table allApps allLibs file)) <->
  In (Global file) table /\ exists lib, In lib allLibs /\ x = lastSegment lib.
Proof.
  unfold globalHit. fold (recordedFile table file).
  destruct (recordedFile table file) eqn:E; simpl.
  - apply recordedFile_In in E. rewrite in_map_iff. split.
    + intros [lib [<- Hin]]. eauto.
    + intros [_ [lib [Hin ->]]]. eauto.
  - split; [tauto |]. intros [H _]. apply recordedFile_In in H. congruence.
Qed.

Lemma libraryHit_apps (libsDir : string) (table : list ImplicitDependency)
    (allApps allLibs : list string) (file x : string) :
  In x (apps (libraryHit (dirFinder libsDir) table allApps allLibs file)) <->
  exists lib projects project,
    dirFinder libsDir file = Some lib
    /\ findProjects table (lastSegment lib) = Some projects
    /\ In project projects /\ In project allApps
    /\ x = lastSegment project.
Proof.
  destruct (dirFinder libsDir file) as [lib |] eqn:E.
  - rewrite (libraryHit_fires _ _ _ _ _ _ E). simpl.
    destruct (findProjects table (lastSegment lib)) as [projects |] eqn:F.
    + rewrite In_map_filter. split.
      * intros [project [H1 [H2 H3]]]. exists lib, projects, project. auto.
      * intros [lib' [projects' [project [Hl [Hp H]]]]].
        injection Hl as <-. rewrite F in Hp. injection Hp as <-.
        exists project. tauto.
    + simpl. split; [tauto |].
      intros [lib' [projects' [project [Hl [Hp _]]]]].
      injection Hl as <-. congruence.
  - unfold libraryHit. rewrite E. simpl. split; [tauto |].
    intros [lib [projects [project [Hl _]]]]. discriminate.
Qed.

Lemma libraryHit_libs (libsDir : string) (table : list ImplicitDependency)
    (allApps allLibs : list string) (file x : string) :
  In x (libs (libraryHit (dirFinder libsDir) table allApps allLibs file)) <->
  exists lib,
    dirFinder libsDir file = Some lib
    /\ (x = lastSegment lib
        \/ exists projects project,
             findProjects table (lastSegment lib) = Some projects
             /\ In project projects /\ In project allLibs
             /\ x = lastSegment project).
Proof.
  destruct (dirFinder libsDir file) as [lib |] eqn:E.
  - rewrite (libraryHit_fires _ _ _ _ _ _ E). simpl.
    destruct (findProjects table (lastSegment lib)) as [projects |] eqn:F.
    + rewrite In_map_filter. split.
      * intros [H | [project [H1 [H2 H3]]]]; exists lib; split; eauto 8.
      * intros [lib' [Hl [H | [projects' [project [Hp H]]]]]];
          injection Hl as <-; [now left |].
        rewrite F in Hp. injection Hp as <-. right. exists project. tauto.
    + simpl. split.
      * intros [H | []]. exists lib. auto.
      * intros [lib' [Hl [H | [projects' [project [Hp _]]]]]];
          injection Hl as <-; [now left | congruence].
  - unfold libraryHit. rewrite E. simpl. split; [tauto |].
    intros [lib [Hl _]]. discriminate.
Qed.

Lemma applicationHit_apps (appsDir file x : string) :
  In x (apps (applicationHit (dirFinder appsDir) file)) <->
  exists app, dirFinder appsDir file = Some app /\ x = lastSegment app.
Proof.
  destruct (dirFinder appsDir file) as [app |] eqn:E.
  - rewrite (applicationHit_fires _ _ _ E). simpl. split.
    + intros [<- | []]. eauto.
    + intros [app' [Ha ->]]. injection Ha as <-. now left.
  - unfold applicationHit. rewrite E. simpl. split; [tauto |].
    intros [app [Ha _]]. discriminate.
Qed.

Lemma applicationHit_libs (appsDir file : string) :
  libs (applicationHit (dirFinder appsDir) file) = [].
Proof.
  unfold applicationHit. now destruct (dirFinder appsDir file) as [[| c a] |].
Qed.

Lemma libraryHit_implicitDependencies (findLib : string -> option string)
    (table : list ImplicitDependency) (allApps allLibs : list string)
    (file : string) :
  implicitDependencies (libraryHit findLib table allApps allLibs file) = [].
Proof.
  unfold libraryHit. now destruct (findLib file) as [[| c a] |].
Qed.

Section WholeResult.

Variables appsDir libsDir : string.
Variables allApps allLibs : list string.
Variable table : list ImplicitDependency.

Local Abbreviation changesOf files :=
  (fold_left (reducer (dirFinder appsDir) (dirFinder libsDir)
                      allApps allLibs table) files initialChanges).

(** X3.  A name is in the returned [apps] exactly when it is not ignored
    and some changed file puts it there: the file is the recorded file of
    a global entry and the name is the last segment of a listed app; or
    the file matches the library pattern, the first entry keyed by the
    matched library lists a project that is a listed app, and the name is
    that project's last segment; or the file matches the application
    pattern and the name is the last segment of the match. *)
Theorem X3_apps_exactly (changedFiles ignore : list string) (name : string) :
  In name (apps (getChanges appsDir libsDir allApps allLibs table
                            changedFiles ignore)) <->
  ~ In name ignore
  /\ exists file, In file changedFiles
       /\ ((In (Global file) table
            /\ exists app, In app allApps /\ name = lastSegment app)
           \/ (exists lib projects project,
                 dirFinder libsDir file = Some lib
                 /\ findProjects table (lastSegment lib) = Some projects
                 /\ In project projects /\ In project allApps
                 /\ name = lastSegment project)
           \/ (exists app, dirFinder appsDir file = Some app
                           /\ name = lastSegment app)).
Proof.
  destruct (getChanges_unfold appsDir libsDir allApps allLibs table
              changedFiles ignore) as [Happs _].
  rewrite Happs, reduce_apps. simpl.
  setoid_rewrite globalHit_apps. setoid_rewrite libraryHit_apps.
  setoid_rewrite applicationHit_apps. tauto.
Qed.

(** X4.  A name is in the returned [libs] exactly when some changed file
    puts it there: the file is the recorded file of a global entry and
    the name is the last segment of a listed lib; or the file matches the
    library pattern and the name is the last segment of the match, or of
    a project, listed as a lib, of the first entry keyed by the matched
    library.  An application match adds no lib, and the ignore list plays
    no part. *)
Theorem X4_libs_exactly (changedFiles ignore : list string) (name : string) :
  In name (libs (getChanges appsDir libsDir allApps allLibs table
                            changedFiles ignore)) <->
  exists file, In file changedFiles
    /\ ((In (Global file) table
         /\ exists lib, In lib allLibs /\ name = lastSegment lib)
        \/ (exists lib,
              dirFinder libsDir file = Some lib
              /\ (name = lastSegment lib
                  \/ exists projects project,
                       findProjects table (lastSegment lib) = Some projects
                       /\ In project projects /\ In project allLibs
                       /\ name = lastSegment project))).
Proof.
  destruct (getChanges_unfold appsDir libsDir allApps allLibs table
              changedFiles ignore) as [_ [Hlibs _]].
  rewrite Hlibs, reduce_libs. simpl.
  setoid_rewrite globalHit_libs. setoid_rewrite libraryHit_libs.
  setoid_rewrite applicationHit_libs. simpl.
  split.
  - intros [[] | [file [Hin [H | [H | []]]]]]; eauto.
  - intros [file [Hin [H | H]]]; right; exists file; auto.
Qed.

(** X5.  The returned [implicitDependencies] is the list of changed
    files, in their order and with their repetitions, that are the
    recorded file of a global entry; [ignore], the listings and the
    directories play no part. *)
Theorem X5_implicitDependencies_are_the_recorded_files
    (changedFiles ignore : list string) :
  implicitDependencies (getChanges appsDir libsDir allApps allLibs table
                                   changedFiles ignore)
  = filter (recordedFile table) changedFiles.
Proof.
  unfold getChanges. simpl. now rewrite reduce_implicitDependencies.
Qed.

(** X6.  No returned name holds a slash: every app and every lib is
    reported by one path component. *)
Theorem X6_names_are_single_segments (changedFiles ignore : list string)
    (name : string) :
  In name (apps (getChanges appsDir libsDir allApps allLibs table
                            changedFiles ignore))
  \/ In name (libs (getChanges appsDir libsDir allApps allLibs table
                               changedFiles ignore)) ->
  noSlash name = true.
Proof.
  destruct (getChanges_unfold appsDir libsDir allApps allLibs table
              changedFiles ignore) as [Happs [Hlibs _]].
  intros [H | H].
  - apply Happs in H. destruct H as [H _]. apply reduce_apps in H.
    simpl in H. destruct H as [[] | [file [_ H]]].
    rewrite globalHit_apps, libraryHit_apps, applicationHit_apps in H.
    destruct H as [[_ [app [_ ->]]]
                  | [[lib [ps [p [_ [_ [_ [_ ->]]]]]]] | [app [_ ->]]]];
      apply lastSegment_is_segment.
  - rewrite Hlibs in H. apply reduce_libs in H.
    simpl in H. destruct H as [[] | [file [_ H]]].
    rewrite globalHit_libs, libraryHit_libs, applicationHit_libs in H.
    destruct H as [[_ [lib [_ ->]]]
                  | [[lib [_ [-> | [ps [p [_ [_ [_ ->]]]]]]]] | []]];
      apply lastSegment_is_segment.
Qed.

(** X7.  Which names are returned depends on which files changed, not on
    their order or on how often one is listed: two lists with the same
    members give the same members of [apps] and of [libs]. *)
Theorem X7_only_the_set_of_files_matters
    (changedFiles changedFiles' ignore : list string) :
  (forall file, In file changedFiles <-> In file changedFiles') ->
  forall name,
    (In name (apps (getChanges appsDir libsDir allApps allLibs table
                               changedFiles ignore))
     <-> In name (apps (getChanges appsDir libsDir allApps allLibs table
                                   changedFiles' ignore)))
    /\ (In name (libs (getChanges appsDir libsDir allApps allLibs table
                                  changedFiles ignore))
        <-> In name (libs (getChanges appsDir libsDir allApps allLibs table
                                      changedFiles' ignore))).
Proof.
  intros Hsame name.
  destruct (getChanges_unfold appsDir libsDir allApps allLibs table
              changedFiles ignore) as [Happs [Hlibs _]].
  destruct (getChanges_unfold appsDir libsDir allApps allLibs table
              changedFiles' ignore) as [Happs' [Hlibs' _]].
  rewrite Happs, Happs', Hlibs, Hlibs', !reduce_apps, !reduce_libs.
  split.
  - split; intros [[H | [file [Hin H]]] Hign]; (split; [| exact Hign]);
      try (now left); right; exists file; split; try exact H;
      now apply Hsame.
  - split; intros [H | [file [Hin H]]]; try (now left);
      right; exists file; split; try exact H; now apply Hsame.
Qed.

(** X8.  The ignore list removes names from [apps] and does nothing else:
    [apps] is what an empty ignore list returns, in the same order, less
    the ignored names; [libs] and [implicitDependencies] are what an
    empty ignore list returns. *)
Theorem X8_ignore_only_filters_apps (changedFiles ignore : list string) :
  let unfiltered := getChanges appsDir libsDir allApps allLibs table
                               changedFiles [] in
  getChanges appsDir libsDir allApps allLibs table changedFiles ignore
  = {| apps := filter (fun name => negb (JS.includes ignore name))
                      (apps unfiltered);
       libs := libs unfiltered;
       implicitDependencies := implicitDependencies unfiltered |}.
Proof.
  unfold getChanges. simpl. f_equal.
  f_equal. symmetry.
  generalize (acc_apps (changesOf changedFiles)). intros l.
  induction l as [| a l IH]; simpl; [reflexivity | now rewrite IH].
Qed.

(** X9.  Changed files that no rule applies to (none is the recorded
    file of a global entry, none matches either pattern) give the empty
    result. *)
Theorem X9_unrelated_files_mark_nothing (changedFiles ignore : list string) :
  (forall file, In file changedFiles ->
     findImplicitDependencies table file = None
     /\ dirFinder libsDir file = None /\ dirFinder appsDir file = None) ->
  getChanges appsDir libsDir allApps allLibs table changedFiles ignore
  = nothing.
Proof.
  intros H. unfold getChanges.
  assert (Hfold : changesOf changedFiles = initialChanges).
  { generalize initialChanges.
    induction changedFiles as [| f files IH]; intros acc; [reflexivity |].
    simpl. destruct (H f (or_introl eq_refl)) as [H1 [H2 H3]].
    rewrite (reducer_unrelated _ _ _ _ _ _ _ H1 H2 H3).
    apply IH. intros file Hin. apply H. now right. }
  rewrite Hfold. reflexivity.
Qed.

End WholeResult.

Lemma X6_witness :
  In "web" (apps (getChanges "a/apps" "libs" ["x/web"] [] [Global "nx.json"]
                             ["nx.json"] []))
  /\ noSlash "web" = true.
Proof.
  assert (H : In "web" (apps (getChanges "a/apps" "libs" ["x/web"] []
                                         [Global "nx.json"] ["nx.json"] [])))
    by (left; reflexivity).
  split; [exact H |].
  apply (X6_names_are_single_segments "a/apps" "libs" ["x/web"] []
           [Global "nx.json"] ["nx.json"] [] "web").
  left. exact H.
Defined.

Lemma X7_witness :
  (forall file, In file ["libs/core/a.ts"; "apps/web/b.ts"]
                <-> In file ["apps/web/b.ts"; "libs/core/a.ts";
                             "apps/web/b.ts"])
  /\ (In "web" (apps (getChanges "apps" "libs" [] [] []
                        ["libs/core/a.ts"; "apps/web/b.ts"] []))
      <-> In "web" (apps (getChanges "apps" "libs" [] [] []
                            ["apps/web/b.ts"; "libs/core/a.ts";
                             "apps/web/b.ts"] []))).
Proof.
  assert (H : forall file,
             In file ["libs/core/a.ts"; "apps/web/b.ts"]
             <-> In file ["apps/web/b.ts"; "libs/core/a.ts";
                          "apps/web/b.ts"]).
  { intros file. simpl. tauto. }
  split; [exact H |].
  apply (X7_only_the_set_of_files_matters "apps" "libs" [] [] []
           ["libs/core/a.ts"; "apps/web/b.ts"]
           ["apps/web/b.ts"; "libs/core/a.ts"; "apps/web/b.ts"] [] H "web").
Defined.

Lemma X9_witness :
  (forall file, In file ["README.md"; "tools/build.js"; "apps/web"] ->
     findImplicitDependencies [Global "nx.json"; Keyed "core" ["web"]] file
     = None
     /\ dirFinder "libs" file = None /\ dirFinder "apps" file = None)
  /\ getChanges "apps" "libs" ["web"] ["core"]
                [Global "nx.json"; Keyed "core" ["web"]]
                ["README.md"; "tools/build.js"; "apps/web"] ["web"]
     = nothing.
Proof.
  assert (H : forall file,
             In file ["README.md"; "tools/build.js"; "apps/web"] ->
             findImplicitDependencies
               [Global "nx.json"; Keyed "core" ["web"]] file = None
             /\ dirFinder "libs" file = None /\ dirFinder "apps" file = None).
  { intros file [<- | [<- | [<- | []]]]; repeat split. }
  split; [exact H |].
  exact (X9_unrelated_files_mark_nothing "apps" "libs" ["web"] ["core"]
           [Global "nx.json"; Keyed "core" ["web"]]
           ["README.md"; "tools/build.js"; "apps/web"] ["web"] H).
Defined.

(** ** Reference resolution for the events that carry their refs *)

Section PayloadEvents.

Variable JSON_parse : string -> option JSON.

Lemma getBaseAndHeadRefs_payload (ctx : Context)
    (baseRef headRef rawIgnore : string) (fromBase fromHead : option string) :
  (eventName ctx = "pull_request"
   /\ fromBase = pull_request_base_sha (payload ctx)
   /\ fromHead = pull_request_head_sha (payload ctx))
  \/ (eventName ctx = "push"
      /\ fromBase = before (payload ctx)
      /\ fromHead = after (payload ctx)) ->
  getBaseAndHeadRefs JSON_parse ctx baseRef headRef rawIgnore
  = match fromBase, fromHead with
    | Some (String a b), Some (String c h) =>
        if joins (parseIgnore JSON_parse rawIgnore)
        then inr {| base := String a b; head := String c h;
                    ignore := parseIgnore JSON_parse rawIgnore |}
        else inl cannotConvert
    | _, _ => inl "Base or head refs are missing"
    end.
Proof.
  unfold getBaseAndHeadRefs.
  intros [[-> [-> ->]] | [-> [-> ->]]]; simpl.
  - destruct (pull_request_base_sha (payload ctx)) as [[| a b] |];
      destruct (pull_request_head_sha (payload ctx)) as [[| c h] |];
      reflexivity.
  - destruct (before (payload ctx)) as [[| a b] |];
      destruct (after (payload ctx)) as [[| c h] |]; reflexivity.
Qed.

(** X10.  On a [pull_request] event the refs are the base and head
    commits of the payload, whatever the [baseRef] and [headRef] inputs
    say: with both commits present and non-empty, resolution returns
    them when the parsed ignore array can be joined for the log line,
    and throws the [TypeError] of the conversion when it cannot; when
    either commit is absent or empty, resolution fails with the second
    error, also when both inputs are supplied. *)
Theorem X10_pull_request_refs_come_from_the_payload (ctx : Context)
    (baseRef headRef rawIgnore : string) :
  eventName ctx = "pull_request" ->
  let outcome :=
    getBaseAndHeadRefs JSON_parse ctx baseRef headRef rawIgnore in
  let fromBase := pull_request_base_sha (payload ctx) in
  let fromHead := pull_request_head_sha (payload ctx) in
  let parsedIgnore := parseIgnore JSON_parse rawIgnore in
  (forall b h, fromBase = Some b -> fromHead = Some h ->
               b <> "" -> h <> "" ->
               outcome = if joins parsedIgnore
                         then inr {| base := b; head := h;
                                     ignore := parsedIgnore |}
                         else inl cannotConvert)
  /\ (JS.truthy fromBase = false \/ JS.truthy fromHead = false ->
      outcome = inl "Base or head refs are missing").
Proof.
  intros Hev outcome fromBase fromHead parsedIgnore.
  assert (H : outcome
              = match fromBase, fromHead with
                | Some (String a b), Some (String c h) =>
                    if joins parsedIgnore
                    then inr {| base := String a b; head := String c h;
                                ignore := parsedIgnore |}
                    else inl cannotConvert
                | _, _ => inl "Base or head refs are missing"
                end).
  { apply getBaseAndHeadRefs_payload. left. auto. }
  rewrite H. split.
  - intros b h -> -> Hb Hh.
    destruct b; [congruence |]. destruct h; [congruence |]. reflexivity.
  - destruct fromBase as [[| a b] |], fromHead as [[| c h] |]; simpl;
      intros [E | E]; try reflexivity; discriminate.
Qed.

(** X11.  On a [push] event the refs are the [before] and [after]
    commits of the payload, whatever the inputs say: with both present
    and non-empty, resolution returns them when the parsed ignore array
    can be joined for the log line, and throws the [TypeError] of the
    conversion when it cannot; when either is absent or empty,
    resolution fails with the second error. *)
Theorem X11_push_refs_come_from_the_payload (ctx : Context)
    (baseRef headRef rawIgnore : string) :
  eventName ctx = "push" ->
  let outcome :=
    getBaseAndHeadRefs JSON_parse ctx baseRef headRef rawIgnore in
  let fromBase := before (payload ctx) in
  let fromHead := after (payload ctx) in
  let parsedIgnore := parseIgnore JSON_parse rawIgnore in
  (forall b h, fromBase = Some b -> fromHead = Some h ->
               b <> "" -> h <> "" ->
               outcome = if joins parsedIgnore
                         then inr {| base := b; head := h;
                                     ignore := parsedIgnore |}
                         else inl cannotConvert)
  /\ (JS.truthy fromBase = false \/ JS.truthy fromHead = false ->
      outcome = inl "Base or head refs are missing").
Proof.
  intros Hev outcome fromBase fromHead parsedIgnore.
  assert (H : outcome
              = match fromBase, fromHead with
                | Some (String a b), Some (String c h) =>
                    if joins parsedIgnore
                    then inr {| base := String a b; head := String c h;
                                ignore := parsedIgnore |}
                    else inl cannotConvert
                | _, _ => inl "Base or head refs are missing"
                end).
  { apply getBaseAndHeadRefs_payload. right. auto. }
  rewrite H. split.
  - intros b h -> -> Hb Hh.
    destruct b; [congruence |]. destruct h; [congruence |]. reflexivity.
  - destruct fromBase as [[| a b] |], fromHead as [[| c h] |]; simpl;
      intros [E | E]; try reflexivity; discriminate.
Qed.

(** Every way out of [getBaseAndHeadRefs]. *)
Lemma getBaseAndHeadRefs_outcomes (ctx : Context)
    (baseRef headRef rawIgnore : string) :
  (exists b h,
     b <> "" /\ h <> ""
     /\ joins (parseIgnore JSON_parse rawIgnore) = true
     /\ getBaseAndHeadRefs JSON_parse ctx baseRef headRef rawIgnore
        = inr {| base := b; head := h;
                 ignore := parseIgnore JSON_parse rawIgnore |})
  \/ (exists error,
        getBaseAndHeadRefs JSON_parse ctx baseRef headRef rawIgnore
        = inl error).
Proof.
  destruct (String.eqb_spec (eventName ctx) "pull_request") as [Hpr | Hpr].
  - rewrite (getBaseAndHeadRefs_payload ctx baseRef headRef rawIgnore
               (pull_request_base_sha (payload ctx))
               (pull_request_head_sha (payload ctx))) by (left; auto).
    destruct (pull_request_base_sha (payload ctx)) as [[| a b] |];
      destruct (pull_request_head_sha (payload ctx)) as [[| c h] |];
      eauto.
    destruct (joins (parseIgnore JSON_parse rawIgnore)) eqn:J; [| eauto].
    left. exists (String a b), (String c h).
    repeat split; discriminate.
  - destruct (String.eqb_spec (eventName ctx) "push") as [Hpush | Hpush].
    + rewrite (getBaseAndHeadRefs_payload ctx baseRef headRef rawIgnore
                 (before (payload ctx)) (after (payload ctx)))
        by (right; auto).
      destruct (before (payload ctx)) as [[| a b] |];
        destruct (after (payload ctx)) as [[| c h] |]; eauto.
      destruct (joins (parseIgnore JSON_parse rawIgnore)) eqn:J; [| eauto].
      left. exists (String a b), (String c h).
      repeat split; discriminate.
    + rewrite (getBaseAndHeadRefs_default JSON_parse ctx baseRef headRef
                 rawIgnore Hpr Hpush).
      destruct baseRef as [| a b]; [simpl; eauto |].
      destruct headRef as [| c h]; [simpl; eauto |]. simpl.
      destruct (joins (parseIgnore JSON_parse rawIgnore)) eqn:J; [| eauto].
      left. exists (String a b), (String c h).
      repeat split; discriminate.
Qed.

(** X12.  Whatever the event, refs that are returned have a non-empty
    base and a non-empty head, and their ignore list is the array the
    ignore text parses to, or the empty list. *)
Theorem X12_returned_refs_are_never_empty (ctx : Context)
    (baseRef headRef rawIgnore : string) (refs : Refs) :
  getBaseAndHeadRefs JSON_parse ctx baseRef headRef rawIgnore = inr refs ->
  base refs <> "" /\ head refs <> ""
  /\ ignore refs = match JSON_parse rawIgnore with
                   | Some (JArray elements) => elements
                   | _ => []
                   end.
Proof.
  intros H.
  destruct (getBaseAndHeadRefs_outcomes ctx baseRef headRef rawIgnore)
    as [[b [h [Hb [Hh [_ E]]]]] | [error E]]; rewrite E in H;
    try discriminate.
  injection H as <-. simpl. repeat split; try assumption.
  unfold parseIgnore.
  destruct (JSON_parse rawIgnore) as [[] |]; reflexivity.
Qed.

End PayloadEvents.

Lemma X10_witness :
  let ctx := {| eventName := "pull_request";
                payload := {| pull_request_base_sha := Some "aa11";
                              pull_request_head_sha := Some "bb22";
                              before := None; after := None |} |} in
  eventName ctx = "pull_request"
  /\ getBaseAndHeadRefs sampleParse ctx "main" "" "[1]"
     = inr {| base := "aa11"; head := "bb22"; ignore := [JNumber "1"] |}.
Proof.
  intros ctx.
  assert (H : eventName ctx = "pull_request") by reflexivity.
  split; [exact H |].
  destruct (X10_pull_request_refs_come_from_the_payload sampleParse ctx
              "main" "" "[1]" H) as [Hok _].
  apply (Hok "aa11" "bb22"); try reflexivity; discriminate.
Defined.

Lemma X11_witness :
  eventName pushContext = "push"
  /\ getBaseAndHeadRefs sampleParse pushContext "main" "feature" ""
     = inr {| base := "1f3a"; head := "9c2e"; ignore := [] |}.
Proof.
  assert (H : eventName pushContext = "push") by reflexivity.
  split; [exact H |].
  destruct (X11_push_refs_come_from_the_payload sampleParse pushContext
              "main" "feature" "" H) as [Hok _].
  apply (Hok "1f3a" "9c2e"); try reflexivity; discriminate.
Defined.

Lemma X12_witness :
  getBaseAndHeadRefs sampleParse dispatchContext "main" "feature" "[1]"
  = inr {| base := "main"; head := "feature"; ignore := [JNumber "1"] |}
  /\ "main" <> "" /\ "feature" <> "".
Proof.
  assert (H : getBaseAndHeadRefs sampleParse dispatchContext
                "main" "feature" "[1]"
              = inr {| base := "main"; head := "feature";
                       ignore := [JNumber "1"] |}) by reflexivity.
  split; [exact H |].
  destruct (X12_returned_refs_are_never_empty sampleParse dispatchContext
              "main" "feature" "[1]" _ H) as [Hb [Hh _]].
  split; [exact Hb | exact Hh].
Defined.

(** ** The table [main] builds *)

Lemma findProjects_declare (name key k : string)
    (result : list ImplicitDependency) :
  findProjects (declare name result key) k
  = if String.eqb k key
    then Some (JS.add (match findProjects result key with
                       | Some projects => projects
                       | None => []
                       end) name)
    else findProjects result k.
Proof.
  unfold findProjects, JS.find.
  induction result as [| item result IH]; simpl.
  - now destruct (String.eqb k key).
  - destruct item as [f | key' projects]; simpl.
    + exact IH.
    + destruct (String.eqb_spec key key') as [<- | Hne]; simpl.
      * now destruct (String.eqb k key).
      * destruct (String.eqb_spec k key') as [-> | Hne'].
        -- destruct (String.eqb_spec key' key) as [-> | _];
             [congruence | reflexivity].
        -- exact IH.
Qed.

Lemma fansOut_declare (name key k x : string)
    (result : list ImplicitDependency) :
  fansOut (declare name result key) k x <->
  fansOut result k x \/ (k = key /\ x = name).
Proof.
  unfold fansOut. rewrite findProjects_declare.
  destruct (String.eqb_spec k key) as [-> | Hne].
  - split.
    + intros [projects [H Hin]]. injection H as <-.
      apply JSFacts.In_add in Hin.
      destruct (findProjects result key) as [ps |]; destruct Hin as [Hin | ->];
        eauto; contradiction.
    + intros H. eexists. split; [reflexivity |]. apply JSFacts.In_add.
      destruct H as [[projects [-> Hin]] | [_ ->]]; auto.
  - split; [auto | intros [H | [H _]]; [exact H | congruence]].
Qed.

Lemma fansOut_declare_all (name k x : string) (keys : list string)
    (result : list ImplicitDependency) :
  fansOut (fold_left (declare name) keys result) k x <->
  fansOut result k x \/ (In k keys /\ x = name).
Proof.
  revert result. induction keys as [| key keys IH]; intros result; simpl.
  - tauto.
  - rewrite IH, fansOut_declare. intuition congruence.
Qed.

Lemma fansOut_projects (k x : string)
    (declarations : list (string * option (list string)))
    (result : list ImplicitDependency) :
  fansOut
    (fold_left
       (fun result entry =>
          let '(name, project) := entry in
          let implicitDependencies :=
            match project with Some keys => keys | None => [] end in
          fold_left (declare name) implicitDependencies result)
       declarations result) k x <->
  fansOut result k x
  \/ exists keys, In (x, Some keys) declarations /\ In k keys.
Proof.
  revert result.
  induction declarations as [| [name project] rest IH]; intros result; simpl.
  - split; [auto | intros [H | [keys [[] _]]]; exact H].
  - rewrite IH, fansOut_declare_all. split.
    + intros [[H | [Hin ->]] | [keys [Hin Hk]]]; eauto.
      destruct project as [keys |]; [eauto | contradiction].
    + intros [H | [keys [[E | Hin] Hk]]]; eauto.
      injection E as -> ->. auto.
Qed.

Lemma findProjects_globals (files : list string)
    (table : list ImplicitDependency) (k : string) :
  findProjects (map Global files ++ table) k = findProjects table k.
Proof.
  unfold findProjects, JS.find.
  induction files as [| f files IH]; simpl; [reflexivity | exact IH].
Qed.

Lemma fansOut_built (nx : NxJsonConfiguration)
    (workspace : WorkspaceJsonConfiguration) (key project : string) :
  fansOut (buildImplicitDependencies nx workspace) key project <->
  exists keys, In (project, Some keys) (projects workspace) /\ In key keys.
Proof.
  unfold buildImplicitDependencies, fansOut.
  rewrite findProjects_globals.
  fold (fansOut
          (fold_left
             (fun result entry =>
                let '(name, project) := entry in
                let implicitDependencies :=
                  match project with Some keys => keys | None => [] end in
                fold_left (declare name) implicitDependencies result)
             (projects workspace) []) key project).
  rewrite fansOut_projects. split; [| auto].
  intros [[ps [H _]] | H]; [discriminate | exact H].
Qed.

Lemma keyed_not_global
    (declarations : list (string * option (list string)))
    (result : list ImplicitDependency) (f : string) :
  In (Global f)
     (fold_left
        (fun result entry =>
           let '(name, project) := entry in
           let implicitDependencies :=
             match project with Some keys => keys | None => [] end in
           fold_left (declare name) implicitDependencies result)
        declarations result) ->
  In (Global f) result.
Proof.
  revert result.
  induction declarations as [| [name project] rest IH]; intros result;
    simpl; [auto |].
  intros H. apply IH in H. clear IH. revert result H.
  induction (match project with Some keys => keys | None => [] end)
    as [| key keys IHk]; intros result H; simpl in H; [exact H |].
  apply IHk in H. clear IHk.
  induction result as [| item result IHr]; simpl in H.
  - destruct H as [H | []]. discriminate.
  - destruct (strictEq key (dep_key item)).
    + destruct item as [g | k ps]; [exact H |].
      destruct H as [H | H]; [discriminate | now right].
    + destruct H as [H | H]; [now left | right; auto].
Qed.

(** X13.  In the table [main] builds, a library key fans out to exactly
    the projects of [workspace.json] that declare it among their
    [implicitDependencies]: the entry [getChanges] finds for the key lists
    a project exactly when the project declares the key. *)
Theorem X13_table_groups_projects_by_key (nx : NxJsonConfiguration)
    (workspace : WorkspaceJsonConfiguration) (key project : string) :
  (exists listed,
     findProjects (buildImplicitDependencies nx workspace) key = Some listed
     /\ In project listed)
  <-> exists keys, In (project, Some keys) (projects workspace)
                   /\ In key keys.
Proof.
  pose proof (fansOut_built nx workspace key project) as H.
  unfold fansOut in H. exact H.
Qed.

(** X14.  The table [main] builds has one keyed entry per key, and its
    global entries are the keys of [nx.json]'s [implicitDependencies]: a
    changed file is a global trigger exactly when it is one of them. *)
Theorem X14_table_keys_and_globals (nx : NxJsonConfiguration)
    (workspace : WorkspaceJsonConfiguration) :
  NoDup (keysOf (buildImplicitDependencies nx workspace))
  /\ forall file,
       findImplicitDependencies (buildImplicitDependencies nx workspace) file
       <> None
       <-> In file (nxKeys nx).
Proof.
  split.
  - unfold buildImplicitDependencies. rewrite keysOf_globals.
    assert (H : NoDup (keysOf [])) by constructor.
    revert H. generalize (@nil ImplicitDependency).
    induction (projects workspace) as [| [name project] rest IH];
      intros result H; simpl; [exact H |].
    apply IH. clear IH. revert result H.
    induction (match project with Some keys => keys | None => [] end)
      as [| key keys IHk]; intros result H; simpl; [exact H |].
    apply IHk. rewrite keysOf_declare. now apply JSFacts.NoDup_add.
  - intros file. split.
    + intros H.
      destruct (findImplicitDependencies
                  (buildImplicitDependencies nx workspace) file)
        as [entry |] eqn:E; [| congruence].
      apply findImplicitDependencies_Some in E. destruct E as [_ Hin].
      unfold buildImplicitDependencies in Hin. apply in_app_or in Hin.
      destruct Hin as [Hin | Hin].
      * apply in_map_iff in Hin. destruct Hin as [f [Hf Hin]].
        injection Hf as ->. exact Hin.
      * apply keyed_not_global in Hin. contradiction.
    + intros Hin.
      rewrite (findImplicitDependencies_In _ file); [discriminate |].
      unfold buildImplicitDependencies. apply in_or_app. left.
      now apply in_map.
Qed.

(** ** Whole runs *)

Lemma ignoredNames_In (ignore : list JSON) (name : string) :
  In name (ignoredNames ignore) <-> In (JString name) ignore.
Proof.
  induction ignore as [| v ignore IH]; simpl; [tauto |].
  destruct v; simpl; rewrite IH; intuition congruence.
Qed.

Section Runs.

Variable JSON_parse : string -> option JSON.

Local Abbreviation refsOf w :=
  (getBaseAndHeadRefs JSON_parse (context w) (getInput w "baseRef")
                      (getInput w "headRef") (getInput w "ignore")).

(** The run in which every collaborator answers. *)
Lemma main_success (w : World) (refs : Refs) (changedFiles : list string)
    (nx : NxJsonConfiguration) (workspace : WorkspaceJsonConfiguration)
    (apps0 libs0 : list string) :
  getOctokit w = inr tt ->
  refsOf w = inr refs ->
  compareCommits w (base refs) (head refs) = inr changedFiles ->
  readNxJson w = inr nx ->
  readWorkspaceJson w = inr workspace ->
  readdir w (appsDirOf nx) = inr apps0 ->
  readdir w (libsDirOf nx) = inr libs0 ->
  main JSON_parse w
  = ([CompareCommits (base refs) (head refs); ReadNxJson; ReadWorkspaceJson;
      Readdir (appsDirOf nx); Readdir (libsDirOf nx)]
     ++ outputsOf
          (getChanges (appsDirOf nx) (libsDirOf nx)
                      (filter notHidden apps0) (filter notHidden libs0)
                      (buildImplicitDependencies nx workspace)
                      changedFiles (ignoredNames (ignore refs))))%list.
Proof.
  intros H1 H2 H3 H4 H5 H6 H7. unfold main, run.
  rewrite H1, H2. cbn [lift bind]. rewrite H3. cbn [call bind].
  rewrite H4. cbn [call bind]. rewrite H5. cbn [call bind].
  fold (appsDirOf nx). fold (libsDirOf nx).
  rewrite H6. cbn [call bind]. rewrite H7. reflexivity.
Qed.

(** Every run, by the first collaborator that does not answer. *)
Lemma main_cases (w : World) :
  (exists requests error,
     main JSON_parse w = (requests ++ [SetFailed error])%list
     /\ forallb isRequest requests = true
     /\ (forall b h, In (CompareCommits b h) requests ->
                     refsOf w = inr {| base := b; head := h;
                                       ignore := parseIgnore JSON_parse
                                                   (getInput w "ignore") |}
                     /\ exists rest, requests = CompareCommits b h :: rest
                                     /\ forallb
                                          (fun c => match c with
                                                    | CompareCommits _ _ => false
                                                    | _ => true
                                                    end) rest = true))
  \/ (exists refs changedFiles nx workspace apps0 libs0,
        getOctokit w = inr tt
        /\ refsOf w = inr refs
        /\ compareCommits w (base refs) (head refs) = inr changedFiles
        /\ readNxJson w = inr nx
        /\ readWorkspaceJson w = inr workspace
        /\ readdir w (appsDirOf nx) = inr apps0
        /\ readdir w (libsDirOf nx) = inr libs0).
Proof.
  destruct (getOctokit w) as [e | []] eqn:H1.
  { left. exists [], e. unfold main, run. rewrite H1.
    split; [reflexivity | split; [reflexivity | intros b h []]]. }
  destruct (refsOf w) as [e | refs] eqn:H2.
  { left. exists [], e. unfold main, run. rewrite H1, H2.
    split; [reflexivity | split; [reflexivity | intros b h []]]. }
  assert (Hrefs : refs = {| base := base refs; head := head refs;
                            ignore := parseIgnore JSON_parse
                                        (getInput w "ignore") |}).
  { destruct (getBaseAndHeadRefs_outcomes JSON_parse (context w)
                (getInput w "baseRef") (getInput w "headRef")
                (getInput w "ignore")) as [[b [h [_ [_ [_ E]]]]] | [e E]];
      rewrite E in H2; try discriminate.
    now injection H2 as <-. }
  assert (Hfirst : forall rest b h,
            forallb (fun c => match c with
                              | CompareCommits _ _ => false
                              | _ => true
                              end) rest = true ->
            In (CompareCommits b h)
               (CompareCommits (base refs) (head refs) :: rest) ->
            @inr string Refs refs
            = inr {| base := b; head := h;
                     ignore := parseIgnore JSON_parse
                                 (getInput w "ignore") |}
            /\ exists rest', CompareCommits (base refs) (head refs) :: rest
                             = CompareCommits b h :: rest'
                             /\ forallb (fun c => match c with
                                                  | CompareCommits _ _ => false
                                                  | _ => true
                                                  end) rest' = true).
  { intros rest b h Hrest [E | Hin].
    - injection E as <- <-. split; [now rewrite <- Hrefs | eauto].
    - rewrite forallb_forall in Hrest. apply Hrest in Hin. discriminate. }
  destruct (compareCommits w (base refs) (head refs))
    as [e | changedFiles] eqn:H3.
  { left. exists [CompareCommits (base refs) (head refs)], e.
    unfold main, run. rewrite H1, H2. cbn [lift bind]. rewrite H3.
    split; [reflexivity | split; [reflexivity |]].
    intros b h. now apply Hfirst. }
  destruct (readNxJson w) as [e | nx] eqn:H4.
  { left. exists [CompareCommits (base refs) (head refs); ReadNxJson], e.
    unfold main, run. rewrite H1, H2. cbn [lift bind]. rewrite H3.
    cbn [call bind]. rewrite H4.
    split; [reflexivity | split; [reflexivity |]].
    intros b h. now apply Hfirst. }
  destruct (readWorkspaceJson w) as [e | workspace] eqn:H5.
  { left. exists [CompareCommits (base refs) (head refs); ReadNxJson;
                  ReadWorkspaceJson], e.
    unfold main, run. rewrite H1, H2. cbn [lift bind]. rewrite H3.
    cbn [call bind]. rewrite H4. cbn [call bind]. rewrite H5.
    split; [reflexivity | split; [reflexivity |]].
    intros b h. now apply Hfirst. }
  destruct (readdir w (appsDirOf nx)) as [e | apps0] eqn:H6.
  { left. exists [CompareCommits (base refs) (head refs); ReadNxJson;
                  ReadWorkspaceJson; Readdir (appsDirOf nx)], e.
    unfold main, run. rewrite H1, H2. cbn [lift bind]. rewrite H3.
    cbn [call bind]. rewrite H4. cbn [call bind]. rewrite H5.
    cbn [call bind]. fold (appsDirOf nx). rewrite H6.
    split; [reflexivity | split; [reflexivity |]].
    intros b h. now apply Hfirst. }
  destruct (readdir w (libsDirOf nx)) as [e | libs0] eqn:H7.
  { left. exists [CompareCommits (base refs) (head refs); ReadNxJson;
                  ReadWorkspaceJson; Readdir (appsDirOf nx);
                  Readdir (libsDirOf nx)], e.
    unfold main, run. rewrite H1, H2. cbn [lift bind]. rewrite H3.
    cbn [call bind]. rewrite H4. cbn [call bind]. rewrite H5.
    cbn [call bind]. fold (appsDirOf nx). fold (libsDirOf nx).
    rewrite H6. cbn [call bind]. rewrite H7.
    split; [reflexivity | split; [reflexivity |]].
    intros b h. now apply Hfirst. }
  right. exists refs, changedFiles, nx, workspace, apps0, libs0.
  repeat split; assumption.
Qed.

End Runs.

Section RunProperties.

Variable JSON_parse : string -> option JSON.

Local Abbreviation refsOf w :=
  (getBaseAndHeadRefs JSON_parse (context w) (getInput w "baseRef")
                      (getInput w "headRef") (getInput w "ignore")).

Local Abbreviation requestsOf refs nx :=
  [CompareCommits (base refs) (head refs); ReadNxJson; ReadWorkspaceJson;
   Readdir (appsDirOf nx); Readdir (libsDirOf nx)].

(** X15.  A run has no partial outcome.  Either a collaborator throws:
    the run then ends by reporting that error and has set no output at
    all; or the run makes its five requests in order (the comparison,
    the two workspace files, the two directories) and sets its six
    outputs, and reports no failure. *)
Theorem X15_a_run_fails_or_sets_every_output (w : World) :
  (exists requests error,
     main JSON_parse w = (requests ++ [SetFailed error])%list
     /\ forallb isRequest requests = true)
  \/ (exists refs nx changes,
        main JSON_parse w = (requestsOf refs nx ++ outputsOf changes)%list).
Proof.
  destruct (main_cases JSON_parse w)
    as [[requests [error [H [Hreq _]]]]
       | [refs [files [nx [ws [apps0 [libs0 H]]]]]]].
  - left. exists requests, error. auto.
  - right. destruct H as [H1 [H2 [H3 [H4 [H5 [H6 H7]]]]]].
    exists refs, nx. eexists.
    exact (main_success JSON_parse w refs files nx ws apps0 libs0
             H1 H2 H3 H4 H5 H6 H7).
Qed.

(** X16.  A comparison is requested at most once, as the first call of
    the run, and only for the refs that resolution returned: both are
    non-empty. *)
Theorem X16_the_comparison_comes_first (w : World) (b h : string) :
  In (CompareCommits b h) (main JSON_parse w) ->
  b <> "" /\ h <> ""
  /\ (exists parsedIgnore,
        refsOf w = inr {| base := b; head := h; ignore := parsedIgnore |})
  /\ exists rest,
       main JSON_parse w = CompareCommits b h :: rest
       /\ forall b' h', ~ In (CompareCommits b' h') rest.
Proof.
  intros Hin.
  assert (Hnonempty : forall ig,
            refsOf w = inr {| base := b; head := h; ignore := ig |} ->
            b <> "" /\ h <> "").
  { intros ig E.
    destruct (getBaseAndHeadRefs_outcomes JSON_parse (context w)
                (getInput w "baseRef") (getInput w "headRef")
                (getInput w "ignore"))
      as [[b0 [h0 [Hb [Hh [_ E']]]]] | [e E']];
      rewrite E' in E; try discriminate.
    injection E as <- <- _. auto. }
  destruct (main_cases JSON_parse w)
    as [[requests [error [H [_ Hfirst]]]]
       | [refs [files [nx [ws [apps0 [libs0 H]]]]]]].
  - rewrite H in Hin. apply in_app_or in Hin.
    destruct Hin as [Hin | [E | []]]; [| discriminate].
    destruct (Hfirst b h Hin) as [Hrefs [rest [-> Hrest]]].
    destruct (Hnonempty _ Hrefs) as [Hb Hh].
    split; [exact Hb | split; [exact Hh | split; [eauto |]]].
    exists (rest ++ [SetFailed error])%list. split; [exact H |].
    intros b' h' Hin'. apply in_app_or in Hin'.
    destruct Hin' as [Hin' | [E | []]]; [| discriminate].
    rewrite forallb_forall in Hrest. apply Hrest in Hin'. discriminate.
  - destruct H as [H1 [H2 [H3 [H4 [H5 [H6 H7]]]]]].
    pose proof (main_success JSON_parse w refs files nx ws apps0 libs0
                  H1 H2 H3 H4 H5 H6 H7) as Hmain.
    rewrite Hmain in Hin |- *. simpl in Hin.
    destruct Hin as [E | Hin].
    + injection E as <- <-. destruct refs as [b0 h0 ig]. simpl in *.
      destruct (Hnonempty _ H2) as [Hb Hh].
      split; [exact Hb | split; [exact Hh | split; [eauto |]]].
      eexists. split; [reflexivity |].
      intros b' h' Hin'. simpl in Hin'.
      repeat (destruct Hin' as [E | Hin']; [discriminate |]).
      exact Hin'.
    + exfalso. repeat (destruct Hin as [E | Hin]; [discriminate |]).
      exact Hin.
Qed.

(** X17.  End to end, a change in a library reaches the apps that
    declare it: when every collaborator answers, the refs resolve (so
    the log line of the ignore array did not throw) and both directories
    are free of regular-expression syntax, a changed file that the
    library pattern matches, and a project of [workspace.json] that
    declares the matched library and is a visible entry of the apps
    directory and is not in the ignore array, give a run whose outputs
    are those of a result with the library in [libs] and the project in
    [apps]. *)
Theorem X17_library_change_reaches_declaring_apps (w : World) (refs : Refs)
    (changedFiles : list string) (nx : NxJsonConfiguration)
    (workspace : WorkspaceJsonConfiguration) (apps0 libs0 : list string)
    (file lib project : string) (keys : list string) :
  getOctokit w = inr tt ->
  refsOf w = inr refs ->
  compareCommits w (base refs) (head refs) = inr changedFiles ->
  readNxJson w = inr nx ->
  readWorkspaceJson w = inr workspace ->
  readdir w (appsDirOf nx) = inr apps0 ->
  readdir w (libsDirOf nx) = inr libs0 ->
  plainDir (appsDirOf nx) = true -> plainDir (libsDirOf nx) = true ->
  In file changedFiles ->
  dirFinder (libsDirOf nx) file = Some lib ->
  In (project, Some keys) (projects workspace) ->
  In (lastSegment lib) keys ->
  In project apps0 -> notHidden project = true -> noSlash project = true ->
  ~ In (JString project) (ignore refs) ->
  exists changes,
    main JSON_parse w = (requestsOf refs nx ++ outputsOf changes)%list
    /\ In (lastSegment lib) (libs changes)
    /\ In project (apps changes).
Proof.
  intros H1 H2 H3 H4 H5 H6 H7 _ _ Hfile Hmatch Hdecl Hkey Hentry Hvis Hns
         Hign.
  eexists. split.
  - exact (main_success JSON_parse w refs changedFiles nx workspace
             apps0 libs0 H1 H2 H3 H4 H5 H6 H7).
  - match goal with
    | |- In _ (libs (getChanges ?a ?l ?aa ?al ?t ?f ?i)) /\ _ =>
        destruct (getChanges_unfold a l aa al t f i) as [Happs [Hlibs _]]
    end.
    split.
    + rewrite Hlibs. apply reduce_libs. right. exists file.
      split; [exact Hfile |]. right. left.
      apply libraryHit_libs. exists lib. auto.
    + apply Happs. split.
      * apply reduce_apps. right. exists file.
        split; [exact Hfile |]. right. left.
        apply libraryHit_apps.
        destruct (proj2 (fansOut_built nx workspace (lastSegment lib)
                           project)) as [listed [Hfind Hin]]; [eauto |].
        exists lib, listed, project. repeat split; try assumption.
        -- apply filter_In. auto.
        -- symmetry. now apply lastSegment_noSlash.
      * rewrite ignoredNames_In. exact Hign.
Qed.

(** X18.  End to end, a change of a file that [nx.json] names in its
    [implicitDependencies] reaches every visible project: when every
    collaborator answers, the refs resolve (so the log line of the
    ignore array did not throw) and both directories are free of
    regular-expression syntax, the outputs are those of a result that records
    the file, holds every entry of the libs directory that does not
    start with a dot, and every such entry of the apps directory that is
    not in the ignore array. *)
Theorem X18_global_file_reaches_every_visible_project (w : World)
    (refs : Refs) (changedFiles : list string) (nx : NxJsonConfiguration)
    (workspace : WorkspaceJsonConfiguration) (apps0 libs0 : list string)
    (file : string) :
  getOctokit w = inr tt ->
  refsOf w = inr refs ->
  compareCommits w (base refs) (head refs) = inr changedFiles ->
  readNxJson w = inr nx ->
  readWorkspaceJson w = inr workspace ->
  readdir w (appsDirOf nx) = inr apps0 ->
  readdir w (libsDirOf nx) = inr libs0 ->
  plainDir (appsDirOf nx) = true -> plainDir (libsDirOf nx) = true ->
  In file changedFiles ->
  In file (nxKeys nx) ->
  exists changes,
    main JSON_parse w = (requestsOf refs nx ++ outputsOf changes)%list
    /\ In file (implicitDependencies changes)
    /\ (forall app, In app apps0 -> notHidden app = true ->
                    noSlash app = true ->
                    ~ In (JString app) (ignore refs) ->
                    In app (apps changes))
    /\ (forall lib, In lib libs0 -> notHidden lib = true ->
                    noSlash lib = true -> In lib (libs changes)).
Proof.
  intros H1 H2 H3 H4 H5 H6 H7 _ _ Hfile Hkey.
  assert (Hglobal : In (Global file) (buildImplicitDependencies nx workspace)).
  { unfold buildImplicitDependencies. apply in_or_app. left.
    now apply in_map. }
  eexists. split.
  - exact (main_success JSON_parse w refs changedFiles nx workspace
             apps0 libs0 H1 H2 H3 H4 H5 H6 H7).
  - match goal with
    | |- In _ (implicitDependencies (getChanges ?a ?l ?aa ?al ?t ?f ?i)) /\ _ =>
        destruct (getChanges_unfold a l aa al t f i) as [Happs [Hlibs Himpl]]
    end.
    split; [| split].
    + rewrite Himpl, reduce_implicitDependencies. simpl.
      apply filter_In. split; [exact Hfile |].
      now apply recordedFile_In.
    + intros app Hin Hvis Hns Hign. apply Happs. split.
      * apply reduce_apps. right. exists file. split; [exact Hfile |].
        left. apply globalHit_apps. split; [exact Hglobal |].
        exists app. split; [apply filter_In; auto |].
        symmetry. now apply lastSegment_noSlash.
      * rewrite ignoredNames_In. exact Hign.
    + intros lib Hin Hvis Hns. rewrite Hlibs.
      apply reduce_libs. right. exists file. split; [exact Hfile |].
      left. apply globalHit_libs. split; [exact Hglobal |].
      exists lib. split; [apply filter_In; auto |].
      symmetry. now apply lastSegment_noSlash.
Qed.

(** X19.  End to end, nothing is reported that is not there: every name
    in the [changed-apps-matrix] output of a run is absent from the ignore
    array and is the project segment of a changed file that the
    application pattern matches, or the last segment of an entry of the
    apps directory that does not start with a dot. *)
Theorem X19_reported_apps_exist (w : World) (names : list string)
    (name : string) :
  In (SetOutput "changed-apps-matrix" (Names names)) (main JSON_parse w) ->
  In name names ->
  exists refs changedFiles nx apps0,
    refsOf w = inr refs
    /\ compareCommits w (base refs) (head refs) = inr changedFiles
    /\ readNxJson w = inr nx
    /\ readdir w (appsDirOf nx) = inr apps0
    /\ ~ In (JString name) (ignore refs)
    /\ ((exists file app, In file changedFiles
           /\ dirFinder (appsDirOf nx) file = Some app
           /\ name = lastSegment app)
        \/ (exists entry, In entry apps0 /\ notHidden entry = true
                          /\ name = lastSegment entry)).
Proof.
  intros Hout Hname.
  destruct (main_cases JSON_parse w)
    as [[requests [error [H [Hreq _]]]]
       | [refs [files [nx [ws [apps0 [libs0 H]]]]]]].
  - exfalso. rewrite H in Hout. apply in_app_or in Hout.
    destruct Hout as [Hout | [E | []]]; [| discriminate].
    rewrite forallb_forall in Hreq. apply Hreq in Hout. discriminate.
  - destruct H as [H1 [H2 [H3 [H4 [H5 [H6 H7]]]]]].
    rewrite (main_success JSON_parse w refs files nx ws apps0 libs0
               H1 H2 H3 H4 H5 H6 H7) in Hout.
    apply in_app_or in Hout. destruct Hout as [Hout | Hout].
    { exfalso. simpl in Hout.
      repeat (destruct Hout as [E | Hout]; [discriminate |]). exact Hout. }
    unfold outputsOf in Hout.
    destruct Hout as [E | Hout];
      [| exfalso; simpl in Hout;
         repeat (destruct Hout as [E | Hout]; [discriminate |]);
         exact Hout].
    injection E as <-.
    exists refs, files, nx, apps0.
    split; [exact H2 | split; [exact H3 | split; [exact H4 |
      split; [exact H6 |]]]].
    apply getChanges_unfold in Hname. destruct Hname as [Hin Hign].
    split; [now rewrite <- ignoredNames_In |].
    apply reduce_apps in Hin. simpl in Hin.
    destruct Hin as [[] | [file [Hfile Hrule]]].
    rewrite globalHit_apps, libraryHit_apps, applicationHit_apps in Hrule.
    destruct Hrule
      as [[_ [app [Happ ->]]]
         | [[lib [ps [p [_ [_ [_ [Happ ->]]]]]]] | [app [Happ ->]]]].
    + right. apply filter_In in Happ. exists app. tauto.
    + right. apply filter_In in Happ. exists p. tauto.
    + left. eauto.
Qed.

End RunProperties.

Example sample_run_on_a_library_change :
  main sampleParse (sampleWorld ["libs/core/src/a.ts"] "")
  = [CompareCommits "1f3a" "9c2e"; ReadNxJson; ReadWorkspaceJson;
     Readdir "apps"; Readdir "libs";
     SetOutput "changed-apps-matrix" (Names ["web"; "admin"]);
     SetOutput "changed-apps" (Text "web admin");
     SetOutput "changed-libs" (Text "core");
     SetOutput "changed-dirs" (Text "web admin core");
     SetOutput "changed-implicit-dependencies" (Text "");
     SetOutput "not-affected" (Flag false)].
Proof. reflexivity. Qed.

Lemma X16_witness :
  In (CompareCommits "1f3a" "9c2e")
     (main sampleParse (sampleWorld ["libs/core/src/a.ts"] ""))
  /\ "1f3a" <> "" /\ "9c2e" <> ""
  /\ exists rest,
       main sampleParse (sampleWorld ["libs/core/src/a.ts"] "")
       = CompareCommits "1f3a" "9c2e" :: rest
       /\ forall b' h', ~ In (CompareCommits b' h') rest.
Proof.
  assert (H : In (CompareCommits "1f3a" "9c2e")
                 (main sampleParse (sampleWorld ["libs/core/src/a.ts"] "")))
    by (left; reflexivity).
  split; [exact H |].
  destruct (X16_the_comparison_comes_first sampleParse
              (sampleWorld ["libs/core/src/a.ts"] "") "1f3a" "9c2e" H)
    as [Hb [Hh [_ Hrest]]].
  split; [exact Hb | split; [exact Hh | exact Hrest]].
Defined.

Lemma X17_witness :
  let w := sampleWorld ["libs/core/src/a.ts"] "" in
  let refs := {| base := "1f3a"; head := "9c2e"; ignore := [] |} in
  let nx := {| nx_implicitDependencies := Some ["package.json"];
               nx_workspaceLayout := None |} in
  dirFinder (libsDirOf nx) "libs/core/src/a.ts" = Some "libs/core"
  /\ exists changes,
       main sampleParse w
       = ([CompareCommits (base refs) (head refs); ReadNxJson;
           ReadWorkspaceJson; Readdir (appsDirOf nx); Readdir (libsDirOf nx)]
          ++ outputsOf changes)%list
       /\ In (lastSegment "libs/core") (libs changes)
       /\ In "web" (apps changes).
Proof.
  intros w refs nx.
  assert (Hmatch : dirFinder (libsDirOf nx) "libs/core/src/a.ts"
                   = Some "libs/core") by reflexivity.
  split; [exact Hmatch |].
  apply (X17_library_change_reaches_declaring_apps sampleParse w refs
           ["libs/core/src/a.ts"] nx
           {| projects := [("web", Some ["core"]); ("admin", Some ["core"]);
                           ("core", None)] |}
           ["web"; "admin"; ".gitkeep"] ["core"]
           "libs/core/src/a.ts" "libs/core" "web" ["core"]);
    try reflexivity; try exact Hmatch; simpl; auto.
Defined.

Lemma X18_witness :
  let w := sampleWorld ["package.json"] "" in
  let refs := {| base := "1f3a"; head := "9c2e"; ignore := [] |} in
  let nx := {| nx_implicitDependencies := Some ["package.json"];
               nx_workspaceLayout := None |} in
  In "package.json" (nxKeys nx)
  /\ exists changes,
       main sampleParse w
       = ([CompareCommits (base refs) (head refs); ReadNxJson;
           ReadWorkspaceJson; Readdir (appsDirOf nx); Readdir (libsDirOf nx)]
          ++ outputsOf changes)%list
       /\ In "package.json" (implicitDependencies changes)
       /\ In "admin" (apps changes) /\ In "core" (libs changes).
Proof.
  intros w refs nx.
  assert (Hkey : In "package.json" (nxKeys nx)) by (left; reflexivity).
  split; [exact Hkey |].
  assert (Hfile : In "package.json" ["package.json"]) by (left; reflexivity).
  destruct (X18_global_file_reaches_every_visible_project sampleParse w refs
              ["package.json"] nx
              {| projects := [("web", Some ["core"]); ("admin", Some ["core"]);
                              ("core", None)] |}
              ["web"; "admin"; ".gitkeep"] ["core"] "package.json"
              eq_refl eq_refl eq_refl eq_refl eq_refl eq_refl eq_refl
              eq_refl eq_refl Hfile Hkey)
    as [changes [Hmain [Himpl [Happs Hlibs]]]].
  exists changes. split; [exact Hmain | split; [exact Himpl | split]].
  - apply Happs; simpl; auto.
  - apply Hlibs; simpl; auto.
Defined.

Lemma X19_witness :
  let w := sampleWorld ["libs/core/src/a.ts"] "" in
  In (SetOutput "changed-apps-matrix" (Names ["web"; "admin"]))
     (main sampleParse w)
  /\ In "admin" ["web"; "admin"]
  /\ exists refs changedFiles nx apps0,
       getBaseAndHeadRefs sampleParse (context w) (getInput w "baseRef")
                          (getInput w "headRef") (getInput w "ignore")
       = inr refs
       /\ compareCommits w (base refs) (head refs) = inr changedFiles
       /\ readNxJson w = inr nx
       /\ readdir w (appsDirOf nx) = inr apps0
       /\ ~ In (JString "admin") (ignore refs)
       /\ ((exists file app, In file changedFiles
              /\ dirFinder (appsDirOf nx) file = Some app
              /\ "admin" = lastSegment app)
           \/ (exists entry, In entry apps0 /\ notHidden entry = true
                             /\ "admin" = lastSegment entry)).
Proof.
  intros w.
  assert (H1 : In (SetOutput "changed-apps-matrix" (Names ["web"; "admin"]))
                  (main sampleParse w)).
  { do 5 right. left. reflexivity. }
  assert (H2 : In "admin" ["web"; "admin"]) by (right; left; reflexivity).
  split; [exact H1 | split; [exact H2 |]].
  exact (X19_reported_apps_exist sampleParse w ["web"; "admin"] "admin"
           H1 H2).
Defined.

(** ** The revision without project listings *)

Lemma noSlash_append (a b : string) :
  noSlash (a ++ b) = noSlash a && noSlash b.
Proof.
  induction a as [| c a IH]; simpl; [reflexivity |].
  now rewrite IH, andb_assoc.
Qed.

Lemma projectPath_hasSlash (dir name : string) :
  hasSlash (projectPath dir name) = true.
Proof.
  unfold hasSlash, projectPath. rewrite noSlash_append. simpl.
  now rewrite andb_false_r.
Qed.

Section Part000Facts.

Variables findApp findLib : string -> option string.
Variable files : list string.

Local Abbreviation step := (Part000.reducer findApp findLib files).

Lemma Part000_reducer_apps (acc : AccumulatedChanges) (file x : string) :
  In x (acc_apps (step acc file)) <->
  In x (acc_apps acc) \/ (findApp file = Some x /\ x <> "").
Proof.
  unfold Part000.reducer.
  destruct (findApp file) as [[| c a] |];
    destruct (findLib file) as [[| c' l] |];
    destruct (Part000.findImplicitDependencies files file) as [[| c'' d] |];
    simpl; rewrite ?JSFacts.In_add;
    (split; [intros [H | H]; [now left | right; subst; split; congruence]
            | intros [H | [H Hne]]; [auto | try congruence;
                                             injection H as <-; auto]])
    || (split; [auto | intros [H | [H Hne]]; [exact H | congruence]]).
Qed.

Lemma Part000_reducer_libs (acc : AccumulatedChanges) (file x : string) :
  In x (acc_libs (step acc file)) <->
  In x (acc_libs acc) \/ (findLib file = Some x /\ x <> "").
Proof.
  unfold Part000.reducer.
  destruct (findApp file) as [[| c a] |];
    destruct (findLib file) as [[| c' l] |];
    destruct (Part000.findImplicitDependencies files file) as [[| c'' d] |];
    simpl; rewrite ?JSFacts.In_add;
    (split; [intros [H | H]; [now left | right; subst; split; congruence]
            | intros [H | [H Hne]]; [auto | try congruence;
                                             injection H as <-; auto]])
    || (split; [auto | intros [H | [H Hne]]; [exact H | congruence]]).
Qed.

Lemma Part000_reducer_implicitDependencies (acc : AccumulatedChanges)
    (file : string) :
  acc_implicitDependencies (step acc file)
  = (acc_implicitDependencies acc
       ++ if JS.includes files file && JS.truthy (Some file)
          then [file] else [])%list.
Proof.
  unfold Part000.reducer, Part000.findImplicitDependencies, JS.find.
  assert (Hfind : List.find (fun dependency => String.eqb file dependency)
                            files
                  = if JS.includes files file then Some file else None).
  { unfold JS.includes. induction files as [| f fs IH]; simpl; [reflexivity |].
    destruct (String.eqb_spec file f) as [-> | _]; [reflexivity | exact IH]. }
  rewrite Hfind.
  destruct (findApp file) as [[| c a] |];
    destruct (findLib file) as [[| c' l] |];
    destruct (JS.includes files file); destruct file as [| c'' d];
    simpl; rewrite ?app_nil_r; reflexivity.
Qed.

Lemma Part000_reducer_NoDup (acc : AccumulatedChanges) (file : string) :
  NoDup (acc_apps acc) /\ NoDup (acc_libs acc) ->
  NoDup (acc_apps (step acc file)) /\ NoDup (acc_libs (step acc file)).
Proof.
  intros [Ha Hl]. unfold Part000.reducer.
  destruct (findApp file) as [[| c a] |];
    destruct (findLib file) as [[| c' l] |];
    destruct (Part000.findImplicitDependencies files file) as [[| c'' d] |];
    simpl; split; auto using JSFacts.NoDup_add.
Qed.

Lemma Part000_reduce_apps (changedFiles : list string)
    (acc : AccumulatedChanges) (x : string) :
  In x (acc_apps (fold_left step changedFiles acc)) <->
  In x (acc_apps acc)
  \/ exists file, In file changedFiles /\ findApp file = Some x /\ x <> "".
Proof.
  revert acc. induction changedFiles as [| f fs IH]; intros acc; simpl.
  - split; [auto | intros [H | [file [[] _]]]; exact H].
  - rewrite IH, Part000_reducer_apps. split.
    + intros [[H | H] | [file [Hin H]]]; eauto 6.
    + intros [H | [file [[-> | Hin] H]]]; eauto 6.
Qed.

Lemma Part000_reduce_libs (changedFiles : list string)
    (acc : AccumulatedChanges) (x : string) :
  In x (acc_libs (fold_left step changedFiles acc)) <->
  In x (acc_libs acc)
  \/ exists file, In file changedFiles /\ findLib file = Some x /\ x <> "".
Proof.
  revert acc. induction changedFiles as [| f fs IH]; intros acc; simpl.
  - split; [auto | intros [H | [file [[] _]]]; exact H].
  - rewrite IH, Part000_reducer_libs. split.
    + intros [[H | H] | [file [Hin H]]]; eauto 6.
    + intros [H | [file [[-> | Hin] H]]]; eauto 6.
Qed.

Lemma Part000_reduce_implicitDependencies (changedFiles : list string)
    (acc : AccumulatedChanges) :
  acc_implicitDependencies (fold_left step changedFiles acc)
  = (acc_implicitDependencies acc
       ++ filter (fun file => JS.includes files file
                              && JS.truthy (Some file)) changedFiles)%list.
Proof.
  revert acc.
  induction changedFiles as [| f fs IH]; intros acc; cbn [fold_left filter].
  - now rewrite app_nil_r.
  - rewrite IH, Part000_reducer_implicitDependencies, <- app_assoc.
    now destruct (JS.includes files f && JS.truthy (Some f)).
Qed.

Lemma Part000_reduce_NoDup (changedFiles : list string)
    (acc : AccumulatedChanges) :
  NoDup (acc_apps acc) /\ NoDup (acc_libs acc) ->
  NoDup (acc_apps (fold_left step changedFiles acc))
  /\ NoDup (acc_libs (fold_left step changedFiles acc)).
Proof.
  revert acc. induction changedFiles as [| f fs IH]; intros acc H; simpl.
  - exact H.
  - apply IH, Part000_reducer_NoDup, H.
Qed.

End Part000Facts.

Section Part000Results.

Variables appsDir libsDir : string.
Variable recorded : list string.

(** X20.  In the revision without project listings, a path is in the
    returned [apps] exactly when it is not ignored and is what the
    application pattern captures in some changed file, and the same for
    [libs] with the library pattern; both sets hold no path twice. *)
Theorem X20_Part000_sets_are_the_matched_paths
    (changedFiles ignore : list string) :
  let result := Part000.getChanges appsDir libsDir recorded
                                   changedFiles ignore in
  (forall path, In path (apps result) <->
     ~ In path ignore
     /\ exists file, In file changedFiles
                     /\ dirFinder appsDir file = Some path)
  /\ (forall path, In path (libs result) <->
        ~ In path ignore
        /\ exists file, In file changedFiles
                        /\ dirFinder libsDir file = Some path)
  /\ NoDup (apps result) /\ NoDup (libs result).
Proof.
  unfold Part000.getChanges. simpl.
  split; [| split; [| split]].
  - intros path.
    rewrite filter_In, negb_true_iff, JSFacts.includes_false,
            Part000_reduce_apps.
    simpl. split.
    + intros [[[] | [file [Hin [H _]]]] Hign]. eauto.
    + intros [Hign [file [Hin H]]]. split; [| exact Hign].
      right. exists file. split; [exact Hin | split; [exact H |]].
      destruct (dirFinder_truthy _ _ _ H) as [c [l ->]]. discriminate.
  - intros path.
    rewrite filter_In, negb_true_iff, JSFacts.includes_false,
            Part000_reduce_libs.
    simpl. split.
    + intros [[[] | [file [Hin [H _]]]] Hign]. eauto.
    + intros [Hign [file [Hin H]]]. split; [| exact Hign].
      right. exists file. split; [exact Hin | split; [exact H |]].
      destruct (dirFinder_truthy _ _ _ H) as [c [l ->]]. discriminate.
  - apply NoDup_filter, Part000_reduce_NoDup. simpl. split; constructor.
  - apply NoDup_filter, Part000_reduce_NoDup. simpl. split; constructor.
Qed.

(** X21.  In the revision without project listings the returned
    [implicitDependencies] is the list of changed files, in their order
    and with their repetitions, that are among the recorded file names
    (and are not the empty string); [ignore] plays no part. *)
Theorem X21_Part000_implicitDependencies
    (changedFiles ignore : list string) :
  implicitDependencies (Part000.getChanges appsDir libsDir recorded
                                           changedFiles ignore)
  = filter (fun file => JS.includes recorded file && JS.truthy (Some file))
           changedFiles.
Proof.
  unfold Part000.getChanges. simpl.
  now rewrite Part000_reduce_implicitDependencies.
Qed.

Lemma filter_ignore_bare (dir : string) (set ignore : list string)
    (name : string) :
  noSlash name = true ->
  (forall path, In path set -> exists seg, path = projectPath dir seg) ->
  filter (fun x => negb (JS.includes (name :: ignore) x)) set
  = filter (fun x => negb (JS.includes ignore x)) set.
Proof.
  intros Hns Hshape. apply filter_ext_in. intros path Hin. f_equal.
  unfold JS.includes. simpl.
  destruct (String.eqb_spec path name) as [-> | _]; [| reflexivity].
  destruct (Hshape _ Hin) as [seg E].
  pose proof (projectPath_hasSlash dir seg) as Hs.
  rewrite <- E in Hs. unfold hasSlash in Hs. rewrite Hns in Hs. discriminate.
Qed.

(** X22.  In the revision without project listings the sets hold matched
    paths, [<dir>/<name>], so an ignore entry without a slash, a bare
    project name, removes nothing: the result is the same with or
    without it. *)
Theorem X22_Part000_bare_name_ignores_nothing
    (changedFiles ignore : list string) (name : string) :
  plainDir appsDir = true -> plainDir libsDir = true ->
  noSlash name = true ->
  Part000.getChanges appsDir libsDir recorded changedFiles (name :: ignore)
  = Part000.getChanges appsDir libsDir recorded changedFiles ignore.
Proof.
  intros _ _ Hns. unfold Part000.getChanges. f_equal.
  - apply (filter_ignore_bare appsDir); [exact Hns |].
    intros path Hin. apply Part000_reduce_apps in Hin.
    destruct Hin as [[] | [file [_ [H _]]]].
    destruct (dirFinder_shape _ _ _ H) as [_ [seg [_ [_ [_ [_ [_ ->]]]]]]].
    eauto.
  - apply (filter_ignore_bare libsDir); [exact Hns |].
    intros path Hin. apply Part000_reduce_libs in Hin.
    destruct Hin as [[] | [file [_ [H _]]]].
    destruct (dirFinder_shape _ _ _ H) as [_ [seg [_ [_ [_ [_ [_ ->]]]]]]].
    eauto.
Qed.

(** X23.  With no implicit dependencies configured, the current revision
    reports the last segments of what the revision without project
    listings reports: a name is in its [apps] exactly when it is the
    last segment of a path in the earlier [apps], and the same for
    [libs] (no ignore list on either side). *)
Theorem X23_revisions_agree_up_to_last_segment
    (allApps allLibs changedFiles : list string) (name : string) :
  (In name (apps (getChanges appsDir libsDir allApps allLibs []
                             changedFiles []))
   <-> exists path,
         In path (apps (Part000.getChanges appsDir libsDir recorded
                                           changedFiles []))
         /\ name = lastSegment path)
  /\ (In name (libs (getChanges appsDir libsDir allApps allLibs []
                                changedFiles []))
      <-> exists path,
            In path (libs (Part000.getChanges appsDir libsDir recorded
                                              changedFiles []))
            /\ name = lastSegment path).
Proof.
  destruct (getChanges_unfold appsDir libsDir allApps allLibs []
              changedFiles []) as [Happs [Hlibs _]].
  assert (Hold :
    (forall path,
       In path (apps (Part000.getChanges appsDir libsDir recorded
                                         changedFiles []))
       <-> exists file, In file changedFiles
                        /\ dirFinder appsDir file = Some path)
    /\ (forall path,
          In path (libs (Part000.getChanges appsDir libsDir recorded
                                            changedFiles []))
          <-> exists file, In file changedFiles
                           /\ dirFinder libsDir file = Some path)).
  { unfold Part000.getChanges. simpl. split; intros path.
    - rewrite filter_In, Part000_reduce_apps. simpl. split.
      + intros [[[] | [file [Hin [H _]]]] _]. eauto.
      + intros [file [Hin H]]. split; [| reflexivity]. right.
        exists file. split; [exact Hin | split; [exact H |]].
        destruct (dirFinder_truthy _ _ _ H) as [c [l ->]]. discriminate.
    - rewrite filter_In, Part000_reduce_libs. simpl. split.
      + intros [[[] | [file [Hin [H _]]]] _]. eauto.
      + intros [file [Hin H]]. split; [| reflexivity]. right.
        exists file. split; [exact Hin | split; [exact H |]].
        destruct (dirFinder_truthy _ _ _ H) as [c [l ->]]. discriminate. }
  destruct Hold as [Hold_apps Hold_libs].
  split.
  - rewrite Happs, reduce_apps.
    unfold initialChanges. cbn [acc_apps acc_libs In]. split.
    + intros [[[] | [file [Hin H]]] _].
      rewrite globalHit_apps, libraryHit_apps, applicationHit_apps in H.
      destruct H as [[[] _] | [[lib [ps [p [_ [F _]]]]] | [app [Ha ->]]]];
        [discriminate F |].
      exists app. split; [apply Hold_apps; eauto | reflexivity].
    + intros [path [Hin ->]]. split; [| tauto].
      apply Hold_apps in Hin. destruct Hin as [file [Hin H]].
      right. exists file. split; [exact Hin |]. right. right.
      apply applicationHit_apps. eauto.
  - rewrite Hlibs, reduce_libs.
    unfold initialChanges. cbn [acc_apps acc_libs In]. split.
    + intros [[] | [file [Hin H]]].
      rewrite globalHit_libs, libraryHit_libs, applicationHit_libs in H.
      destruct H as [[[] _] | [[lib [Hl [-> | [ps [p [F _]]]]]] | []]];
        [| discriminate F].
      exists lib. split; [apply Hold_libs; eauto | reflexivity].
    + intros [path [Hin ->]].
      apply Hold_libs in Hin. destruct Hin as [file [Hin H]].
      right. exists file. split; [exact Hin |]. right. left.
      apply libraryHit_libs. eauto.
Qed.

End Part000Results.

Lemma X22_witness :
  plainDir "apps" = true /\ plainDir "libs" = true /\ noSlash "web" = true
  /\ Part000.getChanges "apps" "libs" [] ["apps/web/src/index.ts"] ["web"]
     = {| apps := ["apps/web"]; libs := []; implicitDependencies := [] |}.
Proof.
  assert (H1 : plainDir "apps" = true) by reflexivity.
  assert (H2 : plainDir "libs" = true) by reflexivity.
  assert (H3 : noSlash "web" = true) by reflexivity.
  split; [exact H1 | split; [exact H2 | split; [exact H3 |]]].
  rewrite (X22_Part000_bare_name_ignores_nothing "apps" "libs" []
             ["apps/web/src/index.ts"] [] "web" H1 H2 H3).
  reflexivity.
Defined.

(** ** The revision with project listings and no ignore input *)

Lemma slice_append (a b : string) :
  SecondRevision.slice (String.length a) (a ++ b) = b.
Proof. induction a as [| c a IH]; simpl; [now destruct b | exact IH]. Qed.

Lemma slice_projectPath (dir name : string) :
  SecondRevision.slice (String.length dir + 1) (projectPath dir name) = name.
Proof.
  unfold projectPath.
  replace (String.length dir + 1) with (String.length (dir ++ "/")).
  - replace (dir ++ String "/" name) with ((dir ++ "/") ++ name).
    + apply slice_append.
    + now rewrite append_assoc.
  - induction dir as [| c dir IH]; simpl; [reflexivity | now rewrite IH].
Qed.

Section SecondRevisionFacts.

Variables appsDir libsDir : string.
Variables allApps allLibs : list string.
Variable table : list ImplicitDependency.

Local Abbreviation step2 :=
  (SecondRevision.reducer (dirFinder appsDir) (dirFinder libsDir) libsDir
                          allApps allLibs table).

Lemma SecondRevision_markProject_apps (acc : SecondRevision.Changes)
    (project x : string) :
  In x (SecondRevision.apps
          (SecondRevision.markProject allApps allLibs acc project)) <->
  In x (SecondRevision.apps acc) \/ (x = project /\ In x allApps).
Proof.
  unfold SecondRevision.markProject.
  destruct (JS.includes allApps project) eqn:Ea;
    destruct (JS.includes allLibs project); simpl;
    rewrite ?JSFacts.In_add;
    [apply JSFacts.includes_In in Ea | apply JSFacts.includes_In in Ea
     | apply JSFacts.includes_false in Ea
     | apply JSFacts.includes_false in Ea];
    split; intros H;
    repeat match goal with
           | H : _ \/ _ |- _ => destruct H
           | H : _ /\ _ |- _ => destruct H
           end; subst; auto; contradiction.
Qed.

Lemma SecondRevision_markProject_libs (acc : SecondRevision.Changes)
    (project x : string) :
  In x (SecondRevision.libs
          (SecondRevision.markProject allApps allLibs acc project)) <->
  In x (SecondRevision.libs acc) \/ (x = project /\ In x allLibs).
Proof.
  unfold SecondRevision.markProject.
  destruct (JS.includes allApps project);
    destruct (JS.includes allLibs project) eqn:El; simpl;
    rewrite ?JSFacts.In_add;
    [apply JSFacts.includes_In in El | apply JSFacts.includes_false in El
     | apply JSFacts.includes_In in El
     | apply JSFacts.includes_false in El];
    split; intros H;
    repeat match goal with
           | H : _ \/ _ |- _ => destruct H
           | H : _ /\ _ |- _ => destruct H
           end; subst; auto; contradiction.
Qed.

Lemma SecondRevision_fanOut_apps (projects : list string)
    (acc : SecondRevision.Changes) (x : string) :
  In x (SecondRevision.apps
          (fold_left (SecondRevision.markProject allApps allLibs)
                     projects acc)) <->
  In x (SecondRevision.apps acc) \/ (In x projects /\ In x allApps).
Proof.
  revert acc. induction projects as [| p ps IH]; intros acc; simpl.
  - tauto.
  - rewrite IH, SecondRevision_markProject_apps.
    split; intros H;
      repeat match goal with
             | H : _ \/ _ |- _ => destruct H
             | H : _ /\ _ |- _ => destruct H
             end; subst; auto.
Qed.

Lemma SecondRevision_fanOut_libs (projects : list string)
    (acc : SecondRevision.Changes) (x : string) :
  In x (SecondRevision.libs
          (fold_left (SecondRevision.markProject allApps allLibs)
                     projects acc)) <->
  In x (SecondRevision.libs acc) \/ (In x projects /\ In x allLibs).
Proof.
  revert acc. induction projects as [| p ps IH]; intros acc; simpl.
  - tauto.
  - rewrite IH, SecondRevision_markProject_libs.
    split; intros H;
      repeat match goal with
             | H : _ \/ _ |- _ => destruct H
             | H : _ /\ _ |- _ => destruct H
             end; subst; auto.
Qed.

Lemma SecondRevision_fanOut_rest (projects : list string)
    (acc : SecondRevision.Changes) :
  SecondRevision.implicitDependencies
    (fold_left (SecondRevision.markProject allApps allLibs) projects acc)
  = SecondRevision.implicitDependencies acc
  /\ (NoDup (SecondRevision.apps acc) /\ NoDup (SecondRevision.libs acc) ->
      NoDup (SecondRevision.apps
               (fold_left (SecondRevision.markProject allApps allLibs)
                          projects acc))
      /\ NoDup (SecondRevision.libs
                  (fold_left (SecondRevision.markProject allApps allLibs)
                             projects acc))).
Proof.
  revert acc. induction projects as [| p ps IH]; intros acc; simpl.
  - tauto.
  - destruct (IH (SecondRevision.markProject allApps allLibs acc p))
      as [Hi Hn].
    rewrite Hi. unfold SecondRevision.markProject in *.
    destruct (JS.includes allApps p); destruct (JS.includes allLibs p);
      simpl in *; (split; [reflexivity |]); intros [Ha Hl]; apply Hn;
      split; auto using JSFacts.NoDup_add.
Qed.

(** What one step of the second revision adds. *)
Lemma SecondRevision_reducer_apps (acc : SecondRevision.Changes)
    (file x : string) :
  In x (SecondRevision.apps (step2 acc file)) <->
  In x (SecondRevision.apps acc)
  \/ (In (Global file) table /\ In x allApps)
  \/ (exists lib projects,
        dirFinder libsDir file = Some lib
        /\ findProjects table
             (SecondRevision.slice (String.length libsDir + 1) lib)
           = Some projects
        /\ In x projects /\ In x allApps)
  \/ dirFinder appsDir file = Some x.
Proof.
  unfold SecondRevision.reducer.
  rewrite <- recordedFile_In. unfold recordedFile.
  rewrite findImplicitDependencies_existsb.
  destruct (findImplicitDependencies table file) as [entry |];
    (destruct (dirFinder libsDir file) as [lib |] eqn:El;
       [destruct (dirFinder_truthy _ _ _ El) as [c [l ->]] |]);
    (destruct (dirFinder appsDir file) as [app |] eqn:Ea;
       [destruct (dirFinder_truthy _ _ _ Ea) as [c' [a ->]] |]);
    simpl;
    try match goal with
        | |- context [findProjects table ?k] =>
            destruct (findProjects table k) as [projects |] eqn:F
        end;
    simpl; rewrite ?JSFacts.In_add, ?SecondRevision_fanOut_apps; simpl;
    rewrite ?JSFacts.In_addEach, ?map_id;
    split; intros H;
    repeat match goal with
           | H : _ \/ _ |- _ => destruct H
           | H : _ /\ _ |- _ => destruct H
           | H : exists _, _ |- _ => destruct H
           | H : Some _ = Some _ |- _ => injection H as H; subst
           | F : ?t = Some ?p, H : ?t = Some ?q |- _ =>
               assert (q = p) by congruence; subst q; clear H
           | F : ?t = None, H : ?t = Some _ |- _ => congruence
           end;
    subst; try discriminate; try congruence; eauto 10.
Qed.

Lemma SecondRevision_reducer_libs (acc : SecondRevision.Changes)
    (file x : string) :
  In x (SecondRevision.libs (step2 acc file)) <->
  In x (SecondRevision.libs acc)
  \/ (In (Global file) table /\ In x allLibs)
  \/ (exists lib,
        dirFinder libsDir file = Some lib
        /\ (x = lib
            \/ exists projects,
                 findProjects table
                   (SecondRevision.slice (String.length libsDir + 1) lib)
                 = Some projects
                 /\ In x projects /\ In x allLibs)).
Proof.
  unfold SecondRevision.reducer.
  rewrite <- recordedFile_In. unfold recordedFile.
  rewrite findImplicitDependencies_existsb.
  destruct (findImplicitDependencies table file) as [entry |];
    (destruct (dirFinder libsDir file) as [lib |] eqn:El;
       [destruct (dirFinder_truthy _ _ _ El) as [c [l ->]] |]);
    (destruct (dirFinder appsDir file) as [app |] eqn:Ea;
       [destruct (dirFinder_truthy _ _ _ Ea) as [c' [a ->]] |]);
    simpl;
    try match goal with
        | |- context [findProjects table ?k] =>
            destruct (findProjects table k) as [projects |] eqn:F
        end;
    simpl; rewrite ?SecondRevision_fanOut_libs; simpl;
    rewrite ?JSFacts.In_add, ?JSFacts.In_addEach, ?map_id;
    split; intros H;
    repeat match goal with
           | H : _ \/ _ |- _ => destruct H
           | H : _ /\ _ |- _ => destruct H
           | H : exists _, _ |- _ => destruct H
           | H : Some _ = Some _ |- _ => injection H as H; subst
           | F : ?t = Some ?p, H : ?t = Some ?q |- _ =>
               assert (q = p) by congruence; subst q; clear H
           | F : ?t = None, H : ?t = Some _ |- _ => congruence
           end;
    subst; try discriminate; try congruence; eauto 10.
Qed.

End SecondRevisionFacts.

Section SecondRevisionResults.

Variables appsDir libsDir : string.
Variables allApps allLibs : list string.
Variable table : list ImplicitDependency.

Local Abbreviation step2 :=
  (SecondRevision.reducer (dirFinder appsDir) (dirFinder libsDir) libsDir
                          allApps allLibs table).

Lemma SecondRevision_reducer_rest (acc : SecondRevision.Changes)
    (file : string) :
  SecondRevision.implicitDependencies (step2 acc file)
  = (SecondRevision.implicitDependencies acc
       ++ if recordedFile table file then [Global file] else [])%list
  /\ (NoDup (SecondRevision.apps acc) /\ NoDup (SecondRevision.libs acc) ->
      NoDup (SecondRevision.apps (step2 acc file))
      /\ NoDup (SecondRevision.libs (step2 acc file))).
Proof.
  unfold SecondRevision.reducer, recordedFile.
  rewrite findImplicitDependencies_existsb.
  set (acc1 := match findImplicitDependencies table file with
               | Some _ => _ | None => acc end).
  assert (H1 : SecondRevision.implicitDependencies acc1
               = (SecondRevision.implicitDependencies acc
                    ++ match findImplicitDependencies table file with
                       | Some _ => [Global file]
                       | None => []
                       end)%list
               /\ (NoDup (SecondRevision.apps acc)
                   /\ NoDup (SecondRevision.libs acc) ->
                   NoDup (SecondRevision.apps acc1)
                   /\ NoDup (SecondRevision.libs acc1))).
  { subst acc1.
    destruct (findImplicitDependencies table file) as [entry |] eqn:E.
    - destruct (findImplicitDependencies_Some _ _ _ E) as [-> _]. simpl.
      split; [reflexivity |]. intros [Ha Hl].
      split; now apply JSFacts.NoDup_addEach.
    - split; [now rewrite app_nil_r | auto]. }
  clearbody acc1. destruct H1 as [Hi1 Hn1].
  set (acc2 := match dirFinder libsDir file with
               | Some _ => _ | None => acc1 end).
  assert (H2 : SecondRevision.implicitDependencies acc2
               = SecondRevision.implicitDependencies acc1
               /\ (NoDup (SecondRevision.apps acc1)
                   /\ NoDup (SecondRevision.libs acc1) ->
                   NoDup (SecondRevision.apps acc2)
                   /\ NoDup (SecondRevision.libs acc2))).
  { subst acc2. destruct (dirFinder libsDir file) as [[| c l] |]; simpl;
      try (split; [reflexivity | auto]).
    destruct (findProjects table _) as [projects |].
    - destruct (SecondRevision_fanOut_rest allApps allLibs projects
                  (SecondRevision.withLibs acc1
                     (JS.add (SecondRevision.libs acc1) (String c l))))
        as [Hi Hn].
      rewrite Hi. split; [reflexivity |]. intros [Ha Hl]. apply Hn.
      simpl. split; [exact Ha | now apply JSFacts.NoDup_add].
    - simpl. split; [reflexivity |]. intros [Ha Hl].
      split; [exact Ha | now apply JSFacts.NoDup_add]. }
  clearbody acc2. destruct H2 as [Hi2 Hn2].
  destruct (dirFinder appsDir file) as [[| c a] |]; simpl;
    rewrite Hi2, Hi1;
    (split;
     [now destruct (findImplicitDependencies table file)
     | intros H; destruct (Hn2 (Hn1 H)) as [Ha Hl];
       auto using JSFacts.NoDup_add]).
Qed.

Lemma SecondRevision_reduce_apps (files : list string)
    (acc : SecondRevision.Changes) (x : string) :
  In x (SecondRevision.apps (fold_left step2 files acc)) <->
  In x (SecondRevision.apps acc)
  \/ exists file, In file files
       /\ ((In (Global file) table /\ In x allApps)
           \/ (exists lib projects,
                 dirFinder libsDir file = Some lib
                 /\ findProjects table
                      (SecondRevision.slice (String.length libsDir + 1) lib)
                    = Some projects
                 /\ In x projects /\ In x allApps)
           \/ dirFinder appsDir file = Some x).
Proof.
  revert acc. induction files as [| f files IH]; intros acc; simpl.
  - split; [auto | intros [H | [file [[] _]]]; exact H].
  - rewrite IH, SecondRevision_reducer_apps. split.
    + intros [[H | H] | [file [Hin H]]]; eauto 6.
    + intros [H | [file [[-> | Hin] H]]]; eauto 6.
Qed.

Lemma SecondRevision_reduce_libs (files : list string)
    (acc : SecondRevision.Changes) (x : string) :
  In x (SecondRevision.libs (fold_left step2 files acc)) <->
  In x (SecondRevision.libs acc)
  \/ exists file, In file files
       /\ ((In (Global file) table /\ In x allLibs)
           \/ (exists lib,
                 dirFinder libsDir file = Some lib
                 /\ (x = lib
                     \/ exists projects,
                          findProjects table
                            (SecondRevision.slice (String.length libsDir + 1)
                                                  lib)
                          = Some projects
                          /\ In x projects /\ In x allLibs))).
Proof.
  revert acc. induction files as [| f files IH]; intros acc; simpl.
  - split; [auto | intros [H | [file [[] _]]]; exact H].
  - rewrite IH, SecondRevision_reducer_libs. split.
    + intros [[H | H] | [file [Hin H]]]; eauto 6.
    + intros [H | [file [[-> | Hin] H]]]; eauto 6.
Qed.

Lemma SecondRevision_reduce_rest (files : list string)
    (acc : SecondRevision.Changes) :
  SecondRevision.implicitDependencies (fold_left step2 files acc)
  = (SecondRevision.implicitDependencies acc
       ++ map Global (filter (recordedFile table) files))%list
  /\ (NoDup (SecondRevision.apps acc) /\ NoDup (SecondRevision.libs acc) ->
      NoDup (SecondRevision.apps (fold_left step2 files acc))
      /\ NoDup (SecondRevision.libs (fold_left step2 files acc))).
Proof.
  revert acc.
  induction files as [| f files IH]; intros acc; cbn [fold_left filter].
  - simpl. rewrite app_nil_r. auto.
  - destruct (IH (step2 acc f)) as [Hi Hn].
    destruct (SecondRevision_reducer_rest acc f) as [Hi' Hn'].
    split; [| auto].
    rewrite Hi, Hi', <- app_assoc.
    now destruct (recordedFile table f).
Qed.

(** The key the second revision looks up is the one the current revision
    looks up. *)
Lemma slice_is_lastSegment (file lib : string) :
  dirFinder libsDir file = Some lib ->
  SecondRevision.slice (String.length libsDir + 1) lib = lastSegment lib.
Proof.
  intros H.
  destruct (dirFinder_shape _ _ _ H) as [_ [seg [_ [_ [_ [Hns [_ ->]]]]]]].
  rewrite slice_projectPath. unfold projectPath.
  symmetry. now apply lastSegment_project.
Qed.

(** X24.  The second revision returns no app and no lib twice, and its
    [implicitDependencies] holds, for each changed file that is the
    recorded file of a global entry, in order and with repetitions, the
    entry itself, not the file name. *)
Theorem X24_SecondRevision_sets_and_entries (changedFiles : list string) :
  let result := SecondRevision.getChanges appsDir libsDir allApps allLibs
                                          table changedFiles in
  NoDup (SecondRevision.apps result)
  /\ NoDup (SecondRevision.libs result)
  /\ SecondRevision.implicitDependencies result
     = map Global (filter (recordedFile table) changedFiles).
Proof.
  unfold SecondRevision.getChanges.
  destruct (SecondRevision_reduce_rest changedFiles
              SecondRevision.initialChanges) as [Hi Hn].
  destruct Hn as [Ha Hl]; [simpl; split; constructor |].
  split; [exact Ha | split; [exact Hl | exact Hi]].
Qed.

(** X25.  The two revisions with project listings mark the same
    projects, the current one under their last segment: for a library
    directory without regular-expression syntax, a name is in the
    current [apps] (no ignore list) exactly when it is the last segment
    of something in the second revision's [apps], the same holds for
    [libs], and the second revision's [implicitDependencies] are the
    global entries of the files in the current one's. *)
Theorem X25_current_is_second_up_to_last_segment
    (changedFiles : list string) :
  plainDir libsDir = true ->
  let current := getChanges appsDir libsDir allApps allLibs table
                            changedFiles [] in
  let second := SecondRevision.getChanges appsDir libsDir allApps allLibs
                                          table changedFiles in
  (forall name, In name (apps current) <->
     exists stored, In stored (SecondRevision.apps second)
                    /\ name = lastSegment stored)
  /\ (forall name, In name (libs current) <->
        exists stored, In stored (SecondRevision.libs second)
                       /\ name = lastSegment stored)
  /\ SecondRevision.implicitDependencies second
     = map Global (implicitDependencies current).
Proof.
  intros _ current second.
  destruct (getChanges_unfold appsDir libsDir allApps allLibs table
              changedFiles []) as [Happs [Hlibs Himpl]].
  fold current in Happs, Hlibs, Himpl.
  split; [| split].
  - intros name. rewrite Happs, reduce_apps.
    unfold initialChanges. cbn [acc_apps In].
    setoid_rewrite globalHit_apps. setoid_rewrite libraryHit_apps.
    setoid_rewrite applicationHit_apps.
    unfold second, SecondRevision.getChanges.
    setoid_rewrite SecondRevision_reduce_apps.
    unfold SecondRevision.initialChanges. cbn [SecondRevision.apps In].
    split.
    + intros [[[] | [file [Hin H]]] _].
      destruct H as [[Hg [app [Ha ->]]]
                    | [[lib [ps [p [Hl [F [Hp [Ha ->]]]]]]] | [app [Ha ->]]]].
      * exists app. split; [| reflexivity]. right. exists file. auto.
      * exists p. split; [| reflexivity]. right. exists file.
        split; [exact Hin |]. right. left. exists lib, ps.
        rewrite (slice_is_lastSegment _ _ Hl). auto.
      * exists app. split; [| reflexivity]. right. exists file. auto.
    + intros [stored [[[] | [file [Hin H]]] ->]]. split; [| tauto].
      right. exists file. split; [exact Hin |].
      destruct H as [[Hg Ha] | [[lib [ps [Hl [F [Hp Ha]]]]] | Ha]].
      * left. eauto.
      * right. left. exists lib, ps, stored.
        rewrite <- (slice_is_lastSegment _ _ Hl). auto.
      * right. right. eauto.
  - intros name. rewrite Hlibs, reduce_libs.
    unfold initialChanges. cbn [acc_libs In].
    setoid_rewrite globalHit_libs. setoid_rewrite libraryHit_libs.
    setoid_rewrite applicationHit_libs.
    unfold second, SecondRevision.getChanges.
    setoid_rewrite SecondRevision_reduce_libs.
    unfold SecondRevision.initialChanges. cbn [SecondRevision.libs In].
    split.
    + intros [[] | [file [Hin H]]].
      destruct H as [[Hg [lib [Ha ->]]]
                    | [[lib [Hl [-> | [ps [p [F [Hp [Ha ->]]]]]]]] | []]].
      * exists lib. split; [| reflexivity]. right. exists file. auto.
      * exists lib. split; [| reflexivity]. right. exists file.
        split; [exact Hin |]. right. exists lib. auto.
      * exists p. split; [| reflexivity]. right. exists file.
        split; [exact Hin |]. right. exists lib. split; [exact Hl |].
        right. exists ps. rewrite (slice_is_lastSegment _ _ Hl). auto.
    + intros [stored [[[] | [file [Hin H]]] ->]].
      right. exists file. split; [exact Hin |].
      destruct H as [[Hg Ha] | [lib [Hl [-> | [ps [F [Hp Ha]]]]]]].
      * left. eauto.
      * right. left. exists lib. auto.
      * right. left. exists lib. split; [exact Hl |]. right.
        exists ps, stored. rewrite <- (slice_is_lastSegment _ _ Hl). auto.
  - rewrite Himpl, reduce_implicitDependencies. simpl.
    unfold second, SecondRevision.getChanges.
    destruct (SecondRevision_reduce_rest changedFiles
                SecondRevision.initialChanges) as [Hi _].
    exact Hi.
Qed.

End SecondRevisionResults.

Lemma X25_witness :
  let table := [Global "nx.json"; Keyed "core" ["web"]] in
  let files := ["libs/core/a.ts"; "nx.json"] in
  plainDir "libs" = true
  /\ SecondRevision.getChanges "apps" "libs" ["web"; "admin"] ["core"]
                               table files
     = {| SecondRevision.apps := ["web"; "admin"];
          SecondRevision.libs := ["libs/core"; "core"];
          SecondRevision.implicitDependencies := [Global "nx.json"] |}
  /\ (In "core" (libs (getChanges "apps" "libs" ["web"; "admin"] ["core"]
                                  table files []))
      <-> exists stored,
            In stored (SecondRevision.libs
                         (SecondRevision.getChanges
                            "apps" "libs" ["web"; "admin"] ["core"]
                            table files))
            /\ "core" = lastSegment stored).
Proof.
  intros table files.
  assert (H : plainDir "libs" = true) by reflexivity.
  split; [exact H | split; [reflexivity |]].
  destruct (X25_current_is_second_up_to_last_segment
              "apps" "libs" ["web"; "admin"] ["core"] table files H)
    as [_ [Hlibs _]].
  exact (Hlibs "core").
Defined.

(** ** Files inside a project *)

(** X26.  A changed file [<appsDir>/<name>/<rest>], where both
    directories are free of regular-expression syntax, [name] is a
    non-empty path component and [rest] does not begin with a line
    terminator (line feed, carriage return, U+2028, U+2029), puts [name]
    in the returned [apps] unless [name] is ignored. *)
Theorem X26_file_inside_app_is_marked (appsDir libsDir : string)
    (allApps allLibs : list string) (table : list ImplicitDependency)
    (changedFiles ignore : list string) (name rest : string) :
  plainDir appsDir = true -> plainDir libsDir = true ->
  name <> "" -> noSlash name = true -> startsOnLine rest = true ->
  In (inside appsDir name rest) changedFiles ->
  ~ In name ignore ->
  In name (apps (getChanges appsDir libsDir allApps allLibs table
                            changedFiles ignore)).
Proof.
  intros _ _ Hne Hns Hrest Hfile Hign.
  apply getChanges_unfold. split; [| assumption].
  pose proof (dirFinder_inside appsDir name rest Hne Hns Hrest) as Hmatch.
  apply reduce_reaches with (file := inside appsDir name rest); auto.
  - intros acc'. apply reducer_apps. right. right. right.
    rewrite (applicationHit_fires _ _ _ Hmatch). simpl. left.
    unfold projectPath. now apply lastSegment_project.
  - intros acc' file'. apply reducer_keeps_apps.
Qed.

Lemma X26_witness :
  plainDir "apps" = true /\ plainDir "libs" = true
  /\ "web" <> "" /\ noSlash "web" = true
  /\ startsOnLine "src/index.ts" = true
  /\ In (inside "apps" "web" "src/index.ts") ["apps/web/src/index.ts"]
  /\ ~ In "web" ["admin"]
  /\ In "web" (apps (getChanges "apps" "libs" ["web"] [] []
                                ["apps/web/src/index.ts"] ["admin"])).
Proof.
  assert (H0 : plainDir "libs" = true) by reflexivity.
  assert (H1 : plainDir "apps" = true) by reflexivity.
  assert (H2 : "web" <> "") by discriminate.
  assert (H3 : noSlash "web" = true) by reflexivity.
  assert (H4 : startsOnLine "src/index.ts" = true) by reflexivity.
  assert (H5 : In (inside "apps" "web" "src/index.ts")
                  ["apps/web/src/index.ts"]) by (left; reflexivity).
  assert (H6 : ~ In "web" ["admin"]).
  { intros [H | []]. discriminate H. }
  repeat split; try assumption.
  exact (X26_file_inside_app_is_marked "apps" "libs" ["web"] [] []
           ["apps/web/src/index.ts"] ["admin"] "web" "src/index.ts"
           H1 H0 H2 H3 H4 H5 H6).
Defined.

(** ** Reference resolution for the other events *)

Section OtherEvents.

Variable JSON_parse : string -> option JSON.

(** X27.  For an event that is neither [pull_request] nor [push],
    resolution fails with the missing-refs error exactly when the
    supplied base or head is empty (an input that is not supplied reads
    as the empty string); with both non-empty it returns that pair and
    the parsed ignore array when the array can be joined for the log
    line, and throws the [TypeError] of the conversion when it cannot;
    and a run whose base or head is empty requests no comparison: once
    the client is built, its only call is the report of the failure. *)
Theorem X27_other_events_outcome (ctx : Context)
    (baseRef headRef rawIgnore : string) :
  eventName ctx <> "pull_request" -> eventName ctx <> "push" ->
  let outcome :=
    getBaseAndHeadRefs JSON_parse ctx baseRef headRef rawIgnore in
  let missingRefs :=
    "Missing 'base' or 'head' refs for event type '"
      ++ eventName ctx ++ "'" in
  let parsedIgnore := parseIgnore JSON_parse rawIgnore in
  (outcome = inl missingRefs <-> baseRef = "" \/ headRef = "")
  /\ (baseRef <> "" -> headRef <> "" ->
      outcome = if joins parsedIgnore
                then inr {| base := baseRef; head := headRef;
                            ignore := parsedIgnore |}
                else inl cannotConvert)
  /\ (forall w : World,
        context w = ctx ->
        getInput w "baseRef" = baseRef -> getInput w "headRef" = headRef ->
        getInput w "ignore" = rawIgnore ->
        baseRef = "" \/ headRef = "" ->
        (forall b h, ~ In (CompareCommits b h) (main JSON_parse w))
        /\ (getOctokit w = inr tt ->
            main JSON_parse w = [SetFailed missingRefs])).
Proof.
  intros Hpr Hpush outcome missingRefs parsedIgnore.
  assert (Hout : outcome
    = if negb (JS.truthy (Some baseRef)) || negb (JS.truthy (Some headRef))
      then inl missingRefs
      else if joins parsedIgnore
      then inr {| base := baseRef; head := headRef;
                  ignore := parsedIgnore |}
      else inl cannotConvert)
    by now apply getBaseAndHeadRefs_default.
  assert (Hfail : baseRef = "" \/ headRef = "" -> outcome = inl missingRefs).
  { intros [-> | ->]; rewrite Hout; simpl; [reflexivity |].
    now rewrite orb_true_r. }
  assert (Hok : baseRef <> "" -> headRef <> "" ->
                outcome = if joins parsedIgnore
                          then inr {| base := baseRef; head := headRef;
                                      ignore := parsedIgnore |}
                          else inl cannotConvert).
  { intros Hb Hh. rewrite Hout.
    apply truthy_Some in Hb, Hh. now rewrite Hb, Hh. }
  split; [| split].
  - split; [| exact Hfail].
    intros Herr.
    destruct baseRef as [| b bs]; [now left |].
    destruct headRef as [| h hs]; [now right |].
    rewrite Hok in Herr by discriminate.
    destruct (joins parsedIgnore); discriminate Herr.
  - exact Hok.
  - intros w Hctx Hbase Hhead Hign Hempty.
    assert (Hrun : main JSON_parse w
                   = match getOctokit w with
                     | inl error => [SetFailed error]
                     | inr _ => [SetFailed missingRefs]
                     end).
    { unfold main, run. rewrite Hctx, Hbase, Hhead, Hign.
      fold outcome. rewrite (Hfail Hempty).
      destruct (getOctokit w); reflexivity. }
    split.
    + intros b h. rewrite Hrun.
      destruct (getOctokit w); intros [H | []]; discriminate H.
    + intros Hclient. rewrite Hrun, Hclient. reflexivity.
Qed.

End OtherEvents.

Lemma X27_witness :
  eventName dispatchContext <> "pull_request"
  /\ eventName dispatchContext <> "push"
  /\ getBaseAndHeadRefs sampleParse dispatchContext "main" "" ""
     = inl "Missing 'base' or 'head' refs for event type 'workflow_dispatch'"
  /\ getBaseAndHeadRefs sampleParse dispatchContext "main" "feature" "[1]"
     = inr {| base := "main"; head := "feature"; ignore := [JNumber "1"] |}
  /\ main sampleParse (dispatchWorld "main" "")
     = [SetFailed
          "Missing 'base' or 'head' refs for event type 'workflow_dispatch'"].
Proof.
  assert (H1 : eventName dispatchContext <> "pull_request") by discriminate.
  assert (H2 : eventName dispatchContext <> "push") by discriminate.
  destruct (X27_other_events_outcome sampleParse dispatchContext
              "main" "" "" H1 H2) as [[_ Hfail] [_ Hmain]].
  destruct (X27_other_events_outcome sampleParse dispatchContext
              "main" "feature" "[1]" H1 H2) as [_ [Hok _]].
  split; [exact H1 | split; [exact H2 | split; [| split]]].
  - apply Hfail. now right.
  - apply Hok; discriminate.
  - apply (Hmain (dispatchWorld "main" "")); try reflexivity. now right.
Defined.
